(** * ZerePy: swap execution, token approval and the action dispatch layer

    A shallow embedding of
      - [src/connections/sonic_connection.py]  (SonicConnection: balance,
        route, encode, approval, swap),
      - [src/helpers/evm/trade.py]             (EvmTradeHelper.trade),
      - [src/actions/evm_actions.py]           (the evm-* actions),
    as programs of a state-and-exception monad over a model of the outside
    world (the JSON-RPC node, the aggregator HTTP service, the process
    environment).  Every call that leaves the repository is recorded in a
    trace, so that statements such as "no request is made to the aggregator"
    or "the transaction is submitted with gas 500000" are statements about
    the trace of a run. *)

From Stdlib Require Import ZArith List String Ascii Bool Lia QArith DecimalString.
Import ListNotations.
Local Open Scope string_scope.
Local Open Scope Z_scope.

Set Implicit Arguments.
Set Warnings "-register-all".

(* ===================================================================== *)
(** ** Python exceptions and results *)
(* ===================================================================== *)

(** The exception classes the three files raise by name, one constructor
    for every other class derived from [Exception] (the errors of web3,
    requests, eth_account and eth_defi, and built-in ones such as
    OverflowError), and [SystemExit], which [sys.exit] raises and which
    derives from [BaseException] only. *)
Inductive exn : Type :=
| SonicConnectionError (msg : string)
| ValueError (msg : string)
| KeyError (key : string)
| AttributeError (msg : string)
| AssertionError (msg : string)
| NameError (name : string)
| OtherException (cls msg : string)
| SystemExit (code : Z).

(** [isinstance(e, Exception)]: what an [except Exception] clause catches. *)
Definition is_Exception (e : exn) : bool :=
  match e with
  | SystemExit _ => false
  | _ => true
  end.

(** [str(e)] *)
Definition str_exn (e : exn) : string :=
  match e with
  | SonicConnectionError m | ValueError m | AttributeError m
  | AssertionError m => m
  | KeyError k => "'" ++ k ++ "'"
  | NameError n => "name '" ++ n ++ "' is not defined"
  | OtherException _ m => m
  | SystemExit _ => ""
  end.

Inductive result (A : Type) : Type :=
| Return (a : A)
| Raise (e : exn).
Arguments Return {A} a.
Arguments Raise {A} e.

(** An error of a library: its class name and message.  Library code only
    raises classes derived from [Exception]. *)
Definition liberr : Type := (string * string)%type.
Definition lib (A : Type) : Type := (liberr + A)%type.

Definition exn_of_liberr (e : liberr) : exn := OtherException (fst e) (snd e).

(* ===================================================================== *)
(** ** Strings *)
(* ===================================================================== *)

(** [str.lower()] on the ASCII range: addresses are ASCII. *)
Definition lower_ascii (c : ascii) : ascii :=
  let n := nat_of_ascii c in
  if (Nat.leb 65 n && Nat.leb n 90)%bool then ascii_of_nat (n + 32) else c.

Fixpoint lower (s : string) : string :=
  match s with
  | EmptyString => EmptyString
  | String c r => String (lower_ascii c) (lower r)
  end.

(** [s.startswith(p)] *)
Definition startswith (p s : string) : bool := String.prefix p s.

(** Truthiness of an optional string: [None] and the empty string are falsy. *)
Definition nonempty (o : option string) : option string :=
  match o with
  | Some s => if String.eqb s "" then None else Some s
  | None => None
  end.

(* ===================================================================== *)
(** ** Floating point numbers and library functions, as an interface *)
(* ===================================================================== *)

(** Python floats are kept abstract: the programs below only multiply, add,
    compare and truncate them, and nothing proved about their control flow
    depends on how these operations round.  [RationalFloat] further down
    instantiates the interface with exact rationals to run the programs. *)
Class PyFloat : Type := {
  float : Type;
  float_of_int : Z -> float;          (* int operand of a float operation *)
  fmul : float -> float -> float;     (* x * y *)
  fadd : float -> float -> float;     (* x + y *)
  truediv : Z -> Z -> lib float;      (* int / int *)
  int_of_float : float -> lib Z;      (* int(x): OverflowError, ValueError *)
  flt : float -> float -> bool;       (* x < y *)
  fge_int : float -> Z -> bool;       (* x >= n, n an int *)
  feq_int : float -> Z -> bool;       (* x == n, n an int *)
  float_0_5 : float;                  (* the literal 0.5 *)
  str_float : float -> string         (* str(x) *)
}.

(* ===================================================================== *)
(** ** The monad: state, exceptions, trace *)
(* ===================================================================== *)

Section Monad.
Variables W E : Type.

(** The outcome of a run: the value returned or the exception raised, the
    state it leaves, and the entries it added to the trace. *)
Record Out (A : Type) : Type := mkOut {
  res : result A;
  post : W;
  trace : list E
}.

Definition Run (A : Type) : Type := W -> Out A.

Definition ret {A} (a : A) : Run A := fun w => mkOut (Return a) w [].

Definition raise {A} (e : exn) : Run A := fun w => mkOut (Raise e) w [].

Definition bind {A B} (m : Run A) (f : A -> Run B) : Run B := fun w =>
  let o := m w in
  match res o with
  | Return a => let o' := f a (post o) in
                mkOut (res o') (post o') (trace o ++ trace o')
  | Raise e => mkOut (Raise e) (post o) (trace o)
  end.

(** [try: m  except Exception as e: h e] *)
Definition try_except {A} (m : Run A) (h : exn -> Run A) : Run A := fun w =>
  let o := m w in
  match res o with
  | Return a => o
  | Raise e => if is_Exception e
               then let o' := h e (post o) in
                    mkOut (res o') (post o') (trace o ++ trace o')
               else o
  end.

Definition lift {A} (r : result A) : Run A :=
  match r with Return a => ret a | Raise e => raise e end.

(** The result of a pure library function. *)
Definition lift_lib {A} (r : lib A) : Run A :=
  match r with inr a => ret a | inl e => raise (exn_of_liberr e) end.

End Monad.

Arguments mkOut {W E A} res post trace.
Arguments res {W E A} o.
Arguments post {W E A} o.
Arguments trace {W E A} o.
Arguments ret {W E A} a.
Arguments raise {W E A} e.
Arguments bind {W E A B} m f.
Arguments try_except {W E A} m h.
Arguments lift {W E A} r.
Arguments lift_lib {W E A} r.

Declare Scope monad_scope.
Delimit Scope monad_scope with monad.
Notation "x <- m ;; k" := (bind m (fun x => k))
  (at level 61, m at next level, right associativity) : monad_scope.
Notation "' p <- m ;; k" := (bind m (fun p => k))
  (at level 61, p pattern, m at next level, right associativity) : monad_scope.
Notation "m ;; k" := (bind m (fun _ => k))
  (at level 61, right associativity) : monad_scope.
Local Open Scope monad_scope.

(** [str(n)] for an int. *)
Definition str_int (n : Z) : string := NilZero.string_of_int (Z.to_int n).

Section Model.
Context {F : PyFloat}.

(* ===================================================================== *)
(** ** Python values, transactions *)
(* ===================================================================== *)

(** The values that cross the JSON and keyword-argument boundaries. *)
Inductive value : Type :=
| VNone
| VBool (b : bool)
| VInt (n : Z)
| VFloat (x : float)
| VStr (s : string)
| VList (l : list value)
| VDict (kv : list (string * value)).

(** [bool(v)] *)
Definition truthy (v : value) : bool :=
  match v with
  | VNone => false
  | VBool b => b
  | VInt n => negb (n =? 0)
  | VFloat x => negb (feq_int x 0)
  | VStr s => negb (String.eqb s "")
  | VList l => match l with [] => false | _ => true end
  | VDict kv => match kv with [] => false | _ => true end
  end.

(** [v != n] for an int [n]: [False == 0] and [True == 1] in Python. *)
Definition ne_int (v : value) (n : Z) : bool :=
  match v with
  | VInt m => negb (m =? n)
  | VBool b => negb ((if b then 1 else 0) =? n)
  | VFloat x => negb (feq_int x n)
  | _ => true
  end.

Fixpoint assoc (k : string) (kv : list (string * value)) : option value :=
  match kv with
  | [] => None
  | (k', v) :: r => if String.eqb k k' then Some v else assoc k r
  end.

(** [d.get(k, default)] *)
Definition dict_get (d : value) (k : string) (default : value) : result value :=
  match d with
  | VDict kv => Return (match assoc k kv with Some v => v | None => default end)
  | _ => Raise (AttributeError "object has no attribute 'get'")
  end.

(** [d[k]] *)
Definition subscript (d : value) (k : string) : result value :=
  match d with
  | VDict kv => match assoc k kv with
                | Some v => Return v
                | None => Raise (KeyError k)
                end
  | _ => Raise (OtherException "TypeError" "object is not subscriptable")
  end.

Definition is_dict (v : value) : bool :=
  match v with VDict _ => true | _ => false end.

(** The call data of a transaction. *)
Inductive calldata : Type :=
| RawData (hex : string)                          (* bytes from the aggregator *)
| ApproveData (spender : string) (amount : Z)     (* ERC20 approve(spender, amount) *)
| ExactInputData (token_in token_out : string) (amount_in : Z)
                 (recipient : string) (max_slippage : Z) (pool_fees : list Z).

(** A transaction dictionary (TxParams): a missing key is [None]. *)
Record Tx : Type := mkTx {
  tx_from : option string;
  tx_to : option string;
  tx_data : option calldata;
  tx_nonce : option Z;
  tx_gasPrice : option Z;
  tx_chainId : option Z;
  tx_value : option Z;
  tx_gas : option Z
}.

Definition set_gas (g : Z) (tx : Tx) : Tx :=
  mkTx (tx_from tx) (tx_to tx) (tx_data tx) (tx_nonce tx) (tx_gasPrice tx)
       (tx_chainId tx) (tx_value tx) (Some g).

Record SignedTx : Type := mkSigned { stx_tx : Tx; stx_key : string }.

(** A bound contract function, as [contract.functions.f(args)] gives it. *)
Inductive contract_fn : Type :=
| Approve (spender : value) (amount : Z)
| ExactInput (token_in token_out : string) (amount_in : Z)
             (recipient : string) (max_slippage : Z) (pool_fees : list Z).

Inductive view : Type :=
| Decimals
| BalanceOf (owner : string)
| Allowance (owner : string) (spender : value).

(* ===================================================================== *)
(** ** Calls that leave the repository *)
(* ===================================================================== *)

Inductive call : Type :=
| IsConnected
| EthChainId
| EthGasPrice
| EthBlockNumber
| EthGetBalance (address : string)
| EthGetTransactionCount (address : string)
| ContractCall (token : string) (v : view)
| BuildTransaction (contract : string) (fn : contract_fn) (base : Tx)
| EstimateGas (tx : Tx)
| SignTransaction (key : string) (tx : Tx)
| SendRawTransaction (stx : SignedTx)
| SendTransaction (tx : Tx)
| WaitForTransactionReceipt (tx_hash : SignedTx)
| HttpGet (url : string) (headers params : list (string * string))
| HttpPost (url : string) (headers : list (string * string)) (payload : value)
| FetchDeployment (router : string)
| FetchErc20Details (token : option string)
| FetchBalanceOf (token owner : string)
| ReadContract (token : option string) (fn : string)
| SwapWithSlippageProtection (fn : contract_fn)
| Input (prompt : string)
| WaitTransactionsToComplete (hashes : list SignedTx)
| FetchRevertReason (tx_hash : SignedTx).

Record HttpResponse : Type := mkResponse {
  status_code : Z;
  body : option value                         (* None: not JSON *)
}.

(** eth_defi's [TokenDetails]. *)
Record TokenDetails : Type := mkDetails {
  td_address : string;
  td_symbol : string;
  td_decimals : N
}.

(** What a call gave back. *)
Inductive reply : Type :=
| RBool (b : bool)
| RInt (n : Z)
| RStr (s : string)
| RValue (v : value)
| RTx (tx : Tx)
| RSigned (stx : SignedTx)
| RResponse (r : HttpResponse)
| RDetails (t : TokenDetails)
| RFn (fn : contract_fn)
| RReceipts (l : list (SignedTx * Z)).

(** A trace entry: the call, and the error it raised or what it returned.
    The trace of a run is the transcript of its dealings with the world. *)
Definition entry : Type := (call * lib reply)%type.

(* ===================================================================== *)
(** ** The outside world *)
(* ===================================================================== *)

Record Token : Type := mkToken {
  symbol : string;
  decimals : N;                               (* uint8 on chain *)
  balanceOf : string -> Z;
  allowance : string -> string -> Z           (* owner, spender *)
}.

Definition allowances : Type := string -> string -> string -> Z.

(** What a run cannot change. *)
Record Env : Type := mkEnv {
  environ : string -> option string;          (* os.getenv *)
  clock : float;                              (* time.time() *)
  stdin : string;                             (* the reply to input() *)
  node_connected : bool;
  chain_id : Z;
  gas_price : Z;
  block_number : Z;
  eth_balance : string -> Z;
  gas_for : Tx -> option Z;                   (* None: estimation fails *)
  fate : SignedTx -> option Z;                (* receipt status; None: never mined *)
  hash_hex : SignedTx -> string;              (* tx_hash.hex() *)
  http_get : string -> list (string * string) -> list (string * string) -> HttpResponse;
  http_post : string -> list (string * string) -> value -> HttpResponse;
  read_contract : option string -> string -> lib Z;
  revert_reason : SignedTx -> string;
  faults : nat -> option liberr               (* the n-th call fails in transit *)
}.

(** What a run changes: the ERC20 contracts (allowances), nonces, the
    node's record of what was submitted to it (each transaction with the
    allowance table it met), the signing middleware, the number of calls
    made so far and the log. *)
Record State : Type := mkState {
  erc20 : string -> option Token;
  transaction_count : string -> Z;
  submitted : list (SignedTx * allowances);
  middleware : option string;
  ncalls : nat;
  log : list (string * string)
}.

Record World : Type := mkWorld { env : Env; st : State }.

Definition allowance_of (s : State) : allowances :=
  fun token owner spender =>
    match erc20 s token with
    | Some t => allowance t owner spender
    | None => 0
    end.

Definition with_state (f : State -> State) (w : World) : World :=
  mkWorld (env w) (f (st w)).

Definition tick (s : State) : State :=
  mkState (erc20 s) (transaction_count s) (submitted s)
          (middleware s) (S (ncalls s)) (log s).

Definition add_log (level msg : string) (s : State) : State :=
  mkState (erc20 s) (transaction_count s) (submitted s)
          (middleware s) (ncalls s) (log s ++ [(level, msg)]).

Definition set_middleware (k : string) (s : State) : State :=
  mkState (erc20 s) (transaction_count s) (submitted s)
          (Some k) (ncalls s) (log s).

Definition set_allowance (token owner spender : string) (amount : Z)
    (s : State) : State :=
  mkState
    (fun t => if String.eqb t token then
                match erc20 s token with
                | Some tk =>
                    Some (mkToken (symbol tk) (decimals tk) (balanceOf tk)
                            (fun o sp => if (String.eqb o owner && String.eqb sp spender)%bool
                                         then amount else allowance tk o sp))
                | None => None
                end
              else erc20 s t)
    (transaction_count s) (submitted s)
    (middleware s) (ncalls s) (log s).

Definition note_submitted (stx : SignedTx) (s : State) : State :=
  mkState (erc20 s) (transaction_count s)
          (submitted s ++ [(stx, allowance_of s)])
          (middleware s) (ncalls s) (log s).

Definition bump_nonce (sender : option string) (s : State) : State :=
  mkState (erc20 s)
          (fun a => match sender with
                    | Some f => if String.eqb a f then transaction_count s a + 1
                                else transaction_count s a
                    | None => transaction_count s a
                    end)
          (submitted s) (middleware s) (ncalls s) (log s).

(** The effect of a mined, successful transaction: an ERC20 approve sets
    the allowance of its spender to its amount; the effect of router call
    data is the router's business and is not modelled. *)
Definition apply_effect (tx : Tx) (s : State) : State :=
  match tx_data tx, tx_to tx, tx_from tx with
  | Some (ApproveData spender amount), Some token, Some owner =>
      set_allowance token owner spender amount s
  | _, _, _ => s
  end.

(** The node receives a signed transaction: [fate] says whether it is
    mined and with which receipt status. *)
Definition mine (e : Env) (stx : SignedTx) (s : State) : State :=
  let s1 := note_submitted stx s in
  match fate e stx with
  | None => s1
  | Some status =>
      let s2 := bump_nonce (tx_from (stx_tx stx)) s1 in
      if status =? 1 then apply_effect (stx_tx stx) s2 else s2
  end.

(* ===================================================================== *)
(** ** The monad at the world: logging, environment, outside calls *)
(* ===================================================================== *)

Definition M (A : Type) : Type := Run World entry A.

Definition logger (level msg : string) : M unit := fun w =>
  mkOut (Return tt) (with_state (add_log level msg) w) [].

Definition getenv (name : string) : M (option string) := fun w =>
  mkOut (Return (environ (env w) name)) w [].

(** A call that leaves the repository: it is counted and recorded; it
    fails in transit when the fault oracle says so, and otherwise does
    what [sem] says on the world. *)
Definition ext {A} (c : call) (show : A -> reply)
    (sem : Env -> State -> lib A * State) : M A := fun w =>
  let s0 := tick (st w) in
  match faults (env w) (ncalls (st w)) with
  | Some e => mkOut (Raise (exn_of_liberr e)) (mkWorld (env w) s0) [(c, inl e)]
  | None =>
      let r := sem (env w) s0 in
      match fst r with
      | inl e => mkOut (Raise (exn_of_liberr e)) (mkWorld (env w) (snd r)) [(c, inl e)]
      | inr a => mkOut (Return a) (mkWorld (env w) (snd r)) [(c, inr (show a))]
      end
  end.

(** A call that reads the world and changes nothing. *)
Definition ask {A} (c : call) (show : A -> reply) (sem : Env -> State -> lib A) : M A :=
  ext c show (fun e s => (sem e s, s)).


Definition time_time : M float := fun w =>
  mkOut (Return (clock (env w))) w [].

(* ===================================================================== *)
(** ** Pure library functions and the constants of src.constants *)
(* ===================================================================== *)

(** Functions of web3, eth_account and eth_defi that compute without
    calling out, and the constants [GAS], [GAS_PRICE], [GAS_PRICE_UNIT]
    that trade.py imports from src.constants, whose file is not part of
    the sources at hand: they are parameters. *)
Class Platform : Type := {
  account_from_key : string -> lib string;    (* Account.from_key(k).address *)
  to_checksum_address : string -> lib string; (* Web3.to_checksum_address *)
  to_wei_ether : float -> lib Z;              (* web3.to_wei(x, 'ether') *)
  from_wei_ether : Z -> lib float;            (* float(web3.from_wei(n, 'ether')) *)
  HexBytes : string -> lib string;
  str_value : value -> string;                (* str(v) in an f-string *)
  convert_to_raw : N -> float -> lib Z;       (* TokenDetails.convert_to_raw *)
  Decimal : float -> lib string;              (* Decimal(x), as it prints *)
  str_decimal : Z -> N -> string;             (* str of the Decimal n / 10**d *)
  format_thousands : Z -> string;             (* f"{n:,}" *)
  GAS : Z;
  GAS_PRICE_WEI : lib Z;                      (* web3.to_wei(GAS_PRICE, GAS_PRICE_UNIT) *)
  UNISWAP_V3_ROUTER : string                  (* UNISWAP_V3_DEPLOYMENTS["ethereum"]["router"] *)
}.

Context {P : Platform}.

Definition to_checksum_address_value (v : value) : lib string :=
  match v with
  | VStr s => to_checksum_address s
  | _ => inl ("TypeError", "Unsupported type")
  end.

(* ===================================================================== *)
(** ** The node and the HTTP client *)
(* ===================================================================== *)

Definition contract_call {A} (token : string) (v : view) (show : A -> reply)
    (f : Token -> lib A) : M A :=
  ask (ContractCall token v) show
      (fun _ s => match erc20 s token with
                  | Some t => f t
                  | None => inl ("BadFunctionCallOutput", "Could not call contract function")
                  end).

Definition call_decimals (token : string) : M N :=
  contract_call token Decimals (fun d => RInt (Z.of_N d)) (fun t => inr (decimals t)).

Definition call_balanceOf (token owner : string) : M Z :=
  contract_call token (BalanceOf owner) RInt (fun t => inr (balanceOf t owner)).

(** web3 validates the address arguments of a contract function. *)
Definition call_allowance (token owner : string) (spender : value) : M Z :=
  contract_call token (Allowance owner spender) RInt
      (fun t => match spender with
                | VStr sp => inr (allowance t owner sp)
                | _ => inl ("InvalidAddress", "not an address")
                end).

Definition eth_chain_id : M Z := ask EthChainId RInt (fun e _ => inr (chain_id e)).
Definition eth_gas_price : M Z := ask EthGasPrice RInt (fun e _ => inr (gas_price e)).
Definition eth_block_number : M Z := ask EthBlockNumber RInt (fun e _ => inr (block_number e)).
Definition eth_get_balance (a : string) : M Z :=
  ask (EthGetBalance a) RInt (fun e _ => inr (eth_balance e a)).
Definition eth_get_transaction_count (a : string) : M Z :=
  ask (EthGetTransactionCount a) RInt (fun _ s => inr (transaction_count s a)).

Definition or_else {A} (o : option A) (d : A) : A :=
  match o with Some a => a | None => d end.

(** [build_transaction]: the keys the caller left out are filled in, the
    gas limit by an estimation that can fail. *)
Definition fill_transaction (e : Env) (s : State) (tx : Tx) : lib Tx :=
  let tx1 :=
    mkTx (tx_from tx) (tx_to tx) (tx_data tx)
         (Some (or_else (tx_nonce tx)
                        (match tx_from tx with
                         | Some a => transaction_count s a
                         | None => 0
                         end)))
         (Some (or_else (tx_gasPrice tx) (gas_price e)))
         (Some (or_else (tx_chainId tx) (chain_id e)))
         (Some (or_else (tx_value tx) 0))
         (tx_gas tx) in
  match tx_gas tx with
  | Some _ => inr tx1
  | None => match gas_for e tx1 with
            | Some g => inr (set_gas g tx1)
            | None => inl ("ContractLogicError", "execution reverted")
            end
  end.

Definition build_transaction (contract : string) (fn : contract_fn) (base : Tx) : M Tx :=
  ask (BuildTransaction contract fn base) RTx
      (fun e s =>
         match fn with
         | Approve (VStr spender) amount =>
             fill_transaction e s
               (mkTx (tx_from base) (Some contract) (Some (ApproveData spender amount))
                     (tx_nonce base) (tx_gasPrice base) (tx_chainId base)
                     (tx_value base) (tx_gas base))
         | Approve _ _ => inl ("InvalidAddress", "not an address")
         | ExactInput ti to amt rcp sl fees =>
             fill_transaction e s
               (mkTx (tx_from base) (Some contract)
                     (Some (ExactInputData ti to amt rcp sl fees))
                     (tx_nonce base) (tx_gasPrice base) (tx_chainId base)
                     (tx_value base) (tx_gas base))
         end).

Definition estimate_gas (tx : Tx) : M Z :=
  ask (EstimateGas tx) RInt
      (fun e _ => match gas_for e tx with
                  | Some g => inr g
                  | None => inl ("ContractLogicError", "execution reverted")
                  end).

Definition sign_transaction (key : string) (tx : Tx) : M SignedTx :=
  ask (SignTransaction key tx) RSigned (fun _ _ => inr (mkSigned tx key)).

(** A transaction hash identifies the transaction it is the hash of: the
    hash [send_raw_transaction] returns is modelled by the signed
    transaction itself, and [hex] prints it. *)
Definition send_raw_transaction (stx : SignedTx) : M SignedTx :=
  ext (SendRawTransaction stx) RSigned (fun e s => (inr stx, mine e stx s)).

Definition hex (tx_hash : SignedTx) : M string := fun w =>
  mkOut (Return (hash_hex (env w) tx_hash)) w [].

(** [web3.eth.send_transaction] under the signing middleware. *)
Definition send_transaction (tx : Tx) : M SignedTx :=
  ext (SendTransaction tx) RSigned
      (fun e s => match middleware s with
                  | Some k => (inr (mkSigned tx k), mine e (mkSigned tx k) s)
                  | None => (inl ("ValueError", "unknown account"), s)
                  end).

Definition receipt_of (h : string) (status : Z) : value :=
  VDict [("status", VInt status); ("transactionHash", VStr h)].

Definition wait_for_transaction_receipt (h : SignedTx) : M value :=
  ask (WaitForTransactionReceipt h) RValue
      (fun e _ => match fate e h with
                  | Some status => inr (receipt_of (hash_hex e h) status)
                  | None => inl ("TimeExhausted", "not in the chain")
                  end).

Definition requests_get (url : string) (headers params : list (string * string))
    : M HttpResponse :=
  ask (HttpGet url headers params) RResponse (fun e _ => inr (http_get e url headers params)).

Definition requests_post (url : string) (headers : list (string * string))
    (payload : value) : M HttpResponse :=
  ask (HttpPost url headers payload) RResponse (fun e _ => inr (http_post e url headers payload)).

Definition raise_for_status (r : HttpResponse) : M unit :=
  if ((400 <=? status_code r) && (status_code r <? 600))%bool
  then raise (OtherException "HTTPError" (str_int (status_code r)))
  else ret tt.

Definition response_json (r : HttpResponse) : M value :=
  match body r with
  | Some v => ret v
  | None => raise (OtherException "JSONDecodeError" "Expecting value")
  end.

(* ===================================================================== *)
(** ** src/connections/sonic_connection.py *)
(* ===================================================================== *)

(** The attributes of a [SonicConnection] the operations read.  [_web3] is
    whether the attribute holds a Web3 instance ([None] otherwise). *)
Record SonicConnection : Type := mkSonic {
  _web3 : bool;
  explorer : string;
  rpc_url : string;
  aggregator_api : string
}.

(** [self.NATIVE_TOKEN], set by [__init__]. *)
Definition NATIVE_TOKEN : string := "0xEeeeeEeeeEeEeeEeEeEeeEEEeeeeEeeeeeeeEEeE".

(** The address [swap] singles out with the comment "$S token". *)
Definition S_TOKEN : string := "0x039e2fb66102314ce7b64ce5ce3e5183bc94ad38".

Definition is_native (token : string) : bool :=
  String.eqb (lower token) (lower NATIVE_TOKEN).

Definition _get_explorer_link (self : SonicConnection) (tx_hash : string) : string :=
  explorer self ++ "/tx/" ++ tx_hash.

Definition when (b : bool) (m : M unit) : M unit := if b then m else ret tt.

(** [_get_web3]: [true] stands for the validated instance, [false] for [None]. *)
Definition _get_web3 (self : SonicConnection) (verbose : bool) : M bool :=
  if negb (_web3 self) then
    when verbose (logger "ERROR" "Web3 not initialized") ;;
    ret false
  else
    try_except
      (connected <- ask IsConnected RBool (fun e _ => inr (node_connected e)) ;;
       if negb connected then
         when verbose (logger "ERROR" "Not connected to Sonic network") ;;
         ret false
       else ret true)
      (fun e =>
         when verbose (logger "ERROR" ("Failed to check connection: " ++ str_exn e)) ;;
         ret false).

(** The opening lines every operation shares:
    [web3 = self._get_web3(verbose=True)];
    [if not web3: raise SonicConnectionError("Web3 not initialized")]. *)
Definition web3_or_raise (self : SonicConnection) : M unit :=
  web3 <- _get_web3 self true ;;
  if negb web3 then raise (SonicConnectionError "Web3 not initialized")
  else ret tt.

(** [private_key = os.getenv('SONIC_PRIVATE_KEY')];
    [if not private_key: raise SonicConnectionError("No wallet configured")];
    [account = web3.eth.account.from_key(private_key)].
    The account is its key and its address. *)
Definition load_account : M (string * string) :=
  private_key <- getenv "SONIC_PRIVATE_KEY" ;;
  match nonempty private_key with
  | None => raise (SonicConnectionError "No wallet configured")
  | Some k =>
      address <- lift_lib (account_from_key k) ;;
      ret (k, address)
  end.

(** [try: m  except Exception as e: logger.error(f"<prefix>{e}"); raise] *)
Definition logged (prefix : string) {A} (m : M A) : M A :=
  try_except m (fun e => logger "ERROR" (prefix ++ str_exn e) ;; raise e).

Definition get_balance (self : SonicConnection)
    (address token_address : option string) : M float :=
  logged "Failed to get balance: " (
    web3_or_raise self ;;
    address <- match nonempty address with
               | Some a => ret a
               | None => ' (_, a) <- load_account ;; ret a
               end ;;
    checksum_address <- lift_lib (to_checksum_address address) ;;
    match nonempty token_address with
    | Some t =>
        contract <- lift_lib (to_checksum_address t) ;;
        balance <- call_balanceOf contract checksum_address ;;
        decimals <- call_decimals contract ;;
        lift_lib (truediv balance (10 ^ Z.of_N decimals))
    | None =>
        balance <- eth_get_balance checksum_address ;;
        lift_lib (from_wei_ether balance)
    end).

Definition _get_swap_route (self : SonicConnection) (token_in token_out : string)
    (amount_in : float) : M value :=
  logged "Failed to get swap route: " (
    web3_or_raise self ;;
    amount_raw <-
      (if is_native token_in then lift_lib (to_wei_ether amount_in)
       else
         token_contract <- lift_lib (to_checksum_address token_in) ;;
         decimals <- call_decimals token_contract ;;
         lift_lib (int_of_float (fmul amount_in (float_of_int (10 ^ Z.of_N decimals))))) ;;
    let url := aggregator_api self ++ "/routes" in
    let headers := [("x-client-id", "ZerePyBot")] in
    let params := [("tokenIn", token_in); ("tokenOut", token_out);
                   ("amountIn", str_int amount_raw); ("gasInclude", "true")] in
    response <- requests_get url headers params ;;
    raise_for_status response ;;
    data <- response_json response ;;
    code <- lift (dict_get data "code" VNone) ;;
    if ne_int code 0 then
      message <- lift (dict_get data "message" VNone) ;;
      raise (SonicConnectionError ("API error: " ++ str_value message))
    else
      result <- lift (dict_get data "data" VNone) ;;
      if negb (is_dict result) then
        raise (SonicConnectionError "Invalid route data returned from API")
      else ret result).

Definition _get_encoded_swap_data (self : SonicConnection) (route_summary : value)
    (slippage : option float) : M string :=
  let slippage := or_else slippage float_0_5 in
  logged "Failed to encode swap data: " (
    web3_or_raise self ;;
    ' (_, address) <- load_account ;;
    let url := aggregator_api self ++ "/route/build" in
    let headers := [("x-client-id", "zerepy")] in
    slippageTolerance <- lift_lib (int_of_float (fmul slippage (float_of_int 100))) ;;
    now <- time_time ;;
    deadline <- lift_lib (int_of_float (fadd now (float_of_int 1200))) ;;
    let payload := VDict [("routeSummary", route_summary);
                          ("sender", VStr address);
                          ("recipient", VStr address);
                          ("slippageTolerance", VInt slippageTolerance);
                          ("deadline", VInt deadline);
                          ("source", VStr "ZerePyBot")] in
    response <- requests_post url headers payload ;;
    raise_for_status response ;;
    data <- response_json response ;;
    code <- lift (dict_get data "code" VNone) ;;
    if ne_int code 0 then
      message <- lift (dict_get data "message" VNone) ;;
      raise (SonicConnectionError ("API error: " ++ str_value message))
    else
      inner <- lift (dict_get data "data" (VDict [])) ;;
      encoded_data <- lift (dict_get inner "data" VNone) ;;
      match encoded_data with
      | VStr s => ret s
      | _ => raise (SonicConnectionError "Invalid encoded data returned from API")
      end).

(** [if not receipt or receipt.get('status') != 1: raise SonicConnectionError(msg)] *)
Definition check_receipt (receipt : value) (msg : string) : M unit :=
  if negb (truthy receipt) then raise (SonicConnectionError msg)
  else
    status <- lift (dict_get receipt "status" VNone) ;;
    if ne_int status 1 then raise (SonicConnectionError msg)
    else ret tt.

Definition _handle_token_approval (self : SonicConnection) (token_address : string)
    (spender_address : value) (amount : Z) : M unit :=
  logged "Approval failed: " (
    web3_or_raise self ;;
    ' (private_key, address) <- load_account ;;
    token_contract <- lift_lib (to_checksum_address token_address) ;;
    current_allowance <- call_allowance token_contract address spender_address ;;
    if current_allowance <? amount then
      nonce <- eth_get_transaction_count address ;;
      gasPrice <- eth_gas_price ;;
      chainId <- eth_chain_id ;;
      let approve_tx :=
        mkTx (Some address) None None (Some nonce) (Some gasPrice) (Some chainId)
             None None in
      approve_tx <- build_transaction token_contract
                      (Approve spender_address amount) approve_tx ;;
      signed_approve <- sign_transaction private_key approve_tx ;;
      tx_hash <- send_raw_transaction signed_approve ;;
      tx_hex <- hex tx_hash ;;
      logger "INFO" ("Approval transaction sent: " ++ _get_explorer_link self tx_hex) ;;
      receipt <- wait_for_transaction_receipt tx_hash ;;
      check_receipt receipt "Approval transaction failed"
    else ret tt).

(** The gas limit [swap] falls back to. *)
Definition DEFAULT_GAS_LIMIT : Z := 500000.

Definition swap (self : SonicConnection) (token_in token_out : string)
    (amount : float) (slippage : option float) : M string :=
  let slippage := or_else slippage float_0_5 in
  logged "Swap failed: " (
    web3_or_raise self ;;
    ' (private_key, address) <- load_account ;;
    current_balance <- get_balance self (Some address)
                         (if is_native token_in then None else Some token_in) ;;
    if flt current_balance amount then
      raise (ValueError ("Insufficient balance. Required: " ++ str_float amount
                         ++ ", Available: " ++ str_float current_balance))
    else
    route_data <- _get_swap_route self token_in token_out amount ;;
    route_summary <- lift (subscript route_data "routeSummary") ;;
    encoded_data <- _get_encoded_swap_data self route_summary (Some slippage) ;;
    router_address <- lift (dict_get route_data "routerAddress" VNone) ;;
    if negb (truthy router_address) then
      raise (SonicConnectionError "No router address in route data")
    else
    (if negb (is_native token_in) then
       amount_raw <-
         (if String.eqb (lower token_in) (lower S_TOKEN) then
            lift_lib (to_wei_ether amount)
          else
            token_contract <- lift_lib (to_checksum_address token_in) ;;
            decimals <- call_decimals token_contract ;;
            lift_lib (int_of_float (fmul amount (float_of_int (10 ^ Z.of_N decimals))))) ;;
       _handle_token_approval self token_in router_address amount_raw
     else ret tt) ;;
    to <- lift_lib (to_checksum_address_value router_address) ;;
    data <- lift_lib (HexBytes encoded_data) ;;
    nonce <- eth_get_transaction_count address ;;
    gasPrice <- eth_gas_price ;;
    chainId <- eth_chain_id ;;
    value <- (if is_native token_in then lift_lib (to_wei_ether amount) else ret 0) ;;
    let base_tx :=
      mkTx (Some address) (Some to) (Some (RawData data)) (Some nonce)
           (Some gasPrice) (Some chainId) (Some value) None in
    base_tx <- try_except
                 (gas <- estimate_gas base_tx ;; ret (set_gas gas base_tx))
                 (fun e =>
                    logger "WARNING" ("Gas estimation failed: " ++ str_exn e
                                      ++ ", using default gas limit") ;;
                    ret (set_gas DEFAULT_GAS_LIMIT base_tx)) ;;
    signed_tx <- sign_transaction private_key base_tx ;;
    tx_hash <- send_raw_transaction signed_tx ;;
    receipt <- wait_for_transaction_receipt tx_hash ;;
    check_receipt receipt "Swap transaction failed" ;;
    tx_hex <- hex tx_hash ;;
    ret ("🔄 Swap transaction sent: " ++ _get_explorer_link self tx_hex)).

(* ===================================================================== *)
(** ** src/helpers/evm/trade.py *)
(* ===================================================================== *)

Definition fetch_deployment (router : string) : M string :=
  ask (FetchDeployment router) RStr (fun _ _ => inr router).

Definition fetch_erc20_details (token : option string) : M TokenDetails :=
  ask (FetchErc20Details token) RDetails
      (fun _ s => match token with
                  | None => inl ("TypeError", "token address is None")
                  | Some a =>
                      match erc20 s a with
                      | Some t => inr (mkDetails a (symbol t) (decimals t))
                      | None => inl ("TokenDetailError", "not an ERC-20 token")
                      end
                  end).

(** [token.fetch_balance_of(owner)]: a Decimal, given here by its raw
    integer amount (the Decimal is raw / 10**decimals, of the same sign). *)
Definition fetch_balance_of (token : TokenDetails) (owner : string) : M Z :=
  ask (FetchBalanceOf (td_address token) owner) RInt
      (fun _ s => match erc20 s (td_address token) with
                  | Some t => inr (balanceOf t owner)
                  | None => inl ("BadFunctionCallOutput", "Could not call contract function")
                  end).

(** [EvmContractHelper.read_contract], of src/helpers/evm/contract.py,
    which is not part of the sources at hand: the world answers for it. *)
Definition EvmContractHelper_read_contract (token : option string) (fn : string) : M Z :=
  ask (ReadContract token fn) RInt (fun e _ => read_contract e token fn).

Definition input (prompt : string) : M string :=
  ask (Input prompt) RStr (fun e _ => inr (stdin e)).

Definition swap_with_slippage_protection (fn : contract_fn) : M contract_fn :=
  ask (SwapWithSlippageProtection fn) RFn (fun _ _ => inr fn).

Definition add_signing_middleware (key : string) : M unit := fun w =>
  mkOut (Return tt) (with_state (set_middleware key) w) [].

Definition wait_transactions_to_complete (hashes : list SignedTx)
    : M (list (SignedTx * Z)) :=
  ask (WaitTransactionsToComplete hashes) RReceipts
      (fun e _ =>
         fold_right
           (fun h acc =>
              match acc, fate e h with
              | inr l, Some status => inr ((h, status) :: l)
              | inr _, None => inl ("ConfirmationTimedOut", "not confirmed in time")
              | inl e, _ => inl e
              end)
           (inr []) hashes).

Definition fetch_transaction_revert_reason (h : SignedTx) : M string :=
  ask (FetchRevertReason h) RStr (fun e _ => inr (revert_reason e h)).

(** Reading a name that no assignment of the function binds and that is
    no global of the module. *)
Definition unbound_name {A} (name : string) : M A := raise (NameError name).

(** The loop over [receipts.items()]. *)
Fixpoint check_receipts (l : list (SignedTx * Z)) : M unit :=
  match l with
  | [] => ret tt
  | (completed_tx_hash, status) :: r =>
      (if status =? 0 then
         revert_reason <- fetch_transaction_revert_reason completed_tx_hash ;;
         completed_hex <- hex completed_tx_hash ;;
         raise (AssertionError ("Our transaction " ++ completed_hex
                                ++ " failed because of: " ++ revert_reason))
       else ret tt) ;;
      check_receipts r
  end.

Definition trade (private_key output_token : string) (input_amount : float)
    (input_token : option string) (slippage_bps : option Z) : M value :=
  let slippage_bps := or_else slippage_bps 100 in
  let QUOTE_TOKEN_ADDRESS := input_token in
  let BASE_TOKEN_ADDRESS := output_token in
  my_address <- lift_lib (account_from_key private_key) ;;
  block_height <- eth_block_number ;;
  logger "DEBUG" ("BLOCK NUMBER: " ++ str_int block_height) ;;
  chain <- eth_chain_id ;;
  latest <- eth_block_number ;;
  logger "DEBUG" ("Connected to blockchain, chain id is " ++ str_int chain
                  ++ ". the latest block is " ++ format_thousands latest) ;;
  swap_router <- fetch_deployment UNISWAP_V3_ROUTER ;;
  logger "DEBUG" ("Using Uniwap v3 compatible router at " ++ swap_router) ;;
  add_signing_middleware private_key ;;
  base <- fetch_erc20_details (Some BASE_TOKEN_ADDRESS) ;;
  quote <- fetch_erc20_details QUOTE_TOKEN_ADDRESS ;;
  gas_balance <- eth_get_balance my_address ;;
  logger "DEBUG" ("Your address is " ++ my_address) ;;
  base_balance <- fetch_balance_of base my_address ;;
  logger "DEBUG" ("Your have " ++ str_decimal base_balance (td_decimals base)
                  ++ " " ++ td_symbol base) ;;
  quote_balance <- fetch_balance_of quote my_address ;;
  logger "DEBUG" ("Your have " ++ str_decimal quote_balance (td_decimals quote)
                  ++ " " ++ td_symbol quote) ;;
  gas_float <- lift_lib (truediv gas_balance (10 ^ 18)) ;;
  logger "DEBUG" ("Your have " ++ str_float gas_float ++ " for gas fees") ;;
  quote_balance <- fetch_balance_of quote my_address ;;
  if negb (quote_balance >? 0) then
    raise (AssertionError ("Cannot perform swap, as you have zero "
                           ++ td_symbol quote ++ " needed to swap"))
  else
  decimals <- EvmContractHelper_read_contract input_token "decimals" ;;
  decimal_amount <-
    match Decimal input_amount with
    | inr d => ret d
    | inl e =>
        if (String.eqb (fst e) "ValueError" || String.eqb (fst e) "InvalidOperation")%bool
        then raise (AssertionError ("Not a good decimal amount: " ++ str_float input_amount))
        else raise (exn_of_liberr e)
    end ;;
  logger "INFO" ("Confirm swap amount " ++ decimal_amount ++ " " ++ td_symbol quote
                 ++ " to " ++ td_symbol base) ;;
  confirm <- input "Ok [y/n]?" ;;
  if negb (startswith "y" (lower confirm)) then
    logger "DEBUG" "Aborted" ;;
    raise (SystemExit 1)            (* sys.exit(1) *)
  else
  raw_amount <- lift_lib (convert_to_raw (td_decimals quote) input_amount) ;;
  needs_approval <- call_allowance (td_address quote) my_address (VStr swap_router) ;;
  needs_approval <- lift_lib (truediv needs_approval (10 ^ decimals)) ;;
  logger "DEBUG" ("Needs approval: " ++ str_float needs_approval ++ " " ++ td_symbol quote
                  ++ " to spend " ++ str_int raw_amount ++ " " ++ td_symbol quote) ;;
  tx_1 <-
    (if fge_int needs_approval raw_amount then
       logger "DEBUG" "Already approved" ;;
       ret None
     else
       logger "DEBUG" "Approving" ;;
       gasPrice <- lift_lib GAS_PRICE_WEI ;;
       tx <- build_transaction (td_address quote) (Approve (VStr swap_router) raw_amount)
               (mkTx (Some my_address) None None None (Some gasPrice) None None (Some GAS)) ;;
       ret (Some tx)) ;;
  bound_solidity_func <-
    swap_with_slippage_protection
      (ExactInput (td_address quote) (td_address base) raw_amount my_address
                  slippage_bps [500]) ;;
  nonce <- eth_get_transaction_count my_address ;;
  gasPrice <- lift_lib GAS_PRICE_WEI ;;
  tx_2 <- build_transaction swap_router bound_solidity_func
            (mkTx (Some my_address) None None (Some nonce) (Some gasPrice) None None
                  (Some GAS)) ;;
  (* tx_hash_1 = web3.eth.send_transaction(tx_1)   -- a comment in the source *)
  tx_hash_2 <- send_transaction tx_2 ;;
  tx_hash_1 <- unbound_name "tx_hash_1" ;;
  hex_1 <- hex tx_hash_1 ;;
  hex_2 <- hex tx_hash_2 ;;
  logger "DEBUG" ("Broadcasted transactions " ++ hex_1 ++ ", " ++ hex_2
                  ++ ", now waiting 2.5 minutes for it to be included in a new block") ;;
  logger "DEBUG" ("View your transactions confirming at https://polygonscan/address/"
                  ++ my_address) ;;
  receipts <- wait_transactions_to_complete [tx_hash_2] ;;
  check_receipts receipts ;;
  logger "DEBUG" "All ok!" ;;
  base_balance <- fetch_balance_of base my_address ;;
  logger "DEBUG" ("After swap, you have " ++ str_decimal base_balance (td_decimals base)
                  ++ " " ++ td_symbol base) ;;
  quote_balance <- fetch_balance_of quote my_address ;;
  logger "DEBUG" ("After swap, you have " ++ str_decimal quote_balance (td_decimals quote)
                  ++ " " ++ td_symbol quote) ;;
  gas_float <- lift_lib (truediv gas_balance (10 ^ 18)) ;;
  logger "DEBUG" ("After swap, you have " ++ str_float gas_float ++ " native token left") ;;
  ret VNone.

(* ===================================================================== *)
(** ** src/actions/evm_actions.py *)
(* ===================================================================== *)

(** The agent an action receives: [agent.connection_manager.perform_action]
    (the connection manager is not part of the sources at hand, so the
    operation behind it is any program of the monad; trade.py shows that
    such a program may call [sys.exit]) and [agent.logger], which writes to
    the log. *)
Record Agent : Type := mkAgent {
  perform_action : string -> string -> list value -> M value
}.

Definition agent_logger (agent : Agent) (level msg : string) : M unit :=
  logger level msg.

(** [kwargs.get(key, default)] *)
Definition kwargs_get (kwargs : list (string * value)) (key : string)
    (default : value) : value :=
  or_else (assoc key kwargs) default.

(** The body all fifteen actions share: an announcement, then
    [try: result = perform_action(...); log; return result]
    [except Exception as e: log; return <failure>]. *)
Definition action (announce : string) (action_name : string) (params : list value)
    (done : value -> string) (failed : string) (failure : value)
    (agent : Agent) : M value :=
  agent_logger agent "INFO" announce ;;
  try_except
    (result <- perform_action agent "evm" action_name params ;;
     agent_logger agent "INFO" (done result) ;;
     ret result)
    (fun e =>
       agent_logger agent "ERROR" (failed ++ str_exn e) ;;
       ret failure).

Definition evm_transfer (agent : Agent) (kwargs : list (string * value)) : M value :=
  action "
💸 INITIATING TRANSFER" "transfer"
    [kwargs_get kwargs "to_address" VNone;
     kwargs_get kwargs "amount" VNone;
     kwargs_get kwargs "token_mint" VNone]
    (fun _ => "✅ Transfer completed!") "❌ Transfer failed: " (VBool false) agent.

Definition evm_swap (agent : Agent) (kwargs : list (string * value)) : M value :=
  action "
🔄 INITIATING TOKEN SWAP" "trade"
    [kwargs_get kwargs "output_mint" VNone;
     kwargs_get kwargs "input_amount" VNone;
     kwargs_get kwargs "input_mint" VNone;
     kwargs_get kwargs "slippage_bps" (VInt 100)]
    (fun _ => "✅ Swap completed!") "❌ Swap failed: " (VBool false) agent.

Definition evm_balance (agent : Agent) (kwargs : list (string * value)) : M value :=
  action "
💰 CHECKING BALANCE" "get-balance"
    [kwargs_get kwargs "token_address" VNone]
    (fun result => "Balance: " ++ str_value result) "❌ Balance check failed: " VNone agent.

Definition evm_stake (agent : Agent) (kwargs : list (string * value)) : M value :=
  action "
🎯 INITIATING Native STAKE" "stake"
    [kwargs_get kwargs "amount" VNone]
    (fun _ => "✅ Staking completed!") "❌ Staking failed: " (VBool false) agent.

Definition evm_lend (agent : Agent) (kwargs : list (string * value)) : M value :=
  action "
🏦 INITIATING LENDING" "lend-assets"
    [kwargs_get kwargs "amount" VNone]
    (fun _ => "✅ Lending completed!") "❌ Lending failed: " (VBool false) agent.

Definition request_faucet_funds (agent : Agent) (kwargs : list (string * value)) : M value :=
  action "
🚰 REQUESTING FAUCET FUNDS" "request-faucet" []
    (fun _ => "✅ Faucet request completed!") "❌ Faucet request failed: " (VBool false) agent.

Definition evm_deploy_token (agent : Agent) (kwargs : list (string * value)) : M value :=
  action "
🪙 DEPLOYING NEW TOKEN" "deploy-token"
    [kwargs_get kwargs "decimals" (VInt 9)]
    (fun _ => "✅ Token deployed!") "❌ Token deployment failed: " (VBool false) agent.

Definition evm_get_price (agent : Agent) (kwargs : list (string * value)) : M value :=
  action "
💲 FETCHING TOKEN PRICE" "fetch-price"
    [kwargs_get kwargs "token_id" VNone]
    (fun result => "Price: " ++ str_value result) "❌ Price fetch failed: " VNone agent.

Definition evm_get_tps (agent : Agent) (kwargs : list (string * value)) : M value :=
  action "
📊 FETCHING CURRENT TPS" "get-tps" []
    (fun result => "Current TPS: " ++ str_value result) "❌ TPS fetch failed: " VNone agent.

Definition get_token_data_by_ticker (agent : Agent) (kwargs : list (string * value))
    : M value :=
  action "
🔍 FETCHING TOKEN DATA BY TICKER" "get-token-by-ticker"
    [kwargs_get kwargs "ticker" VNone]
    (fun _ => "✅ Token data retrieved!") "❌ Token data fetch failed: " VNone agent.

Definition get_token_data_by_address (agent : Agent) (kwargs : list (string * value))
    : M value :=
  action "
🔍 FETCHING TOKEN DATA BY ADDRESS" "get-token-by-address"
    [kwargs_get kwargs "mint" VNone]
    (fun _ => "✅ Token data retrieved!") "❌ Token data fetch failed: " VNone agent.

Definition launch_pump_fun_token (agent : Agent) (kwargs : list (string * value))
    : M value :=
  action "
🚀 LAUNCHING PUMP & FUN TOKEN" "launch-pump-token"
    [kwargs_get kwargs "token_name" VNone;
     kwargs_get kwargs "token_ticker" VNone;
     kwargs_get kwargs "description" VNone;
     kwargs_get kwargs "image_url" VNone;
     kwargs_get kwargs "options" (VDict [])]
    (fun _ => "✅ Token launched successfully!") "❌ Token launch failed: " (VBool false) agent.

Definition list_contract_functions (agent : Agent) (kwargs : list (string * value))
    : M value :=
  action "
📜 LISTING CONTRACT FUNCTIONS" "list-contract-functions"
    [kwargs_get kwargs "contract_address" VNone]
    (fun _ => "✅ Contract functions listed!") "❌ Contract functions listing failed: "
    VNone agent.

Definition call_contract_function (agent : Agent) (kwargs : list (string * value))
    : M value :=
  action "
📞 CALLING CONTRACT FUNCTION" "call-contract-function"
    [kwargs_get kwargs "contract_address" VNone;
     kwargs_get kwargs "function_name" VNone;
     kwargs_get kwargs "args" (VList [])]
    (fun _ => "✅ Contract function called!") "❌ Contract function call failed: "
    VNone agent.

Definition wrap_eth (agent : Agent) (kwargs : list (string * value)) : M value :=
  action "
🎁 WRAPPING ETH TO WETH" "wrap-eth"
    [kwargs_get kwargs "amount" VNone]
    (fun _ => "✅ ETH wrapped to WETH!") "❌ ETH wrapping failed: " (VBool false) agent.

(** The registry [register_action] fills: every action of the file under
    its command name. *)
Definition actions : list (string * (Agent -> list (string * value) -> M value)) :=
  [("evm-transfer", evm_transfer);
   ("evm-swap", evm_swap);
   ("evm-balance", evm_balance);
   ("evm-stake", evm_stake);
   ("evm-lend", evm_lend);
   ("evm-request-funds", request_faucet_funds);
   ("evm-deploy-token", evm_deploy_token);
   ("evm-get-price", evm_get_price);
   ("evm-get-tps", evm_get_tps);
   ("evm-get-token-by-ticker", get_token_data_by_ticker);
   ("evm-get-token-by-address", get_token_data_by_address);
   ("evm-launch-pump-token", launch_pump_fun_token);
   ("evm-list-contract-functions", list_contract_functions);
   ("evm-call-contract-function", call_contract_function);
   ("evm-wrap-eth", wrap_eth)].

End Model.

(* ===================================================================== *)
(** ** A concrete platform, to run the programs *)
(* ===================================================================== *)

Definition err {A} (cls msg : string) : lib A := inl (cls, msg).

(** Truncation toward zero, as [int(x)] truncates. *)
Definition Qtrunc (q : Q) : Z := Z.quot (Qnum q) (Zpos (Qden q)).

Definition Qdiv_int (a b : Z) : lib Q :=
  match b with
  | Z0 => err "ZeroDivisionError" "division by zero"
  | Zpos p => inr (a # p)
  | Zneg p => inr ((- a) # p)
  end.

Definition str_Q (q : Q) : string :=
  str_int (Qnum q) ++ "/" ++ str_int (Zpos (Qden q)).

(** Floats as exact rationals.  On the inputs used below (0.5, whole
    numbers, powers of ten up to 10**18 times small integers) binary
    floating point computes the same values. *)
#[export] Instance RationalFloat : PyFloat := {|
  float := Q;
  float_of_int := inject_Z;
  fmul := Qmult;
  fadd := Qplus;
  truediv := Qdiv_int;
  int_of_float := fun q => inr (Qtrunc q);
  flt := fun x y => negb (Qle_bool y x);
  fge_int := fun x n => Qle_bool (inject_Z n) x;
  feq_int := fun x n => Qeq_bool x (inject_Z n);
  float_0_5 := 1 # 2;
  str_float := str_Q
|}.

Definition to_wei_Q (q : Q) : lib Z :=
  if Qle_bool 0 q then inr (Qtrunc (Qmult q (inject_Z (10 ^ 18))))
  else err "ValueError" "out of range".

(** Keys are named after their owner: the key of address [a] is [a]
    itself.  Every string is taken for a checksummed address. *)
#[export] Instance ExamplePlatform : @Platform RationalFloat := {|
  account_from_key := fun k => inr k;
  to_checksum_address := fun a => inr a;
  to_wei_ether := to_wei_Q;
  from_wei_ether := fun n => inr (n # (10 ^ 18));
  HexBytes := fun s => inr s;
  str_value := fun v => match v with VStr s => s | _ => "<value>" end;
  convert_to_raw := fun d q => inr (Qtrunc (Qmult q (inject_Z (10 ^ Z.of_N d))));
  Decimal := fun q => inr (str_Q q);
  str_decimal := fun n d => str_int n ++ "e-" ++ str_int (Z.of_N d);
  format_thousands := str_int;
  GAS := 350000;
  GAS_PRICE_WEI := inr 5000000000;
  UNISWAP_V3_ROUTER := "0xE592427A0AEce92De3Edee1F18E0157C05861564"
|}.

Module Example.

Definition me : string := "0xMe".
Definition router : string := "0xRouter".
Definition usdc : string := "0xUSDC".
Definition weth : string := "0xWETH".

Definition sonic : SonicConnection :=
  mkSonic true "https://sonicscan.org" "https://rpc.soniclabs.com"
          "https://aggregator-api.kyberswap.com/sonic/api/v1".

(** A token with [d] decimals of which [me] holds [bal] raw units and has
    approved [allowed] to every spender. *)
Definition token (sym : string) (d : N) (bal allowed : Z) : Token :=
  mkToken sym d (fun a => if String.eqb a me then bal else 0)
          (fun o _ => if String.eqb o me then allowed else 0).

Definition route_reply (code : Z) : HttpResponse :=
  mkResponse 200
    (Some (VDict [("code", VInt code);
                  ("message", VStr (if code =? 0 then "successfully" else "route not found"));
                  ("data", VDict [("routeSummary", VDict [("amountIn", VStr "1000000")]);
                                  ("routerAddress", VStr router)])])).

Definition build_reply (code : Z) (data : list (string * value)) : HttpResponse :=
  mkResponse 200
    (Some (VDict [("code", VInt code); ("message", VStr "successfully");
                  ("data", VDict data)])).

(** The environment of the examples: the node is connected, the wallet key
    is set, [usdc] has 6 decimals, gas estimation fails when [gas_ok] is
    false, every transaction is mined with status [status], the aggregator
    answers the route request with code [route_code] and the build request
    with [build], and the user answers [answer] at the prompt. *)
Definition environment (gas_ok : bool) (status : Z) (route_code : Z)
    (build : HttpResponse) (answer : string) : Env :=
  mkEnv (fun name => if String.eqb name "SONIC_PRIVATE_KEY" then Some me else None)
        (1700000000 # 1)
        answer
        true 146 1000000000 100
        (fun a => if String.eqb a me then 10 ^ 19 else 0)
        (fun _ => if gas_ok then Some 210000 else None)
        (fun _ => Some status)
        (fun _ => "0xhash")
        (fun _ _ _ => route_reply route_code)
        (fun _ _ _ => build)
        (fun _ _ => inr 6)
        (fun _ => "execution reverted")
        (fun _ => None).

(** [me] holds [bal] raw units of [usdc] and of [weth] (18 decimals) and
    has approved [allowed] of each. *)
Definition state (bal allowed : Z) : State :=
  mkState (fun a => if String.eqb a usdc then Some (token "USDC" 6 bal allowed)
                    else if String.eqb a weth then Some (token "WETH" 18 bal allowed)
                    else if String.eqb a (lower S_TOKEN)
                         then Some (token "wS" 6 bal allowed)
                    else None)
          (fun _ => 7) [] None 0 [].

Definition good_build : HttpResponse := build_reply 0 [("data", VStr "0xabcdef")].

Definition world (bal allowed : Z) : World :=
  mkWorld (environment true 1 0 good_build "y") (state bal allowed).

End Example.

(* ===================================================================== *)
(** * Properties *)
(* ===================================================================== *)

(** In what follows [++] appends lists; strings are appended by [(_ ++ _)%string]. *)
Local Open Scope list_scope.
Unset Implicit Arguments.

(** ** Runs of the combinators *)

Section Runs.
Context {F : PyFloat} {P : Platform}.

Lemma bind_cases {A B} (m : M A) (f : A -> M B) (w : World) :
  (exists e, res (m w) = Raise e /\
             res (bind m f w) = Raise e /\
             trace (bind m f w) = trace (m w) /\
             post (bind m f w) = post (m w)) \/
  (exists a, res (m w) = Return a /\
             res (bind m f w) = res (f a (post (m w))) /\
             trace (bind m f w) = trace (m w) ++ trace (f a (post (m w))) /\
             post (bind m f w) = post (f a (post (m w)))).
Proof.
  unfold bind. destruct (res (m w)) as [a | e].
  - right. exists a. repeat split.
  - left. exists e. repeat split.
Qed.

Lemma bind_Return {A B} (m : M A) (f : A -> M B) (w : World) (a : A) :
  res (m w) = Return a ->
  res (bind m f w) = res (f a (post (m w))) /\
  trace (bind m f w) = trace (m w) ++ trace (f a (post (m w))) /\
  post (bind m f w) = post (f a (post (m w))).
Proof. intros H. unfold bind. rewrite H. repeat split. Qed.

Lemma bind_Raise {A B} (m : M A) (f : A -> M B) (w : World) (e : exn) :
  res (m w) = Raise e ->
  res (bind m f w) = Raise e /\
  trace (bind m f w) = trace (m w) /\
  post (bind m f w) = post (m w).
Proof. intros H. unfold bind. rewrite H. repeat split. Qed.

(** A handler that calls nothing outside leaves the trace of the body. *)
Lemma logged_res {A} (prefix : string) (m : M A) (w : World) :
  res (logged prefix m w) = res (m w).
Proof.
  unfold logged, try_except.
  destruct (res (m w)) as [a | e] eqn:E; [exact E |].
  destruct (is_Exception e); [reflexivity | exact E].
Qed.

Lemma logged_trace {A} (prefix : string) (m : M A) (w : World) :
  trace (logged prefix m w) = trace (m w).
Proof.
  unfold logged, try_except.
  destruct (res (m w)) as [a | e]; [reflexivity |].
  destruct (is_Exception e); [| reflexivity].
  cbn. rewrite app_nil_r. reflexivity.
Qed.

Lemma logged_state {A} (prefix : string) (m : M A) (w : World) :
  exists l, st (post (logged prefix m w))
            = mkState (erc20 (st (post (m w)))) (transaction_count (st (post (m w))))
                      (submitted (st (post (m w)))) (middleware (st (post (m w))))
                      (ncalls (st (post (m w)))) l.
Proof.
  unfold logged, try_except.
  destruct (res (m w)) as [a | e].
  - exists (log (st (post (m w)))). destruct (st (post (m w))); reflexivity.
  - destruct (is_Exception e).
    + cbn. eexists. reflexivity.
    + exists (log (st (post (m w)))). destruct (st (post (m w))); reflexivity.
Qed.

Lemma ext_cases {A} (c : call) (show : A -> reply)
    (sem : Env -> State -> lib A * State) (w : World) :
  (exists e, res (ext c show sem w) = Raise (exn_of_liberr e) /\
             trace (ext c show sem w) = [(c, inl e)]) \/
  (exists a, res (ext c show sem w) = Return a /\
             trace (ext c show sem w) = [(c, inr (show a))] /\
             faults (env w) (ncalls (st w)) = None /\
             sem (env w) (tick (st w)) = (inr a, st (post (ext c show sem w))) /\
             env (post (ext c show sem w)) = env w).
Proof.
  unfold ext. destruct (faults (env w) (ncalls (st w))) as [e |].
  - left. exists e. split; reflexivity.
  - destruct (sem (env w) (tick (st w))) as [[e | a] s1]; cbn.
    + left. exists e. split; reflexivity.
    + right. exists a. repeat split.
Qed.

Lemma ext_trace {A} (c : call) (show : A -> reply)
    (sem : Env -> State -> lib A * State) (w : World) :
  exists r, trace (ext c show sem w) = [(c, r)].
Proof.
  destruct (ext_cases c show sem w) as [[e [_ H]] | [a [_ [H _]]]]; eauto.
Qed.

Lemma is_Exception_liberr (e : liberr) : is_Exception (exn_of_liberr e) = true.
Proof. reflexivity. Qed.

(** ** Properties of every entry of a trace *)

(** [emits Q m]: every entry a run of [m] adds to the trace satisfies [Q]. *)
Definition emits {A} (Q : entry -> Prop) (m : M A) : Prop :=
  forall w, Forall Q (trace (m w)).

Lemma emits_ret {A} Q (a : A) : emits Q (ret a).
Proof. intros w. constructor. Qed.

Lemma emits_raise {A} Q (e : exn) : emits Q (@raise World entry A e).
Proof. intros w. constructor. Qed.

Lemma emits_lift {A} Q (r : result A) : emits Q (lift r).
Proof. destruct r; [apply emits_ret | apply emits_raise]. Qed.

Lemma emits_lift_lib {A} Q (r : lib A) : emits Q (lift_lib r).
Proof. destruct r; [apply emits_raise | apply emits_ret]. Qed.

Lemma emits_logger Q level msg : emits Q (logger level msg).
Proof. intros w. constructor. Qed.

Lemma emits_getenv Q name : emits Q (getenv name).
Proof. intros w. constructor. Qed.

Lemma emits_time Q : emits Q time_time.
Proof. intros w. constructor. Qed.

Lemma emits_hex Q h : emits Q (hex h).
Proof. intros w. constructor. Qed.

Lemma emits_middleware Q k : emits Q (add_signing_middleware k).
Proof. intros w. constructor. Qed.

Lemma emits_bind {A B} Q (m : M A) (f : A -> M B) :
  emits Q m -> (forall a, emits Q (f a)) -> emits Q (bind m f).
Proof.
  intros Hm Hf w.
  destruct (bind_cases m f w) as [[e [_ [_ [Ht _]]]] | [a [_ [_ [Ht _]]]]];
    rewrite Ht.
  - apply Hm.
  - apply Forall_app. split; [apply Hm | apply Hf].
Qed.

Lemma emits_try {A} Q (m : M A) (h : exn -> M A) :
  emits Q m -> (forall e, emits Q (h e)) -> emits Q (try_except m h).
Proof.
  intros Hm Hh w. unfold try_except.
  destruct (res (m w)) as [a | e]; [apply Hm |].
  destruct (is_Exception e); [| apply Hm].
  cbn. apply Forall_app. split; [apply Hm | apply Hh].
Qed.

Lemma emits_ext {A} (Q : entry -> Prop) (c : call) (show : A -> reply) sem :
  (forall r, Q (c, r)) -> emits Q (ext c show sem).
Proof.
  intros H w. destruct (ext_trace c show sem w) as [r Hr]. rewrite Hr.
  constructor; [apply H | constructor].
Qed.

Lemma emits_ask {A} (Q : entry -> Prop) (c : call) (show : A -> reply) sem :
  (forall r, Q (c, r)) -> emits Q (ask c show sem).
Proof. apply emits_ext. Qed.

End Runs.

(** Decomposes a goal [emits Q m] along the program [m]; what is left are
    the calls of [m] that are not obviously allowed by [Q]. *)
Ltac emits_step :=
  first
    [ apply emits_ret | apply emits_raise | apply emits_lift | apply emits_lift_lib
    | apply emits_logger | apply emits_getenv | apply emits_time | apply emits_hex
    | apply emits_middleware
    | apply emits_bind; [| intros ?]
    | apply emits_try; [| intros ?]
    | apply emits_ask; intros ?
    | apply emits_ext; intros ?
    | match goal with
      | |- emits _ (if ?b then _ else _) => destruct b
      | |- emits _ (match ?x with _ => _ end) => destruct x
      | |- emits _ (let (_, _) := ?x in _) => destruct x
      end ].
Section Vocabulary.
Context {F : PyFloat} {P : Platform}.

Definition is_aggregator_call (c : call) : bool :=
  match c with HttpGet _ _ _ | HttpPost _ _ _ => true | _ => false end.
Definition is_transaction_call (c : call) : bool :=
  match c with
  | BuildTransaction _ _ _ | SignTransaction _ _ | SendRawTransaction _
  | SendTransaction _ => true
  | _ => false
  end.

Definition reads_only (e : entry) : Prop :=
  is_aggregator_call (fst e) = false /\ is_transaction_call (fst e) = false.

Lemma load_account_run (w : World) :
  post (load_account w) = w /\ trace (load_account w) = [].
Proof.
  unfold load_account, bind, getenv. cbn.
  destruct (nonempty (environ (env w) "SONIC_PRIVATE_KEY")) as [k |]; cbn.
  - destruct (account_from_key k); cbn; split; reflexivity.
  - split; reflexivity.
Qed.

Lemma emits_get_web3 Q self verbose :
  (forall r, Q (IsConnected, r)) -> emits Q (_get_web3 self verbose).
Proof.
  intros H. unfold _get_web3, when. repeat emits_step; auto.
Qed.

Lemma emits_web3_or_raise Q self :
  (forall r, Q (IsConnected, r)) -> emits Q (web3_or_raise self).
Proof.
  intros H. unfold web3_or_raise. 
  apply emits_bind; [apply emits_get_web3; auto |]. intros. repeat emits_step.
Qed.

Lemma emits_load_account Q : emits Q load_account.
Proof. unfold load_account. repeat emits_step. Qed.

Lemma emits_get_balance self a t : emits reads_only (get_balance self a t).
Proof.
  unfold get_balance, logged, call_balanceOf, call_decimals, contract_call, eth_get_balance.
  repeat first [ apply emits_web3_or_raise; intros | apply emits_load_account | emits_step ];
    split; reflexivity.
Qed.
End Vocabulary.
Section InsufficientBalance.
Context {F : PyFloat} {P : Platform}.

Ltac bind_ret H :=
  match type of H with
  | res (?m ?w) = Return ?a =>
      match goal with
      | |- context [bind m ?f w] =>
          let Hr := fresh "Hr" in let Ht := fresh "Ht" in let Hp := fresh "Hp" in
          destruct (bind_Return m f w a H) as (Hr & Ht & Hp);
          rewrite ?Hr, ?Ht, ?Hp; clear Hr Ht Hp; cbv beta
      end
  end.

(** C3. When the balance [swap] reads for the account (the native balance
    for the native token, the token balance otherwise) is strictly below
    the requested amount, [swap] raises at once the ValueError
    "Insufficient balance..." (the spec's InsufficientBalance), and its
    trace holds no request to the aggregator and no transaction: no route
    query, no encode, no approval, no submission. *)
Theorem swap_insufficient_balance
    (self : SonicConnection) (token_in token_out : string) (amount : float)
    (slippage : option float) (w : World) (key address : string) (balance : float) :
  let w1 := post (web3_or_raise self w) in
  res (web3_or_raise self w) = Return tt ->
  res (load_account w1) = Return (key, address) ->
  res (get_balance self (Some address)
         (if is_native token_in then None else Some token_in) w1) = Return balance ->
  flt balance amount = true ->
  let o := swap self token_in token_out amount slippage w in
  res o = Raise (ValueError ("Insufficient balance. Required: " ++ str_float amount
                             ++ ", Available: " ++ str_float balance)%string) /\
  Forall reads_only (trace o).
Proof.
  intros w1 Hweb Hacc Hbal Hlt o. subst o. unfold swap.
  rewrite logged_res, logged_trace.
  bind_ret Hweb. fold w1.
  destruct (load_account_run w1) as [Hp1 Ht1].
  bind_ret Hacc. rewrite Hp1, Ht1.
  bind_ret Hbal. rewrite Hlt. cbn.
  split; [reflexivity |].
  rewrite !app_nil_r.
  apply Forall_app; split.
  - apply emits_web3_or_raise. intros; split; reflexivity.
  - apply emits_get_balance.
Qed.
End InsufficientBalance.

(** Ten USDC asked for, five held. *)
Lemma swap_insufficient_balance_witness :
  let o := swap Example.sonic Example.usdc Example.weth (10 # 1) None
                (Example.world 5000000 0) in
  res o = Raise (ValueError ("Insufficient balance. Required: " ++ str_float (10 # 1)
                             ++ ", Available: " ++ str_float (5000000 # 1000000))%string) /\
  Forall reads_only (trace o).
Proof.
  apply (@swap_insufficient_balance RationalFloat ExamplePlatform
           Example.sonic Example.usdc Example.weth (10 # 1) None
           (Example.world 5000000 0) Example.me Example.me (5000000 # 1000000));
    vm_compute; reflexivity.
Defined.
Section Stability.
Context {F : PyFloat} {P : Platform}.

Definition same_chain (w w' : World) : Prop :=
  env w' = env w /\
  erc20 (st w') = erc20 (st w) /\
  transaction_count (st w') = transaction_count (st w) /\
  submitted (st w') = submitted (st w) /\
  middleware (st w') = middleware (st w).

Definition stable {A} (m : M A) : Prop := forall w, same_chain w (post (m w)).

Lemma same_chain_refl w : same_chain w w.
Proof. repeat split. Qed.

Lemma same_chain_trans w1 w2 w3 :
  same_chain w1 w2 -> same_chain w2 w3 -> same_chain w1 w3.
Proof.
  unfold same_chain. intros (a1 & b1 & c1 & d1 & e1) (a2 & b2 & c2 & d2 & e2).
  repeat split; congruence.
Qed.

Lemma stable_ret {A} (a : A) : stable (ret a).
Proof. intros w. apply same_chain_refl. Qed.

Lemma stable_raise {A} (e : exn) : stable (@raise World entry A e).
Proof. intros w. apply same_chain_refl. Qed.

Lemma stable_lift {A} (r : result A) : stable (lift r).
Proof. destruct r; [apply stable_ret | apply stable_raise]. Qed.

Lemma stable_lift_lib {A} (r : lib A) : stable (lift_lib r).
Proof. destruct r; [apply stable_raise | apply stable_ret]. Qed.

Lemma stable_logger level msg : stable (logger level msg).
Proof. intros w. repeat split. Qed.

Lemma stable_getenv name : stable (getenv name).
Proof. intros w. apply same_chain_refl. Qed.

Lemma stable_time : stable time_time.
Proof. intros w. apply same_chain_refl. Qed.

Lemma stable_hex h : stable (hex h).
Proof. intros w. apply same_chain_refl. Qed.

Lemma stable_bind {A B} (m : M A) (f : A -> M B) :
  stable m -> (forall a, stable (f a)) -> stable (bind m f).
Proof.
  intros Hm Hf w.
  destruct (bind_cases m f w) as [[e [_ [_ [_ Hp]]]] | [a [_ [_ [_ Hp]]]]];
    rewrite Hp.
  - apply Hm.
  - eapply same_chain_trans; [apply Hm | apply Hf].
Qed.

Lemma stable_try {A} (m : M A) (h : exn -> M A) :
  stable m -> (forall e, stable (h e)) -> stable (try_except m h).
Proof.
  intros Hm Hh w. unfold try_except.
  destruct (res (m w)) as [a | e]; [apply Hm |].
  destruct (is_Exception e); [| apply Hm].
  cbn. eapply same_chain_trans; [apply Hm | apply Hh].
Qed.

Lemma stable_ask {A} (c : call) (show : A -> reply) sem : stable (ask c show sem).
Proof.
  intros w. unfold ask, ext.
  destruct (faults (env w) (ncalls (st w))); [repeat split |].
  cbn. destruct (sem (env w) (tick (st w))); repeat split.
Qed.

End Stability.

Ltac stable_step :=
  first
    [ apply stable_ret | apply stable_raise | apply stable_lift | apply stable_lift_lib
    | apply stable_logger | apply stable_getenv | apply stable_time | apply stable_hex
    | apply stable_ask
    | apply stable_bind; [| intros ?]
    | apply stable_try; [| intros ?]
    | match goal with
      | |- stable (if ?b then _ else _) => destruct b
      | |- stable (match ?x with _ => _ end) => destruct x
      | |- stable (let (_, _) := ?x in _) => destruct x
      end ].

Section StableOperations.
Context {F : PyFloat} {P : Platform}.

Lemma stable_web3_or_raise self : stable (web3_or_raise self).
Proof. unfold web3_or_raise, _get_web3, when. repeat stable_step. Qed.

Lemma stable_load_account : stable load_account.
Proof. unfold load_account. repeat stable_step. Qed.

Lemma stable_get_balance self a t : stable (get_balance self a t).
Proof.
  unfold get_balance, logged, call_balanceOf, call_decimals, contract_call, eth_get_balance.
  repeat first [apply stable_web3_or_raise | apply stable_load_account | stable_step].
Qed.

Lemma stable_get_swap_route self ti to amount : stable (_get_swap_route self ti to amount).
Proof.
  unfold _get_swap_route, logged, call_decimals, contract_call, requests_get,
    raise_for_status, response_json.
  repeat first [apply stable_web3_or_raise | stable_step].
Qed.

Lemma stable_get_encoded_swap_data self rs sl : stable (_get_encoded_swap_data self rs sl).
Proof.
  unfold _get_encoded_swap_data, logged, requests_post, raise_for_status, response_json.
  repeat first [apply stable_web3_or_raise | apply stable_load_account | stable_step].
Qed.
End StableOperations.
Section Amounts.
Context {F : PyFloat} {P : Platform}.

Definition route_params (token_in token_out : string) (raw : Z) : list (string * string) :=
  [("tokenIn", token_in); ("tokenOut", token_out);
   ("amountIn", str_int raw); ("gasInclude", "true")].

Definition raw_amount (w : World) (token : string) (amount : float) (raw : Z) : Prop :=
  if is_native token then to_wei_ether amount = inr raw
  else exists c t,
      to_checksum_address token = inr c /\
      erc20 (st w) c = Some t /\
      int_of_float (fmul amount (float_of_int (10 ^ Z.of_N (decimals t)))) = inr raw.

Lemma lift_lib_run {A} (r : lib A) (w : World) :
  post (@lift_lib World entry A r w) = w /\
  trace (@lift_lib World entry A r w) = [] /\
  (forall a, res (@lift_lib World entry A r w) = Return a -> r = inr a).
Proof.
  destruct r as [e | a]; cbn; repeat split; intros a' H; inversion H; reflexivity.
Qed.

Lemma lift_run {A} (r : result A) (w : World) :
  post (@lift World entry A r w) = w /\
  trace (@lift World entry A r w) = [] /\
  res (@lift World entry A r w) = r.
Proof. destruct r; cbn; repeat split. Qed.

Lemma ask_Return {A} (c : call) (show : A -> reply) (sem : Env -> State -> lib A)
    (w : World) (a : A) :
  res (ask c show sem w) = Return a ->
  sem (env w) (tick (st w)) = inr a /\
  faults (env w) (ncalls (st w)) = None /\
  trace (ask c show sem w) = [(c, inr (show a))] /\
  post (ask c show sem w) = mkWorld (env w) (tick (st w)).
Proof.
  unfold ask, ext. destruct (faults (env w) (ncalls (st w))); [discriminate |].
  cbn. destruct (sem (env w) (tick (st w))) as [e | a']; cbn; [discriminate |].
  intros H. inversion H. subst. repeat split.
Qed.

Lemma ask_cases {A} (c : call) (show : A -> reply) (sem : Env -> State -> lib A)
    (w : World) :
  (exists e, res (ask c show sem w) = Raise (exn_of_liberr e) /\
             trace (ask c show sem w) = [(c, inl e)]) \/
  (exists a, res (ask c show sem w) = Return a /\
             trace (ask c show sem w) = [(c, inr (show a))] /\
             sem (env w) (tick (st w)) = inr a /\
             faults (env w) (ncalls (st w)) = None).
Proof.
  unfold ask, ext. destruct (faults (env w) (ncalls (st w))) as [e |].
  - left. exists e. split; reflexivity.
  - cbn. destruct (sem (env w) (tick (st w))) as [e | a]; cbn.
    + left. exists e. split; reflexivity.
    + right. exists a. repeat split.
Qed.

Lemma ask_post {A} (c : call) (show : A -> reply) (sem : Env -> State -> lib A)
    (w : World) :
  post (ask c show sem w) = mkWorld (env w) (tick (st w)).
Proof.
  unfold ask, ext. destruct (faults (env w) (ncalls (st w))); [reflexivity |].
  cbn. destruct (sem (env w) (tick (st w))); reflexivity.
Qed.

Lemma contract_call_Return {A} (token : string) (v : view) (show : A -> reply)
    (f : Token -> lib A) (w : World) (a : A) :
  res (contract_call token v show f w) = Return a ->
  exists t, erc20 (st w) token = Some t /\ f t = inr a.
Proof.
  intros H. unfold contract_call in H. apply ask_Return in H.
  destruct H as [H _]. cbn in H.
  destruct (erc20 (st w) token) as [t |]; [| discriminate].
  exists t. auto.
Qed.

Lemma call_decimals_run (c : string) (w : World) (d : N) :
  res (call_decimals c w) = Return d ->
  exists t, erc20 (st w) c = Some t /\ decimals t = d.
Proof.
  intros H. apply contract_call_Return in H. destruct H as [t [Ht Hd]].
  exists t. split; [exact Ht |]. inversion Hd. reflexivity.
Qed.

Lemma scaled_amount_run (token : string) (amount : float) (w : World) (raw : Z) :
  res (bind (lift_lib (to_checksum_address token))
         (fun c => bind (call_decimals c)
            (fun d => lift_lib (int_of_float
                                  (fmul amount (float_of_int (10 ^ Z.of_N d)))))) w)
  = Return raw ->
  exists c t,
    to_checksum_address token = inr c /\
    erc20 (st w) c = Some t /\
    int_of_float (fmul amount (float_of_int (10 ^ Z.of_N (decimals t)))) = inr raw.
Proof.
  intros H.
  destruct (bind_cases (lift_lib (to_checksum_address token))
              (fun c => bind (call_decimals c)
                 (fun d => lift_lib (int_of_float
                                       (fmul amount (float_of_int (10 ^ Z.of_N d)))))) w)
    as [[e [_ [Hr _]]] | [c [Hc [Hr _]]]]; rewrite Hr in H; [discriminate |].
  destruct (lift_lib_run (to_checksum_address token) w) as (Hp & _ & Hv).
  apply Hv in Hc. rewrite Hp in H. clear Hr.
  destruct (bind_cases (call_decimals c)
              (fun d => lift_lib (int_of_float
                                    (fmul amount (float_of_int (10 ^ Z.of_N d))))) w)
    as [[e [_ [Hr _]]] | [d [Hd [Hr _]]]]; rewrite Hr in H; [discriminate |].
  apply call_decimals_run in Hd. destruct Hd as [t [Ht Hd]]. subst d.
  apply lift_lib_run in H.
  exists c, t. auto.
Qed.

End Amounts.
Ltac split_bind m f w :=
  let e := fresh "e" in
  let a := fresh "a" in
  let Hm := fresh "Hm" in
  let Hr := fresh "Hr" in
  let Ht := fresh "Ht" in
  let Hp := fresh "Hp" in
  destruct (bind_cases m f w) as [(e & Hm & Hr & Ht & Hp) | (a & Hm & Hr & Ht & Hp)];
  rewrite ?Hr, ?Ht, ?Hp in *; clear Hr Ht Hp; cbv beta in *.

(** The next [bind] met in a hypothesis or in the goal. *)
Ltac next_bind :=
  match goal with
  | H : context [trace (bind ?m ?f ?w)] |- _ => split_bind m f w
  | H : context [res (bind ?m ?f ?w)] |- _ => split_bind m f w
  | |- context [res (bind ?m ?f ?w)] => split_bind m f w
  | |- context [trace (bind ?m ?f ?w)] => split_bind m f w
  | |- context [post (bind ?m ?f ?w)] => split_bind m f w
  end.

Section Route.
Context {F : PyFloat} {P : Platform}.

Lemma emits_In {A} (Q : entry -> Prop) (m : M A) (w : World) (x : entry) :
  emits Q m -> In x (trace (m w)) -> Q x.
Proof. intros H. apply Forall_forall. apply H. Qed.

Definition http_error (r : HttpResponse) : bool :=
  ((400 <=? status_code r) && (status_code r <? 600))%bool.

(** The conversion of the amount, as [_get_swap_route] writes it. *)
Definition route_amount (token_in : string) (amount_in : float) : M Z :=
  if is_native token_in then lift_lib (to_wei_ether amount_in)
  else
    token_contract <- lift_lib (to_checksum_address token_in) ;;
    decimals <- call_decimals token_contract ;;
    lift_lib (int_of_float (fmul amount_in (float_of_int (10 ^ Z.of_N decimals)))).

Lemma emits_route_amount token amount : emits reads_only (route_amount token amount).
Proof.
  unfold route_amount, call_decimals, contract_call.
  repeat emits_step; split; reflexivity.
Qed.

Lemma stable_route_amount token amount : stable (route_amount token amount).
Proof.
  unfold route_amount, call_decimals, contract_call. repeat stable_step.
Qed.

Lemma route_amount_run token amount w raw :
  res (route_amount token amount w) = Return raw -> raw_amount w token amount raw.
Proof.
  unfold route_amount, raw_amount. destruct (is_native token).
  - intros H. apply lift_lib_run in H. exact H.
  - apply scaled_amount_run.
Qed.

(** What follows the reply of the aggregator in [_get_swap_route]. *)
Lemma route_reply_nonzero (resp : HttpResponse) (data code : value) (w : World) :
  body resp = Some data ->
  dict_get data "code" VNone = Return code ->
  ne_int code 0 = true ->
  exists e,
    res ((raise_for_status resp ;;
          data0 <- response_json resp ;;
          code0 <- lift (dict_get data0 "code" VNone) ;;
          (if ne_int code0 0
           then
             message <- lift (dict_get data0 "message" VNone) ;;
             raise (SonicConnectionError ("API error: " ++ str_value message)%string)
           else
             result <- lift (dict_get data0 "data" VNone) ;;
             (if negb (is_dict result)
              then raise (SonicConnectionError "Invalid route data returned from API")
              else ret result))) w) = Raise e /\
    (e = OtherException "HTTPError" (str_int (status_code resp)) \/
     exists m, e = SonicConnectionError ("API error: " ++ m)%string).
Proof.
  intros Hb Hc Hne. unfold raise_for_status, response_json, bind.
  destruct ((400 <=? status_code resp) && (status_code resp <? 600))%bool; cbn.
  - eexists; split; [reflexivity | left; reflexivity].
  - rewrite Hb. cbn. rewrite Hc. cbn. rewrite Hne.
    destruct data; try discriminate. cbn.
    eexists; split; [reflexivity | right; eexists; reflexivity].
Qed.

Lemma reads_only_not_aggregator (x : entry) :
  reads_only x -> is_aggregator_call (fst x) = true -> False.
Proof. intros [H _] H'. congruence. Qed.

Lemma reads_only_IsConnected (r : lib reply) : reads_only (IsConnected, r).
Proof. split; reflexivity. Qed.

Lemma get_swap_route_request (self : SonicConnection) (token_in token_out : string)
    (amount : float) (w : World) (x : entry) :
  In x (trace (_get_swap_route self token_in token_out amount w)) ->
  is_aggregator_call (fst x) = true ->
  exists raw,
    fst x = HttpGet (aggregator_api self ++ "/routes")%string
                    [("x-client-id", "ZerePyBot")]
                    (route_params token_in token_out raw) /\
    raw_amount w token_in amount raw /\
    forall resp data code,
      snd x = inr (RResponse resp) ->
      body resp = Some data ->
      dict_get data "code" VNone = Return code ->
      ne_int code 0 = true ->
      exists e, res (_get_swap_route self token_in token_out amount w) = Raise e /\
                (e = OtherException "HTTPError" (str_int (status_code resp)) \/
                 exists m, e = SonicConnectionError ("API error: " ++ m)%string).
Proof.
  intros Hin Hagg. unfold _get_swap_route in *.
  rewrite logged_trace in Hin. rewrite logged_res.
  fold (route_amount token_in amount) in *.
  pose proof (emits_web3_or_raise reads_only self reads_only_IsConnected) as Eweb.
  next_bind.
  { exfalso. eapply reads_only_not_aggregator; [| exact Hagg].
    eapply emits_In; [exact Eweb | exact Hin]. }
  apply in_app_or in Hin. destruct Hin as [Hin | Hin].
  { exfalso. eapply reads_only_not_aggregator; [| exact Hagg].
    eapply emits_In; [exact Eweb | exact Hin]. }
  pose proof (stable_web3_or_raise self w) as (_ & Herc & _).
  set (w1 := post (web3_or_raise self w)) in *.
  next_bind.
  { exfalso. eapply reads_only_not_aggregator; [| exact Hagg].
    eapply emits_In; [apply emits_route_amount | exact Hin]. }
  apply in_app_or in Hin. destruct Hin as [Hin | Hin].
  { exfalso. eapply reads_only_not_aggregator; [| exact Hagg].
    eapply emits_In; [apply emits_route_amount | exact Hin]. }
  rename a0 into raw. apply route_amount_run in Hm0.
  assert (Hraw : raw_amount w token_in amount raw).
  { unfold raw_amount in *. rewrite <- Herc. exact Hm0. }
  exists raw.
  set (w2 := post (route_amount token_in amount w1)) in *.
  next_bind.
  - (* the request itself fails *)
    unfold requests_get in Hin, Hm1.
    match type of Hin with
    | In _ (trace (ask ?c ?show ?sem ?w)) =>
        destruct (ask_cases c show sem w) as [(e1 & Hr1 & Ht1) | (a1 & Hr1 & Ht1 & _)]
    end.
    + rewrite Ht1 in Hin. destruct Hin as [Hx | []]. subst x. cbn.
      repeat split; auto. intros; discriminate.
    + rewrite Hr1 in Hm1. discriminate.
  - apply in_app_or in Hin. destruct Hin as [Hin | Hin].
    + unfold requests_get in Hin, Hm1. apply ask_Return in Hm1.
      destruct Hm1 as (_ & _ & Ht1 & _). rewrite Ht1 in Hin.
      destruct Hin as [Hx | []]. subst x. cbn.
      repeat split; auto.
      intros resp data code Hresp. inversion Hresp; subst resp.
      apply route_reply_nonzero.
    + exfalso. eapply reads_only_not_aggregator; [| exact Hagg].
      eapply emits_In; [| exact Hin].
      unfold raise_for_status, response_json. repeat emits_step.
Qed.

End Route.
(** Proves [emits (fun e => sel (fst e) = false) m] for a program [m] of
    sonic_connection.py none of whose calls is selected by [sel]. *)
Ltac emits_auto :=
  unfold swap, _handle_token_approval, _get_encoded_swap_data, _get_swap_route,
    get_balance, web3_or_raise, _get_web3, load_account, logged, when, check_receipt,
    call_allowance, call_balanceOf, call_decimals, contract_call,
    requests_get, requests_post, raise_for_status, response_json,
    eth_get_balance, eth_get_transaction_count, eth_gas_price, eth_chain_id,
    build_transaction, estimate_gas, sign_transaction, send_raw_transaction,
    wait_for_transaction_receipt;
  repeat emits_step; try reflexivity.

Section RouteFailure.
Context {F : PyFloat} {P : Platform}.

Definition is_route_request (c : call) : bool :=
  match c with HttpGet _ _ _ => true | _ => false end.

Definition no_transaction (e : entry) : Prop := is_transaction_call (fst e) = false.

Lemma reads_only_no_transaction (x : entry) : reads_only x -> no_transaction x.
Proof. intros [_ H]. exact H. Qed.

Lemma route_request_is_aggregator (c : call) :
  is_route_request c = true -> is_aggregator_call c = true.
Proof. destruct c; cbn; congruence. Qed.

Lemma swap_route_failure (self : SonicConnection) (token_in token_out : string)
    (amount : float) (slippage : option float) (w : World)
    (x : entry) (resp : HttpResponse) (data code : value) :
  In x (trace (swap self token_in token_out amount slippage w)) ->
  is_route_request (fst x) = true ->
  snd x = inr (RResponse resp) ->
  body resp = Some data ->
  dict_get data "code" VNone = Return code ->
  ne_int code 0 = true ->
  (exists e, res (swap self token_in token_out amount slippage w) = Raise e /\
             (e = OtherException "HTTPError" (str_int (status_code resp)) \/
              exists m, e = SonicConnectionError ("API error: " ++ m)%string)) /\
  Forall no_transaction (trace (swap self token_in token_out amount slippage w)).
Proof.
  intros Hin Hsel Hresp Hbody Hcode Hne.
  pose proof (route_request_is_aggregator _ Hsel) as Hagg.
  unfold swap in *. rewrite logged_trace in *. rewrite logged_res.
  pose proof (emits_web3_or_raise reads_only self reads_only_IsConnected) as Eweb.
  next_bind.
  { exfalso. eapply reads_only_not_aggregator; [| exact Hagg].
    eapply emits_In; [exact Eweb | exact Hin]. }
  apply in_app_or in Hin. destruct Hin as [Hin | Hin].
  { exfalso. eapply reads_only_not_aggregator; [| exact Hagg].
    eapply emits_In; [exact Eweb | exact Hin]. }
  next_bind.
  { exfalso. eapply reads_only_not_aggregator; [| exact Hagg].
    eapply emits_In; [apply emits_load_account | exact Hin]. }
  apply in_app_or in Hin. destruct Hin as [Hin | Hin].
  { exfalso. eapply reads_only_not_aggregator; [| exact Hagg].
    eapply emits_In; [apply emits_load_account | exact Hin]. }
  destruct a0 as [private_key address].
  next_bind.
  { exfalso. eapply reads_only_not_aggregator; [| exact Hagg].
    eapply emits_In; [apply emits_get_balance | exact Hin]. }
  apply in_app_or in Hin. destruct Hin as [Hin | Hin].
  { exfalso. eapply reads_only_not_aggregator; [| exact Hagg].
    eapply emits_In; [apply emits_get_balance | exact Hin]. }
  destruct (flt a0 amount).
  { destruct Hin. }
  next_bind.
  - (* the route request raised: nothing follows it *)
    destruct (get_swap_route_request self token_in token_out amount _ x Hin Hagg)
      as (raw & _ & _ & Hfail).
    destruct (Hfail resp data code Hresp Hbody Hcode Hne) as (e' & He' & Hkind).
    rewrite Hm2 in He'. inversion He'; subst e'.
    split; [exists e; auto |].
    apply Forall_app; split; [| apply Forall_app; split; [| apply Forall_app; split]].
    + eapply Forall_impl; [apply reads_only_no_transaction | apply Eweb].
    + eapply Forall_impl; [apply reads_only_no_transaction | apply emits_load_account].
    + eapply Forall_impl; [apply reads_only_no_transaction | apply emits_get_balance].
    + assert (E : emits no_transaction (_get_swap_route self token_in token_out amount))
        by (unfold no_transaction; emits_auto).
      apply E.
  - (* the route request returned: its reply had code 0 *)
    exfalso. apply in_app_or in Hin. destruct Hin as [Hin | Hin].
    + destruct (get_swap_route_request self token_in token_out amount _ x Hin Hagg)
        as (raw & _ & _ & Hfail).
      destruct (Hfail resp data code Hresp Hbody Hcode Hne) as (e' & He' & _).
      rewrite Hm2 in He'. discriminate.
    + revert Hin Hsel.
      match goal with
      | |- In x (trace (?m ?w')) -> _ =>
          assert (E : emits (fun y => is_route_request (fst y) = false) m)
            by emits_auto;
          intros Hin Hsel; apply (emits_In _ _ _ _ E) in Hin; congruence
      end.
Qed.

End RouteFailure.
(** ** The three stages of [swap] *)

Section Stages.
Context {F : PyFloat} {P : Platform}.

(** The amount [swap] asks the approval for, as [swap] writes it. *)
Definition approval_amount (token_in : string) (amount : float) : M Z :=
  if String.eqb (lower token_in) (lower S_TOKEN) then
    lift_lib (to_wei_ether amount)
  else
    token_contract <- lift_lib (to_checksum_address token_in) ;;
    decimals <- call_decimals token_contract ;;
    lift_lib (int_of_float (fmul amount (float_of_int (10 ^ Z.of_N decimals)))).

(** The gas limit: estimated, or the default when the estimation raises. *)
Definition gas_or_default (base_tx : Tx) : M Tx :=
  try_except
    (gas <- estimate_gas base_tx ;; ret (set_gas gas base_tx))
    (fun e =>
       logger "WARNING" ("Gas estimation failed: " ++ str_exn e
                         ++ ", using default gas limit")%string ;;
       ret (set_gas DEFAULT_GAS_LIMIT base_tx)).

(** The last stage of [swap], from "Prepare transaction" on. *)
Definition submit_swap (self : SonicConnection) (private_key address token_in : string)
    (amount : float) (router_address : value) (encoded_data : string) : M string :=
  to <- lift_lib (to_checksum_address_value router_address) ;;
  data <- lift_lib (HexBytes encoded_data) ;;
  nonce <- eth_get_transaction_count address ;;
  gasPrice <- eth_gas_price ;;
  chainId <- eth_chain_id ;;
  value <- (if is_native token_in then lift_lib (to_wei_ether amount) else ret 0) ;;
  let base_tx :=
    mkTx (Some address) (Some to) (Some (RawData data)) (Some nonce)
         (Some gasPrice) (Some chainId) (Some value) None in
  base_tx <- gas_or_default base_tx ;;
  signed_tx <- sign_transaction private_key base_tx ;;
  tx_hash <- send_raw_transaction signed_tx ;;
  receipt <- wait_for_transaction_receipt tx_hash ;;
  check_receipt receipt "Swap transaction failed" ;;
  tx_hex <- hex tx_hash ;;
  ret ("🔄 Swap transaction sent: " ++ _get_explorer_link self tx_hex)%string.

(** [swap], with its stages named. *)
Lemma swap_stages (self : SonicConnection) (token_in token_out : string)
    (amount : float) (slippage : option float) :
  swap self token_in token_out amount slippage =
  logged "Swap failed: " (
    web3_or_raise self ;;
    ' (private_key, address) <- load_account ;;
    current_balance <- get_balance self (Some address)
                         (if is_native token_in then None else Some token_in) ;;
    if flt current_balance amount then
      raise (ValueError ("Insufficient balance. Required: " ++ str_float amount
                         ++ ", Available: " ++ str_float current_balance)%string)
    else
    route_data <- _get_swap_route self token_in token_out amount ;;
    route_summary <- lift (subscript route_data "routeSummary") ;;
    encoded_data <- _get_encoded_swap_data self route_summary
                      (Some (or_else slippage float_0_5)) ;;
    router_address <- lift (dict_get route_data "routerAddress" VNone) ;;
    if negb (truthy router_address) then
      raise (SonicConnectionError "No router address in route data")
    else
    (if negb (is_native token_in) then
       amount_raw <- approval_amount token_in amount ;;
       _handle_token_approval self token_in router_address amount_raw
     else ret tt) ;;
    submit_swap self private_key address token_in amount router_address encoded_data).
Proof. reflexivity. Qed.

End Stages.
(** ** Walking a run call by call *)

Section Primitive.
Context {F : PyFloat} {P : Platform}.

Lemma ask_Raise {A} (c : call) (show : A -> reply) (sem : Env -> State -> lib A)
    (w : World) (e : exn) :
  res (ask c show sem w) = Raise e ->
  exists err, e = exn_of_liberr err /\
              trace (ask c show sem w) = [(c, inl err)] /\
              post (ask c show sem w) = mkWorld (env w) (tick (st w)).
Proof.
  intros H. rewrite ask_post.
  destruct (ask_cases c show sem w) as [(err & Hr & Ht) | (a & Hr & _)];
    rewrite Hr in H; [| discriminate].
  inversion H. exists err. auto.
Qed.

Lemma ext_Return {A} (c : call) (show : A -> reply)
    (sem : Env -> State -> lib A * State) (w : World) (a : A) :
  res (ext c show sem w) = Return a ->
  fst (sem (env w) (tick (st w))) = inr a /\
  faults (env w) (ncalls (st w)) = None /\
  trace (ext c show sem w) = [(c, inr (show a))] /\
  post (ext c show sem w) = mkWorld (env w) (snd (sem (env w) (tick (st w)))).
Proof.
  unfold ext. destruct (faults (env w) (ncalls (st w))); [discriminate |].
  destruct (fst (sem (env w) (tick (st w)))) as [e | a'] eqn:E; cbn; [discriminate |].
  intros H. inversion H. subst. repeat split.
Qed.

Lemma ext_Raise {A} (c : call) (show : A -> reply)
    (sem : Env -> State -> lib A * State) (w : World) (e : exn) :
  res (ext c show sem w) = Raise e ->
  exists err, e = exn_of_liberr err /\
              trace (ext c show sem w) = [(c, inl err)] /\
              (post (ext c show sem w) = mkWorld (env w) (tick (st w)) \/
               post (ext c show sem w)
               = mkWorld (env w) (snd (sem (env w) (tick (st w))))).
Proof.
  unfold ext. destruct (faults (env w) (ncalls (st w))) as [err |].
  - intros H. inversion H. exists err. auto.
  - destruct (fst (sem (env w) (tick (st w)))) as [err | a'] eqn:E; cbn;
      [| discriminate].
    intros H. inversion H. exists err. auto.
Qed.

Lemma web3_or_raise_trace (self : SonicConnection) (w : World) :
  trace (web3_or_raise self w) = [] \/
  exists r, trace (web3_or_raise self w) = [(IsConnected, r)].
Proof.
  unfold web3_or_raise, _get_web3, when, bind, try_except, logger.
  destruct (_web3 self); cbn; [| left; reflexivity].
  match goal with
  | |- context [ask ?c ?show ?sem w] =>
      destruct (ask_cases c show sem w) as [(e & Hr & Ht) | (a & Hr & Ht & _)];
        rewrite ?Hr, ?Ht; cbn
  end.
  - right. eexists. reflexivity.
  - destruct a; cbn; right; eexists; reflexivity.
Qed.

Lemma load_account_Return (w : World) (key address : string) :
  res (load_account w) = Return (key, address) ->
  nonempty (environ (env w) "SONIC_PRIVATE_KEY") = Some key /\
  account_from_key key = inr address.
Proof.
  unfold load_account, bind, getenv. cbn.
  destruct (nonempty (environ (env w) "SONIC_PRIVATE_KEY")) as [k |]; cbn;
    [| discriminate].
  destruct (account_from_key k) as [e | a] eqn:E; cbn; [discriminate |].
  intros H. inversion H. subst. auto.
Qed.

(** A world that differs from [w] in the call counter and the log only. *)
Definition chain_of (w : World) (n : nat) (l : list (string * string)) : World :=
  mkWorld (env w)
          (mkState (erc20 (st w)) (transaction_count (st w)) (submitted (st w))
                   (middleware (st w)) n l).

Lemma same_chain_post (w w' : World) :
  same_chain w w' -> exists n l, w' = chain_of w n l.
Proof.
  intros (He & Hc & Ht & Hs & Hm). destruct w' as [e' [c' t' s' m' n' l']].
  cbn in *. subst. exists n', l'. reflexivity.
Qed.

Lemma stable_post {A} (m : M A) :
  stable m -> forall w, exists n l, post (m w) = chain_of w n l.
Proof. intros H w. apply same_chain_post. apply H. Qed.

Lemma logged_same_chain {A} (prefix : string) (m : M A) (w : World) :
  same_chain (post (m w)) (post (logged prefix m w)).
Proof.
  unfold logged, try_except.
  destruct (res (m w)) as [a | e]; [apply same_chain_refl |].
  destruct (is_Exception e); [| apply same_chain_refl].
  cbn. repeat split.
Qed.

End Primitive.
Arguments bind {W E A B} m f : simpl never.
Arguments try_except {W E A} m h : simpl never.
Arguments ext {F A} c show sem : simpl never.
Arguments ask {F A} c show sem : simpl never.

(** Resolves the hypothesis [res (m w) = ...] the last [next_bind] left,
    when [m] is a call or a pure step. *)
Ltac resolve :=
  repeat match goal with
  | H : res (ask ?c ?show ?sem ?w) = Return ?a |- _ =>
      let Hs := fresh "Hs" in let Hf := fresh "Hf" in
      let Ht := fresh "Ht" in let Hp := fresh "Hp" in
      destruct (ask_Return c show sem w a H) as (Hs & Hf & Ht & Hp);
      rewrite ?Ht, ?Hp in *; clear H Ht Hp Hf; cbn [env st] in *
  | H : res (ask ?c ?show ?sem ?w) = Raise ?e |- _ =>
      let err := fresh "err" in let He := fresh "He" in
      let Ht := fresh "Ht" in let Hp := fresh "Hp" in
      destruct (ask_Raise c show sem w e H) as (err & He & Ht & Hp);
      rewrite ?Ht, ?Hp in *; clear H Ht Hp; cbn [env st] in *
  | H : res (ext ?c ?show ?sem ?w) = Return ?a |- _ =>
      let Hs := fresh "Hs" in let Hf := fresh "Hf" in
      let Ht := fresh "Ht" in let Hp := fresh "Hp" in
      destruct (ext_Return c show sem w a H) as (Hs & Hf & Ht & Hp);
      rewrite ?Ht, ?Hp in *; clear H Ht Hp Hf; cbn [env st fst snd] in *
  | H : res (ext ?c ?show ?sem ?w) = Raise ?e |- _ =>
      let err := fresh "err" in let He := fresh "He" in
      let Ht := fresh "Ht" in let Hp := fresh "Hp" in
      destruct (ext_Raise c show sem w e H) as (err & He & Ht & Hp);
      rewrite ?Ht in *; clear H Ht
  | H : res (load_account ?w) = Return (?k, ?a) |- _ =>
      let Hk := fresh "Hkey" in let Ha := fresh "Haddr" in
      let Ht := fresh "Ht" in let Hp := fresh "Hp" in
      destruct (load_account_Return w k a H) as (Hk & Ha);
      destruct (load_account_run w) as (Hp & Ht);
      rewrite ?Ht, ?Hp in *; clear H Ht Hp
  | H : res (load_account ?w) = Return ?p |- _ => destruct p
  | H : res (load_account ?w) = Raise _ |- _ =>
      let Ht := fresh "Ht" in let Hp := fresh "Hp" in
      destruct (load_account_run w) as (Hp & Ht);
      rewrite ?Ht, ?Hp in *; clear H Ht Hp
  | H : res (web3_or_raise ?self ?w) = _ |- _ =>
      let n := fresh "n" in let l := fresh "l" in
      let Ht := fresh "Ht" in let Hp := fresh "Hp" in let r := fresh "r" in
      destruct (stable_post _ (stable_web3_or_raise self) w) as (n & l & Hp);
      destruct (web3_or_raise_trace self w) as [Ht | (r & Ht)];
      rewrite ?Ht, ?Hp in *; clear H Ht Hp; cbn [env st chain_of] in *
  | H : res (@lift_lib World entry _ ?r ?w) = _ |- _ =>
      let E := fresh "E" in
      destruct r eqn:E; cbn in H; inversion H; clear H; subst;
      cbn [trace post res lift_lib ret raise] in *
  | H : res (@lift World entry _ ?r ?w) = _ |- _ =>
      let E := fresh "E" in
      destruct r eqn:E; cbn in H; inversion H; clear H; subst;
      cbn [trace post res lift ret raise] in *
  | H : res (hex ?h ?w) = _ |- _ =>
      cbn in H; inversion H; clear H; subst; cbn [trace post res hex] in *
  | H : res (logger ?l ?m ?w) = _ |- _ =>
      cbn in H; inversion H; clear H; subst; cbn [trace post res logger] in *
  | H : res (@ret World entry _ ?a ?w) = _ |- _ =>
      cbn in H; inversion H; clear H; subst; cbn [trace post res ret] in *
  | H : res (@raise World entry _ ?e ?w) = _ |- _ =>
      cbn in H; inversion H; clear H; subst; cbn [trace post res raise] in *
  end.

(** The next [if] on a value of the run, in a hypothesis or in the goal. *)
Ltac next_if :=
  match goal with
  | H : context [trace ((if ?b then _ else _) _)] |- _ => destruct b eqn:?
  | H : context [res ((if ?b then _ else _) _)] |- _ => destruct b eqn:?
  | |- context [res ((if ?b then _ else _) _)] => destruct b eqn:?
  | |- context [trace ((if ?b then _ else _) _)] => destruct b eqn:?
  | |- context [post ((if ?b then _ else _) _)] => destruct b eqn:?
  end;
  cbn [trace post res ret raise] in *.

Ltac walk := repeat first [next_bind; resolve | next_if].

(** What the calls returned, as equations between values. *)
Ltac returned :=
  repeat match goal with
  | H : inr _ = inr _ |- _ => inversion H; clear H
  | H : Return _ = Return _ |- _ => inversion H; clear H
  | H : tt = _ |- _ => clear H
  end; subst.

(** The entries of an explicit trace, one by one. *)
Ltac entries H :=
  cbn [app] in H; cbn [In] in H;
  repeat match type of H with
         | _ \/ _ => destruct H as [H | H]
         | False => destruct H
         end;
  try (subst; cbn [fst snd]).

Section Approval.
Context {F : PyFloat} {P : Platform}.

(** What [_handle_token_approval] does when the allowance is too low. *)
Definition approve_now (self : SonicConnection) (private_key address token_contract : string)
    (spender_address : value) (amount : Z) : M unit :=
  nonce <- eth_get_transaction_count address ;;
  gasPrice <- eth_gas_price ;;
  chainId <- eth_chain_id ;;
  let approve_tx :=
    mkTx (Some address) None None (Some nonce) (Some gasPrice) (Some chainId)
         None None in
  approve_tx <- build_transaction token_contract
                  (Approve spender_address amount) approve_tx ;;
  signed_approve <- sign_transaction private_key approve_tx ;;
  tx_hash <- send_raw_transaction signed_approve ;;
  tx_hex <- hex tx_hash ;;
  logger "INFO" ("Approval transaction sent: " ++ _get_explorer_link self tx_hex)%string ;;
  receipt <- wait_for_transaction_receipt tx_hash ;;
  check_receipt receipt "Approval transaction failed".

Lemma handle_token_approval_stages (self : SonicConnection) (token_address : string)
    (spender_address : value) (amount : Z) :
  _handle_token_approval self token_address spender_address amount =
  logged "Approval failed: " (
    web3_or_raise self ;;
    ' (private_key, address) <- load_account ;;
    token_contract <- lift_lib (to_checksum_address token_address) ;;
    current_allowance <- call_allowance token_contract address spender_address ;;
    if current_allowance <? amount then
      approve_now self private_key address token_contract spender_address amount
    else ret tt).
Proof. reflexivity. Qed.

Definition is_approve (spender : value) (amount : Z) (tx : Tx) : Prop :=
  exists s, spender = VStr s /\ tx_data tx = Some (ApproveData s amount).

Definition approval_entry (spender : value) (amount : Z) (c : call) : Prop :=
  match c with
  | IsConnected | EthGetTransactionCount _ | EthGasPrice | EthChainId => True
  | ContractCall _ (Allowance _ sp) => sp = spender
  | BuildTransaction _ fn _ => fn = Approve spender amount
  | SignTransaction _ tx => is_approve spender amount tx
  | SendRawTransaction stx | WaitForTransactionReceipt stx =>
      is_approve spender amount (stx_tx stx)
  | _ => False
  end.

Lemma fill_transaction_keeps (e : Env) (s : State) (tx tx' : Tx) :
  fill_transaction e s tx = inr tx' ->
  tx_data tx' = tx_data tx /\ tx_to tx' = tx_to tx /\ tx_from tx' = tx_from tx.
Proof.
  unfold fill_transaction. destruct (tx_gas tx).
  - intros H. inversion H. repeat split.
  - match goal with |- context [gas_for e ?t] => destruct (gas_for e t) end;
      intros H; inversion H. repeat split.
Qed.

Lemma build_approve (e : Env) (s : State) (contract : string) (spender : value)
    (amount : Z) (base tx : Tx) :
  match spender with
  | VStr sp =>
      fill_transaction e s
        (mkTx (tx_from base) (Some contract) (Some (ApproveData sp amount))
              (tx_nonce base) (tx_gasPrice base) (tx_chainId base)
              (tx_value base) (tx_gas base))
  | _ => inl ("InvalidAddress", "not an address")
  end = inr tx ->
  is_approve spender amount tx /\ tx_to tx = Some contract /\ tx_from tx = tx_from base.
Proof.
  destruct spender; try discriminate.
  intros H. apply fill_transaction_keeps in H. destruct H as (Hd & Ht & Hf).
  cbn in *. repeat split; auto. exists s0. auto.
Qed.

Ltac walk_approve_now :=
  unfold approve_now, eth_get_transaction_count, eth_gas_price, eth_chain_id,
    build_transaction, sign_transaction, send_raw_transaction,
    wait_for_transaction_receipt, check_receipt in *;
  walk;
  repeat match goal with
  | H : match ?sp with VStr _ => _ | _ => _ end = inr _ |- _ =>
      apply build_approve in H; destruct H as (? & ? & ?)
  end;
  returned.

Lemma approve_now_entries self k a c sp amount w x :
  In x (trace (approve_now self k a c sp amount w)) -> approval_entry sp amount (fst x).
Proof.
  intros Hin. walk_approve_now; entries Hin; cbn; auto.
Qed.

Lemma allowance_of_set_allowance (s : State) (token owner spender : string) (amount : Z) :
  erc20 s token <> None ->
  allowance_of (set_allowance token owner spender amount s) token owner spender = amount.
Proof.
  intros H. unfold allowance_of, set_allowance. cbn.
  rewrite String.eqb_refl. destruct (erc20 s token); [| congruence].
  cbn. rewrite !String.eqb_refl. reflexivity.
Qed.

Lemma mine_approve (e : Env) (stx : SignedTx) (s : State)
    (token owner spender : string) (amount : Z) :
  fate e stx = Some 1 ->
  tx_data (stx_tx stx) = Some (ApproveData spender amount) ->
  tx_to (stx_tx stx) = Some token ->
  tx_from (stx_tx stx) = Some owner ->
  erc20 s token <> None ->
  allowance_of (mine e stx s) token owner spender = amount.
Proof.
  intros Hf Hd Ht Ho Herc. unfold mine, apply_effect. rewrite Hf, Hd, Ht, Ho. cbn.
  apply allowance_of_set_allowance. exact Herc.
Qed.

Lemma receipt_status (e : Env) (stx : SignedTx) (h : string) (rc : value) :
  match fate e stx with
  | Some status => inr (receipt_of h status)
  | None => inl ("TimeExhausted", "not in the chain")
  end = inr rc ->
  exists status, fate e stx = Some status /\ rc = receipt_of h status /\
                 truthy rc = true /\
                 dict_get rc "status" VNone = Return (VInt status).
Proof.
  destruct (fate e stx) as [status |]; [| discriminate].
  intros H. inversion H. exists status. repeat split.
Qed.

Lemma approve_now_establishes self k a c sp amount w :
  res (approve_now self k a c sp amount w) = Return tt ->
  erc20 (st w) c <> None ->
  exists s, sp = VStr s /\
            allowance_of (st (post (approve_now self k a c sp amount w))) c a s = amount.
Proof.
  intros Hres Herc. walk_approve_now; try discriminate;
    cbn [env st with_state] in *;
    match goal with
    | H : match fate _ _ with _ => _ end = inr _ |- _ =>
        apply receipt_status in H; destruct H as (status & Hfate & _ & _ & Hst)
    end;
    match goal with
    | H : is_approve _ _ _ |- _ => destruct H as (s & Hsp & Hdata)
    end;
    match goal with
    | E : dict_get _ "status" VNone = Return ?v, N : ne_int ?v 1 = false |- _ =>
        rewrite Hst in E; inversion E; subst v; cbn in N;
        apply negb_false_iff in N; apply Z.eqb_eq in N; subst status
    end;
    exists s; split; [assumption |];
    apply mine_approve; auto.
Qed.


Definition is_submission (c : call) : bool :=
  match c with
  | SendRawTransaction _ | SendTransaction _ => true
  | _ => false
  end.

(** The number of transactions a trace submits to the node. *)
Definition submissions (t : list entry) : nat :=
  List.length (filter (fun e => is_submission (fst e)) t).

Lemma submissions_app (t1 t2 : list entry) :
  submissions (t1 ++ t2) = (submissions t1 + submissions t2)%nat.
Proof. unfold submissions. rewrite filter_app, List.length_app. reflexivity. Qed.

Lemma approve_now_waits self k a c sp amount w stx r :
  In (SendRawTransaction stx, inr r) (trace (approve_now self k a c sp amount w)) ->
  exists r', In (WaitForTransactionReceipt stx, r')
                (trace (approve_now self k a c sp amount w)).
Proof.
  intros Hin. walk_approve_now; entries Hin; try discriminate;
    match goal with
    | H : (_, _) = (_, _) |- _ => inversion H; subst
    end;
    eexists; cbn [app]; cbn [In]; eauto 12.
Qed.


Lemma approve_now_receipt self k a c sp amount w stx rc v :
  In (WaitForTransactionReceipt stx, inr (RValue rc))
     (trace (approve_now self k a c sp amount w)) ->
  dict_get rc "status" VNone = Return v ->
  ne_int v 1 = true ->
  res (approve_now self k a c sp amount w)
  = Raise (SonicConnectionError "Approval transaction failed").
Proof.
  intros Hin Hv Hne. walk_approve_now; entries Hin; try discriminate;
    try reflexivity;
    match goal with
    | H : (_, _) = (_, _) |- _ => inversion H; subst
    end;
    congruence.
Qed.


Lemma approve_now_submits_once self k a c sp amount w :
  (submissions (trace (approve_now self k a c sp amount w)) <= 1)%nat.
Proof.
  walk_approve_now; cbn; lia.
Qed.


End Approval.
(** ** [_handle_token_approval] *)

Ltac walk_approval :=
  rewrite handle_token_approval_stages in *;
  rewrite ?logged_res, ?logged_trace in *;
  unfold call_allowance, contract_call in *;
  walk; returned.

Section Approval2.
Context {F : PyFloat} {P : Platform}.

Lemma approval_entries self token sp amount w x :
  In x (trace (_handle_token_approval self token sp amount w)) ->
  approval_entry sp amount (fst x).
Proof.
  intros Hin. walk_approval.
  all: entries Hin; cbn; auto.
  all: eapply approve_now_entries; eassumption.
Qed.
(** The token contract, the owner and the spender an approval is about,
    as [_handle_token_approval] works them out. *)
Definition approval_target (e : Env) (token_address : string) (spender : value)
    : option (string * string * string) :=
  match nonempty (environ e "SONIC_PRIVATE_KEY") with
  | Some key =>
      match account_from_key key, to_checksum_address token_address, spender with
      | inr address, inr token_contract, VStr sp => Some (token_contract, address, sp)
      | _, _, _ => None
      end
  | None => None
  end.

Lemma allowance_of_same_chain (w w' : World) :
  same_chain w w' -> allowance_of (st w') = allowance_of (st w).
Proof. intros (_ & H & _). unfold allowance_of. rewrite H. reflexivity. Qed.

Lemma approval_waits self token sp amount w stx r :
  In (SendRawTransaction stx, inr r)
     (trace (_handle_token_approval self token sp amount w)) ->
  exists r', In (WaitForTransactionReceipt stx, r')
                (trace (_handle_token_approval self token sp amount w)).
Proof.
  intros Hin. walk_approval; entries Hin; try discriminate.
  all: apply approve_now_waits in Hin; destruct Hin as (r' & Hin);
    exists r'; cbn [app]; cbn [In]; auto 6.
Qed.

Lemma approval_receipt self token sp amount w stx rc v :
  In (WaitForTransactionReceipt stx, inr (RValue rc))
     (trace (_handle_token_approval self token sp amount w)) ->
  dict_get rc "status" VNone = Return v ->
  ne_int v 1 = true ->
  res (_handle_token_approval self token sp amount w)
  = Raise (SonicConnectionError "Approval transaction failed").
Proof.
  intros Hin Hv Hne. walk_approval; entries Hin; try discriminate.
  all: eapply approve_now_receipt; eassumption.
Qed.

Lemma submissions_cons (e : entry) (t : list entry) :
  submissions (e :: t)
  = ((if is_submission (fst e) then 1 else 0) + submissions t)%nat.
Proof. unfold submissions. cbn. destruct (is_submission (fst e)); reflexivity. Qed.

Lemma approval_submits_once self token sp amount w :
  (submissions (trace (_handle_token_approval self token sp amount w)) <= 1)%nat.
Proof.
  walk_approval; cbn [app]; rewrite ?submissions_cons; cbn [fst is_submission];
    try (cbn; lia).
  all: match goal with
       | |- context [approve_now ?s ?k ?a ?c ?sp ?amt ?w'] =>
           pose proof (approve_now_submits_once s k a c sp amt w')
       end; lia.
Qed.

Lemma approval_establishes self token sp amount w :
  res (_handle_token_approval self token sp amount w) = Return tt ->
  exists c a s,
    approval_target (env w) token sp = Some (c, a, s) /\
    amount <= allowance_of (st (post (_handle_token_approval self token sp amount w))) c a s.
Proof.
  intros Hres.
  rewrite handle_token_approval_stages in *.
  match goal with
  | |- context [post (logged ?p ?m ?w)] =>
      rewrite (allowance_of_same_chain _ _ (logged_same_chain p m w))
  end.
  rewrite ?logged_res in *. unfold call_allowance, contract_call in *.
  walk; returned; try discriminate;
    cbn [env st chain_of tick erc20] in *;
    match goal with
    | H : match erc20 ?st0 ?c with _ => _ end = inr _ |- _ =>
        destruct (erc20 st0 c) as [t |] eqn:Herc; [| discriminate];
        destruct sp; try discriminate; inversion H; clear H; subst
    end;
    match goal with
    | Hk : nonempty _ = Some ?k, Ha : account_from_key ?k = inr ?a,
      Hc : to_checksum_address _ = inr ?c |- _ =>
        exists c, a;
        match goal with
        | Hr : res (approve_now _ _ _ _ (VStr ?s') _ _) = Return tt |- _ =>
            apply approve_now_establishes in Hr;
              [ destruct Hr as (sx & Hsx & Hal); inversion Hsx; subst sx;
                exists s'; split;
                [ unfold approval_target; rewrite Hk, Ha, Hc; reflexivity
                | rewrite Hal; lia ]
              | cbn [st tick erc20]; congruence ]
        | |- exists _, approval_target _ _ (VStr ?s') = _ /\ _ =>
            exists s'; split;
            [ unfold approval_target; rewrite Hk, Ha, Hc; reflexivity
            | unfold allowance_of; cbn [st tick erc20]; rewrite Herc;
              apply Z.ltb_ge; assumption ]
        end
    end.
Qed.

(** With the allowance already there, the approval submits nothing and
    leaves the chain as it is. *)
Lemma approval_noop self token sp amount w c a s :
  approval_target (env w) token sp = Some (c, a, s) ->
  amount <= allowance_of (st w) c a s ->
  Forall no_transaction (trace (_handle_token_approval self token sp amount w)) /\
  same_chain w (post (_handle_token_approval self token sp amount w)).
Proof.
  intros Htarget Hal.
  assert (Hno : forall k a' c',
             nonempty (environ (env w) "SONIC_PRIVATE_KEY") = Some k ->
             account_from_key k = inr a' ->
             to_checksum_address token = inr c' ->
             forall al,
               match erc20 (st w) c' with
               | Some t =>
                   match sp with
                   | VStr sp => inr (allowance t a' sp)
                   | _ => inl ("InvalidAddress", "not an address")
                   end
               | None => inl ("BadFunctionCallOutput", "Could not call contract function")
               end = inr al ->
               (al <? amount) = true -> False).
  { intros k a' c' Hk Ha Hc al Hread Hlt.
    unfold approval_target in Htarget. rewrite Hk, Ha, Hc in Htarget.
    destruct sp; try discriminate. inversion Htarget; subst.
    unfold allowance_of in Hal.
    destruct (erc20 (st w) c); [| discriminate].
    inversion Hread; subst. apply Z.ltb_lt in Hlt. lia. }
  split.
  - rewrite handle_token_approval_stages in *.
    rewrite ?logged_trace in *. unfold call_allowance, contract_call in *.
    walk; returned; cbn [env st chain_of tick erc20] in *;
      try (exfalso; eapply Hno; solve [eauto]);
      cbn [app]; repeat constructor.
  - rewrite handle_token_approval_stages.
    eapply same_chain_trans; [| apply logged_same_chain].
    unfold call_allowance, contract_call in *.
    walk; returned; cbn [env st chain_of tick erc20] in *;
      try (exfalso; eapply Hno; solve [eauto]);
      repeat split.
Qed.

End Approval2.
(** ** The environment is never changed *)

Section KeepsEnv.
Context {F : PyFloat} {P : Platform}.

Definition keeps_env {A} (m : M A) : Prop := forall w, env (post (m w)) = env w.

Lemma keeps_env_ret {A} (a : A) : keeps_env (ret a).
Proof. intros w. reflexivity. Qed.

Lemma keeps_env_raise {A} (e : exn) : keeps_env (@raise World entry A e).
Proof. intros w. reflexivity. Qed.

Lemma keeps_env_lift {A} (r : result A) : keeps_env (lift r).
Proof. destruct r; intros w; reflexivity. Qed.

Lemma keeps_env_lift_lib {A} (r : lib A) : keeps_env (lift_lib r).
Proof. destruct r; intros w; reflexivity. Qed.

Lemma keeps_env_logger level msg : keeps_env (logger level msg).
Proof. intros w. reflexivity. Qed.

Lemma keeps_env_getenv name : keeps_env (getenv name).
Proof. intros w. reflexivity. Qed.

Lemma keeps_env_time : keeps_env time_time.
Proof. intros w. reflexivity. Qed.

Lemma keeps_env_hex h : keeps_env (hex h).
Proof. intros w. reflexivity. Qed.

Lemma keeps_env_middleware k : keeps_env (add_signing_middleware k).
Proof. intros w. reflexivity. Qed.

Lemma keeps_env_ext {A} (c : call) (show : A -> reply) sem : keeps_env (ext c show sem).
Proof.
  intros w. unfold ext. destruct (faults (env w) (ncalls (st w))); [reflexivity |].
  destruct (fst (sem (env w) (tick (st w)))); reflexivity.
Qed.

Lemma keeps_env_ask {A} (c : call) (show : A -> reply) sem : keeps_env (ask c show sem).
Proof. apply keeps_env_ext. Qed.

Lemma keeps_env_bind {A B} (m : M A) (f : A -> M B) :
  keeps_env m -> (forall a, keeps_env (f a)) -> keeps_env (bind m f).
Proof.
  intros Hm Hf w.
  destruct (bind_cases m f w) as [(e & _ & _ & _ & Hp) | (a & _ & _ & _ & Hp)];
    rewrite Hp.
  - apply Hm.
  - rewrite Hf. apply Hm.
Qed.

Lemma keeps_env_try {A} (m : M A) (h : exn -> M A) :
  keeps_env m -> (forall e, keeps_env (h e)) -> keeps_env (try_except m h).
Proof.
  intros Hm Hh w. unfold try_except.
  destruct (res (m w)) as [a | e]; [apply Hm |].
  destruct (is_Exception e); [| apply Hm].
  cbn [post]. rewrite Hh. apply Hm.
Qed.

End KeepsEnv.

Ltac keeps_env_step :=
  first
    [ apply keeps_env_ret | apply keeps_env_raise | apply keeps_env_lift
    | apply keeps_env_lift_lib | apply keeps_env_logger | apply keeps_env_getenv
    | apply keeps_env_time | apply keeps_env_hex | apply keeps_env_middleware
    | apply keeps_env_ask | apply keeps_env_ext
    | apply keeps_env_bind; [| intros ?]
    | apply keeps_env_try; [| intros ?]
    | match goal with
      | |- keeps_env (if ?b then _ else _) => destruct b
      | |- keeps_env (match ?x with _ => _ end) => destruct x
      | |- keeps_env (let (_, _) := ?x in _) => destruct x
      end ].

Ltac keeps_env_auto :=
  unfold swap, _handle_token_approval, _get_encoded_swap_data, _get_swap_route,
    get_balance, web3_or_raise, _get_web3, load_account, logged, when, check_receipt,
    call_allowance, call_balanceOf, call_decimals, contract_call,
    requests_get, requests_post, raise_for_status, response_json,
    eth_get_balance, eth_get_transaction_count, eth_gas_price, eth_chain_id,
    build_transaction, estimate_gas, sign_transaction, send_raw_transaction,
    wait_for_transaction_receipt;
  repeat keeps_env_step.

Section Idempotence.
Context {F : PyFloat} {P : Platform}.

Lemma keeps_env_approval self token sp amount :
  keeps_env (_handle_token_approval self token sp amount).
Proof. keeps_env_auto. Qed.

Lemma keeps_env_swap self ti to amount slippage :
  keeps_env (swap self ti to amount slippage).
Proof. keeps_env_auto. Qed.

Definition is_contract_call (c : call) : bool :=
  match c with ContractCall _ _ => true | _ => false end.

Lemma approve_now_reads_no_contract self k a c sp amount :
  emits (fun e => is_contract_call (fst e) = false) (approve_now self k a c sp amount).
Proof. unfold approve_now. emits_auto. Qed.

Lemma no_transaction_no_submission (t : list entry) :
  Forall no_transaction t -> submissions t = 0%nat.
Proof.
  induction 1 as [| x t Hx _ IH]; [reflexivity |].
  rewrite submissions_cons, IH. unfold no_transaction in Hx.
  destruct x as [c r]. destruct c; cbn in *; congruence.
Qed.

(** C4. [_handle_token_approval] (the spec's [ensure_allowance]) is
    idempotent in the transactions it issues.  When the allowance call
    answers with an amount that is at least the required one, the function
    returns normally, no transaction is built, signed or submitted, and
    the chain (contracts, nonces, submitted transactions) is left as it
    was.  And two calls in succession with the same required amount submit
    at most one transaction. *)
Theorem ensure_allowance_idempotent
    (self : SonicConnection) (token : string) (spender : value) (amount : Z)
    (w : World) :
  (forall c owner sp al,
      In (ContractCall c (Allowance owner sp), inr (RInt al))
         (trace (_handle_token_approval self token spender amount w)) ->
      amount <= al ->
      res (_handle_token_approval self token spender amount w) = Return tt /\
      Forall no_transaction (trace (_handle_token_approval self token spender amount w)) /\
      same_chain w (post (_handle_token_approval self token spender amount w))) /\
  (submissions
     (trace ((_handle_token_approval self token spender amount ;;
              _handle_token_approval self token spender amount) w)) <= 1)%nat.
Proof.
  split.
  - intros c owner sp al Hin Hal.
    assert (Hnot : forall k a' c' w',
               In (ContractCall c (Allowance owner sp), inr (RInt al))
                  (trace (approve_now self k a' c' spender amount w')) -> False).
    { intros k a' c' w' H.
      apply (emits_In _ _ _ _ (approve_now_reads_no_contract self k a' c' spender amount)) in H.
      discriminate. }
    rewrite <- (and_assoc). split.
    + rewrite handle_token_approval_stages in *.
      rewrite ?logged_res, ?logged_trace in *.
      unfold call_allowance, contract_call in *.
      walk; returned; cbn [env st chain_of tick erc20] in *;
        entries Hin; try discriminate;
        try (exfalso; eapply Hnot; eassumption);
        try (inversion Hin; subst;
             match goal with H : (_ <? _) = true |- _ => apply Z.ltb_lt in H; lia end).
      all: split; [reflexivity | cbn [app]; repeat constructor].
    + rewrite handle_token_approval_stages in *.
      eapply same_chain_trans; [| apply logged_same_chain].
      rewrite ?logged_trace in *.
      unfold call_allowance, contract_call in *.
      walk; returned; cbn [env st chain_of tick erc20] in *;
        entries Hin; try discriminate;
        try (exfalso; eapply Hnot; eassumption);
        try (inversion Hin; subst;
             match goal with H : (_ <? _) = true |- _ => apply Z.ltb_lt in H; lia end).
      all: repeat split.
  - match goal with |- context [bind ?m ?f ?w] => split_bind m f w end.
    + apply approval_submits_once.
    + destruct a.
      apply approval_establishes in Hm. destruct Hm as (c & a & s & Htarget & Hal).
      rewrite <- (keeps_env_approval self token spender amount w) in Htarget.
      destruct (approval_noop self token spender amount _ c a s Htarget Hal) as [Hno _].
      rewrite submissions_app, (no_transaction_no_submission _ Hno).
      pose proof (approval_submits_once self token spender amount w). lia.
Qed.

End Idempotence.
(** ** The last stage of [swap]: build, estimate, sign, submit, confirm *)

Section Submit.
Context {F : PyFloat} {P : Platform}.

(** [gas_or_default] never raises: the estimate, or the default when the
    estimation raised. *)
Lemma gas_or_default_run (tx : Tx) (w : World) :
  (exists g, res (gas_or_default tx w) = Return (set_gas g tx) /\
             trace (gas_or_default tx w) = [(EstimateGas tx, inr (RInt g))] /\
             st (post (gas_or_default tx w)) = tick (st w)) \/
  (exists err l, res (gas_or_default tx w) = Return (set_gas DEFAULT_GAS_LIMIT tx) /\
               trace (gas_or_default tx w) = [(EstimateGas tx, inl err)] /\
               st (post (gas_or_default tx w)) = add_log "WARNING" l (tick (st w))).
Proof.
  unfold gas_or_default, try_except, estimate_gas, bind, ask, ext, logger.
  destruct (faults (env w) (ncalls (st w))) as [err |]; cbn.
  - right. exists err. eexists. repeat split.
  - destruct (gas_for (env w) tx) as [g |]; cbn.
    + left. exists g. repeat split.
    + right. eexists. eexists. repeat split.
Qed.

Lemma gas_or_default_env (tx : Tx) (w : World) :
  env (post (gas_or_default tx w)) = env w.
Proof.
  assert (H : keeps_env (gas_or_default tx)).
  { unfold gas_or_default, estimate_gas. repeat keeps_env_step. }
  apply H.
Qed.

(** The amount of native currency a swap of [token_in] carries. *)
Definition carried_value (token_in : string) (amount : float) (v : Z) : Prop :=
  if is_native token_in then to_wei_ether amount = inr v else v = 0.

(** A transaction [swap] builds for the router. *)
Definition swap_tx (token_in : string) (amount : float) (tx : Tx) : Prop :=
  (exists d, tx_data tx = Some (RawData d)) /\
  (exists v, tx_value tx = Some v /\ carried_value token_in amount v).

Definition submit_entry (token_in : string) (amount : float) (c : call) : Prop :=
  match c with
  | EthGetTransactionCount _ | EthGasPrice | EthChainId => True
  | EstimateGas tx | SignTransaction _ tx => swap_tx token_in amount tx
  | SendRawTransaction stx | WaitForTransactionReceipt stx =>
      swap_tx token_in amount (stx_tx stx)
  | _ => False
  end.

Lemma swap_tx_set_gas token_in amount g tx :
  swap_tx token_in amount tx -> swap_tx token_in amount (set_gas g tx).
Proof. intros H. exact H. Qed.

End Submit.

(** Walks [submit_swap]: the gas step is resolved by [gas_or_default_run]. *)
Ltac resolve_gas :=
  match goal with
  | H : res (gas_or_default ?tx ?w) = _ |- _ =>
      let g := fresh "g" in let err := fresh "err" in let l := fresh "l" in
      let Hr := fresh "Hr" in let Ht := fresh "Ht" in let Hp := fresh "Hp" in
      let He := fresh "He" in
      pose proof (gas_or_default_env tx w) as He;
      destruct (gas_or_default_run tx w) as [(g & Hr & Ht & Hp) | (err & l & Hr & Ht & Hp)];
      rewrite Hr in H; inversion H; clear H; subst;
      rewrite ?Ht in *;
      destruct (post (gas_or_default tx w)) as [e' s'];
      cbn [env st] in *; subst; clear Hr Ht
  end.

Ltac walk_submit :=
  unfold submit_swap, eth_get_transaction_count, eth_gas_price, eth_chain_id,
    sign_transaction, send_raw_transaction, wait_for_transaction_receipt,
    check_receipt in *;
  repeat first [next_bind; resolve; try resolve_gas | next_if; resolve];
  returned.

Section Submit2.
Context {F : PyFloat} {P : Platform}.

Lemma submit_entries self k a ti amount router enc w x :
  In x (trace (submit_swap self k a ti amount router enc w)) ->
  submit_entry ti amount (fst x).
Proof.
  intros Hin. walk_submit; entries Hin; cbn [submit_entry]; auto;
    unfold swap_tx, carried_value; cbn [tx_data tx_value set_gas stx_tx];
    (split; [eexists; reflexivity | eexists; split; [reflexivity |]]);
    match goal with H : is_native _ = _ |- _ => rewrite H end; auto.
Qed.



End Submit2.
(** ** Where an entry of the trace of [swap] comes from *)

(** [split_bind], with the names of the value and of the equation chosen. *)
Ltac split_bind_as m f w a Hm :=
  let e := fresh "e" in
  let Hr := fresh "Hr" in
  let Ht := fresh "Ht" in
  let Hp := fresh "Hp" in
  destruct (bind_cases m f w) as [(e & Hm & Hr & Ht & Hp) | (a & Hm & Hr & Ht & Hp)];
  rewrite ?Hr, ?Ht, ?Hp in *; clear Hr Ht Hp; cbv beta in *.

Section SwapEntries.
Context {F : PyFloat} {P : Platform}.

(** The calls of the stages before the approval: connection checks,
    balance and decimals reads, the two requests to the aggregator. *)
Definition prefix_call (c : call) : Prop :=
  match c with
  | IsConnected | EthGetBalance _ | ContractCall _ Decimals
  | ContractCall _ (BalanceOf _) | HttpGet _ _ _ | HttpPost _ _ _ => True
  | _ => False
  end.

Definition prefix_entry (e : entry) : Prop := prefix_call (fst e).

Lemma prefix_web3_or_raise self : emits prefix_entry (web3_or_raise self).
Proof. unfold web3_or_raise, _get_web3, when. repeat emits_step; exact I. Qed.

Lemma prefix_get_balance self a t : emits prefix_entry (get_balance self a t).
Proof.
  unfold get_balance, logged, call_balanceOf, call_decimals, contract_call,
    eth_get_balance, web3_or_raise, _get_web3, when, load_account.
  repeat emits_step; exact I.
Qed.

Lemma prefix_get_swap_route self ti to amount :
  emits prefix_entry (_get_swap_route self ti to amount).
Proof.
  unfold _get_swap_route, logged, call_decimals, contract_call, requests_get,
    raise_for_status, response_json, web3_or_raise, _get_web3, when.
  repeat emits_step; exact I.
Qed.

Lemma prefix_get_encoded_swap_data self rs sl :
  emits prefix_entry (_get_encoded_swap_data self rs sl).
Proof.
  unfold _get_encoded_swap_data, logged, requests_post, raise_for_status,
    response_json, web3_or_raise, _get_web3, when, load_account.
  repeat emits_step; exact I.
Qed.

Lemma prefix_approval_amount ti amount : emits prefix_entry (approval_amount ti amount).
Proof.
  unfold approval_amount, call_decimals, contract_call. repeat emits_step; exact I.
Qed.

Lemma stable_approval_amount ti amount : stable (approval_amount ti amount).
Proof. unfold approval_amount, call_decimals, contract_call. repeat stable_step. Qed.

(** The amount the approval is asked for: by the decimals the token's
    contract reports, except for the address [S_TOKEN], whose amount is
    converted by [to_wei(amount, 'ether')] without a look at the contract. *)
Definition approval_required (w : World) (token : string) (amount : float)
    (required : Z) : Prop :=
  if String.eqb (lower token) (lower S_TOKEN) then to_wei_ether amount = inr required
  else exists c t,
      to_checksum_address token = inr c /\
      erc20 (st w) c = Some t /\
      int_of_float (fmul amount (float_of_int (10 ^ Z.of_N (decimals t)))) = inr required.

Lemma approval_amount_run token amount w required :
  res (approval_amount token amount w) = Return required ->
  approval_required w token amount required.
Proof.
  unfold approval_amount, approval_required.
  destruct (String.eqb (lower token) (lower S_TOKEN)).
  - intros H. apply lift_lib_run in H. exact H.
  - apply scaled_amount_run.
Qed.

(** The aggregator's reply to the route request gave [router] as the
    router address. *)
Definition route_gave (t : list entry) (router : value) : Prop :=
  exists url hd ps resp data rd,
    In (HttpGet url hd ps, inr (RResponse resp)) t /\
    body resp = Some data /\
    dict_get data "data" VNone = Return rd /\
    dict_get rd "routerAddress" VNone = Return router.

Lemma route_reply_Return (resp : HttpResponse) (w : World) (rd : value) :
  res ((raise_for_status resp ;;
        data0 <- response_json resp ;;
        code0 <- lift (dict_get data0 "code" VNone) ;;
        (if ne_int code0 0
         then
           message <- lift (dict_get data0 "message" VNone) ;;
           raise (SonicConnectionError ("API error: " ++ str_value message)%string)
         else
           result <- lift (dict_get data0 "data" VNone) ;;
           (if negb (is_dict result)
            then raise (SonicConnectionError "Invalid route data returned from API")
            else ret result))) w) = Return rd ->
  exists data, body resp = Some data /\ dict_get data "data" VNone = Return rd /\
               is_dict rd = true.
Proof.
  unfold raise_for_status, response_json, bind, lift.
  destruct ((400 <=? status_code resp) && (status_code resp <? 600))%bool; cbn;
    [discriminate |].
  destruct (body resp) as [data |]; cbn; [| discriminate].
  destruct (dict_get data "code" VNone) as [code | e]; cbn; [| discriminate].
  destruct (ne_int code 0); cbn.
  - destruct (dict_get data "message" VNone); cbn; discriminate.
  - destruct (dict_get data "data" VNone) as [r | e] eqn:Hr; cbn; [| discriminate].
    destruct (is_dict r) eqn:Hd; cbn; [| discriminate].
    intros H. inversion H. subst. exists data. auto.
Qed.

Lemma get_swap_route_Return self ti to amount w rd :
  res (_get_swap_route self ti to amount w) = Return rd ->
  is_dict rd = true /\
  exists url hd ps resp data,
    In (HttpGet url hd ps, inr (RResponse resp))
       (trace (_get_swap_route self ti to amount w)) /\
    body resp = Some data /\
    dict_get data "data" VNone = Return rd.
Proof.
  intros Hres. unfold _get_swap_route in *.
  rewrite logged_res in Hres. rewrite logged_trace.
  unfold requests_get in *.
  next_bind; [discriminate |].
  next_bind; [discriminate |].
  next_bind; [discriminate |].
  apply route_reply_Return in Hres. destruct Hres as (data & Hbody & Hdata & Hdict).
  split; [exact Hdict |].
  apply ask_Return in Hm1. destruct Hm1 as (_ & _ & Ht & _).
  exists (aggregator_api self ++ "/routes")%string. do 2 eexists. exists a1, data.
  split; [| split; assumption].
  apply in_or_app. right. apply in_or_app. right. apply in_or_app. left.
  rewrite Ht. left. reflexivity.
Qed.

(** An entry of the trace of [swap] is a call of the stages before the
    approval, or an entry of the approval (for a token that is not the
    native one, asked for the router the aggregator gave and the amount
    [approval_required] describes), or an entry of the last stage. *)
Lemma swap_entry_cases self ti to amount slippage w x :
  In x (trace (swap self ti to amount slippage w)) ->
  prefix_entry x
  \/ (is_native ti = false /\
      exists w1 router required,
        route_gave (trace (swap self ti to amount slippage w)) router /\
        approval_required w ti amount required /\
        In x (trace (_handle_token_approval self ti router required w1)) /\
        incl (trace (_handle_token_approval self ti router required w1))
             (trace (swap self ti to amount slippage w)) /\
        (forall e, res (_handle_token_approval self ti router required w1) = Raise e ->
                   res (swap self ti to amount slippage w) = Raise e))
  \/ (exists w2 k a router enc,
        In x (trace (submit_swap self k a ti amount router enc w2)) /\
        incl (trace (submit_swap self k a ti amount router enc w2))
             (trace (swap self ti to amount slippage w)) /\
        res (swap self ti to amount slippage w)
        = res (submit_swap self k a ti amount router enc w2)).
Proof.
  intros Hin. rewrite swap_stages in *.
  rewrite ?logged_trace, ?logged_res in *.
  pose proof (same_chain_refl w) as Hc.
  (* web3_or_raise *)
  match goal with
  | _ : In _ (trace (bind ?m ?f ?w0)) |- _ =>
      pose proof (same_chain_trans _ _ _ Hc (stable_web3_or_raise self w0)) as Hc1;
      pose proof (prefix_web3_or_raise self w0) as E;
      split_bind_as m f w0 u Hweb
  end.
  { left. eapply Forall_forall; eassumption. }
  apply in_app_or in Hin. destruct Hin as [Hin | Hin].
  { left. eapply Forall_forall; eassumption. }
  clear E Hc.
  (* load_account *)
  match goal with
  | _ : In _ (trace (bind ?m ?f ?w0)) |- _ =>
      destruct (load_account_run w0) as (Hp0 & Ht0);
      split_bind_as m f w0 acc Hacc
  end.
  { rewrite Ht0 in Hin. destruct Hin. }
  rewrite Ht0, ?Hp0 in *. cbn [app] in *. destruct acc as [private_key address].
  clear Ht0 Hp0.
  (* get_balance *)
  match goal with
  | _ : In _ (trace (bind (get_balance ?s ?ad ?tk) ?f ?w0)) |- _ =>
      pose proof (same_chain_trans _ _ _ Hc1 (stable_get_balance s ad tk w0)) as Hc2;
      pose proof (prefix_get_balance s ad tk w0) as E;
      split_bind_as (get_balance s ad tk) f w0 balance Hbal
  end.
  { left. eapply Forall_forall; eassumption. }
  apply in_app_or in Hin. destruct Hin as [Hin | Hin].
  { left. eapply Forall_forall; eassumption. }
  clear E Hc1.
  destruct (flt balance amount).
  { destruct Hin. }
  (* _get_swap_route *)
  match goal with
  | _ : In _ (trace (bind (_get_swap_route ?s ?a1 ?a2 ?a3) ?f ?w0)) |- _ =>
      pose proof (same_chain_trans _ _ _ Hc2 (stable_get_swap_route s a1 a2 a3 w0)) as Hc3;
      pose proof (prefix_get_swap_route s a1 a2 a3 w0) as E;
      split_bind_as (_get_swap_route s a1 a2 a3) f w0 rd Hroute
  end.
  { left. eapply Forall_forall; eassumption. }
  apply get_swap_route_Return in Hroute.
  destruct Hroute as (Hdict & url & hd & ps & resp & data & Hget & Hbody & Hdata).
  apply in_app_or in Hin. destruct Hin as [Hin | Hin].
  { left. eapply Forall_forall; eassumption. }
  clear E Hc2.
  (* route_data["routeSummary"] *)
  match goal with
  | _ : In _ (trace (bind ?m ?f ?w0)) |- _ =>
      destruct (lift_run (subscript rd "routeSummary") w0) as (Hp0 & Ht0 & _);
      split_bind_as m f w0 summary Hsum
  end.
  { rewrite Ht0 in Hin. destruct Hin. }
  rewrite Ht0, ?Hp0 in *. cbn [app] in *. clear Ht0 Hp0.
  (* _get_encoded_swap_data *)
  match goal with
  | _ : In _ (trace (bind (_get_encoded_swap_data ?s ?a1 ?a2) ?f ?w0)) |- _ =>
      pose proof (same_chain_trans _ _ _ Hc3 (stable_get_encoded_swap_data s a1 a2 w0)) as Hc4;
      pose proof (prefix_get_encoded_swap_data s a1 a2 w0) as E;
      split_bind_as (_get_encoded_swap_data s a1 a2) f w0 enc Henc
  end.
  { left. eapply Forall_forall; eassumption. }
  apply in_app_or in Hin. destruct Hin as [Hin | Hin].
  { left. eapply Forall_forall; eassumption. }
  clear E Hc3.
  (* route_data.get("routerAddress") *)
  match goal with
  | _ : In _ (trace (bind ?m ?f ?w0)) |- _ =>
      destruct (lift_run (dict_get rd "routerAddress" VNone) w0) as (Hp0 & Ht0 & Hr0);
      split_bind_as m f w0 router Hrouter
  end.
  { rewrite Ht0 in Hin. destruct Hin. }
  rewrite Ht0, ?Hp0 in *. cbn [app] in *. rewrite Hr0 in Hrouter. clear Ht0 Hp0 Hr0.
  destruct (negb (truthy router)).
  { destruct Hin. }
  assert (Hgave : forall rest,
             route_gave (trace (web3_or_raise self w) ++
                         trace (get_balance self (Some address)
                                  (if is_native ti then None else Some ti)
                                  (post (web3_or_raise self w))) ++
                         trace (_get_swap_route self ti to amount
                                  (post (get_balance self (Some address)
                                           (if is_native ti then None else Some ti)
                                           (post (web3_or_raise self w))))) ++ rest)
                        router).
  { intros rest. exists url, hd, ps, resp, data, rd.
    repeat split; try assumption.
    apply in_or_app. right. apply in_or_app. right. apply in_or_app. left. exact Hget. }
  clear Hget Hbody Hdata Hdict Hsum Hrouter Hbal Hacc Hweb.
  revert Hgave Hin Hc4.
  generalize (trace (web3_or_raise self w)) as t1.
  generalize (trace (get_balance self (Some address)
                       (if is_native ti then None else Some ti)
                       (post (web3_or_raise self w)))) as t2.
  generalize (trace (_get_swap_route self ti to amount
                       (post (get_balance self (Some address)
                                (if is_native ti then None else Some ti)
                                (post (web3_or_raise self w)))))) as t3.
  generalize (trace (_get_encoded_swap_data self summary
                       (Some (or_else slippage float_0_5))
                       (post (_get_swap_route self ti to amount
                                (post (get_balance self (Some address)
                                         (if is_native ti then None else Some ti)
                                         (post (web3_or_raise self w)))))))) as t4.
  generalize (post (_get_encoded_swap_data self summary
                      (Some (or_else slippage float_0_5))
                      (post (_get_swap_route self ti to amount
                               (post (get_balance self (Some address)
                                        (if is_native ti then None else Some ti)
                                        (post (web3_or_raise self w)))))))) as w4.
  intros w4 t4 t3 t2 t1 Hgave Hin Hc4.
  assert (Hincl : forall l rest, incl l rest -> incl l (t1 ++ t2 ++ t3 ++ t4 ++ rest)).
  { intros l rest H. do 4 apply incl_appr. exact H. }
  destruct (is_native ti) eqn:Hnat; cbn [negb] in *.
  - (* the native token: no approval *)
    right. right.
    match goal with
    | _ : In _ (trace (bind ?m ?f ?w0)) |- _ => split_bind_as m f w0 done Hdone
    end.
    { discriminate. }
    cbn [ret trace post app] in *.
    exists w4, private_key, address, router, enc.
    split; [exact Hin |]. split; [| reflexivity].
    apply Hincl. apply incl_refl.
  - (* a token: the amount is worked out, then the approval *)
    match goal with
    | _ : In _ (trace (bind ?m ?f ?w0)) |- _ => split_bind_as m f w0 done Hdone
    end.
    + match goal with
      | _ : In _ (trace (bind (approval_amount ?a1 ?a2) ?f ?w0)) |- _ =>
          pose proof (same_chain_trans _ _ _ Hc4 (stable_approval_amount a1 a2 w0)) as Hc5;
          pose proof (prefix_approval_amount a1 a2 w0) as E;
          pose proof (approval_amount_run a1 a2 w0) as Hreq;
          split_bind_as (approval_amount a1 a2) f w0 required Hamount
      end.
      { left. eapply Forall_forall; eassumption. }
      apply in_app_or in Hin. destruct Hin as [Hin | Hin].
      { left. eapply Forall_forall; eassumption. }
      right. left. split; [reflexivity |].
      exists (post (approval_amount ti amount w4)), router, required.
      split; [apply Hgave |]. split.
      { specialize (Hreq _ Hamount). unfold approval_required in *.
        destruct (String.eqb (lower ti) (lower S_TOKEN)); [exact Hreq |].
        destruct Hreq as (c & t & H1 & H2 & H3). exists c, t.
        destruct Hc4 as (_ & Herc & _). rewrite <- Herc. auto. }
      split; [exact Hin |]. split.
      { apply Hincl. apply incl_appr. apply incl_refl. }
      intros e' He'. congruence.
    + apply in_app_or in Hin. destruct Hin as [Hin | Hin].
      * match goal with
        | _ : In _ (trace (bind (approval_amount ?a1 ?a2) ?f ?w0)) |- _ =>
            pose proof (same_chain_trans _ _ _ Hc4 (stable_approval_amount a1 a2 w0)) as Hc5;
            pose proof (prefix_approval_amount a1 a2 w0) as E;
            pose proof (approval_amount_run a1 a2 w0) as Hreq;
            split_bind_as (approval_amount a1 a2) f w0 required Hamount
        end.
        { discriminate. }
        apply in_app_or in Hin. destruct Hin as [Hin | Hin].
        { left. eapply Forall_forall; eassumption. }
        right. left. split; [reflexivity |].
        exists (post (approval_amount ti amount w4)), router, required.
        split; [apply Hgave |]. split.
        { specialize (Hreq _ Hamount). unfold approval_required in *.
          destruct (String.eqb (lower ti) (lower S_TOKEN)); [exact Hreq |].
          destruct Hreq as (c & t & H1 & H2 & H3). exists c, t.
          destruct Hc4 as (_ & Herc & _). rewrite <- Herc. auto. }
        split; [exact Hin |]. split.
        { apply Hincl. apply incl_appl. apply incl_appr. apply incl_refl. }
        intros e' He'. congruence.
      * right. right.
        eexists _, private_key, address, router, enc.
        split; [exact Hin |]. split; [| reflexivity].
        apply Hincl. apply incl_appr. apply incl_refl.
Qed.

End SwapEntries.
(** ** The route request and its failure *)

Section RouteClaim.
Context {F : PyFloat} {P : Platform}.

(** C9. [_get_swap_route] asks the aggregator with one request, a GET of
    [/routes] whose [amountIn] is the amount in raw units: by the decimals
    the token's contract reports, by [to_wei(amount, 'ether')] (18
    decimals) for the native token.  When the reply to it carries a code
    other than 0, [_get_swap_route] raises, and so does [swap], whose
    trace then holds no transaction: no approval is built, signed or sent
    and no swap is submitted. *)
Theorem get_route_raw_amount_and_failure (self : SonicConnection)
    (token_in token_out : string) (amount : float) (slippage : option float)
    (w : World) :
  (forall x,
      In x (trace (_get_swap_route self token_in token_out amount w)) ->
      is_aggregator_call (fst x) = true ->
      exists raw,
        fst x = HttpGet (aggregator_api self ++ "/routes")%string
                        [("x-client-id", "ZerePyBot")]
                        (route_params token_in token_out raw) /\
        raw_amount w token_in amount raw /\
        forall resp data code,
          snd x = inr (RResponse resp) ->
          body resp = Some data ->
          dict_get data "code" VNone = Return code ->
          ne_int code 0 = true ->
          exists e, res (_get_swap_route self token_in token_out amount w) = Raise e /\
                    (e = OtherException "HTTPError" (str_int (status_code resp)) \/
                     exists m, e = SonicConnectionError ("API error: " ++ m)%string)) /\
  (forall x resp data code,
      In x (trace (swap self token_in token_out amount slippage w)) ->
      is_route_request (fst x) = true ->
      snd x = inr (RResponse resp) ->
      body resp = Some data ->
      dict_get data "code" VNone = Return code ->
      ne_int code 0 = true ->
      (exists e, res (swap self token_in token_out amount slippage w) = Raise e /\
                 (e = OtherException "HTTPError" (str_int (status_code resp)) \/
                  exists m, e = SonicConnectionError ("API error: " ++ m)%string)) /\
      Forall no_transaction (trace (swap self token_in token_out amount slippage w))).
Proof.
  split.
  - intros x. apply get_swap_route_request.
  - intros x resp data code. apply swap_route_failure.
Qed.

End RouteClaim.

(** Membership in the trace of a concrete run, by the position of the entry. *)
Ltac in_at n := apply (nth_error_In _ n); vm_compute; reflexivity.
Ltac in_trace :=
  first [ in_at 0%nat | in_at 1%nat | in_at 2%nat | in_at 3%nat | in_at 4%nat
        | in_at 5%nat | in_at 6%nat | in_at 7%nat | in_at 8%nat | in_at 9%nat
        | in_at 10%nat | in_at 11%nat | in_at 12%nat | in_at 13%nat | in_at 14%nat
        | in_at 15%nat | in_at 16%nat | in_at 17%nat | in_at 18%nat | in_at 19%nat ].

(** The aggregator answers the route request with code 4: the swap of one
    USDC (1000000 raw units, by the six decimals of the token) raises
    "API error: route not found" and no transaction is made. *)
Lemma get_route_raw_amount_and_failure_witness :
  let w := mkWorld (Example.environment true 1 4 Example.good_build "y")
                   (Example.state 5000000 0) in
  let o := swap Example.sonic Example.usdc Example.weth (1 # 1) None w in
  In (HttpGet "https://aggregator-api.kyberswap.com/sonic/api/v1/routes"
              [("x-client-id", "ZerePyBot")]
              (route_params Example.usdc Example.weth 1000000),
      inr (RResponse (Example.route_reply 4))) (trace o) /\
  res o = Raise (SonicConnectionError "API error: route not found") /\
  Forall no_transaction (trace o).
Proof.
  intros w o.
  assert (Hin : In (HttpGet "https://aggregator-api.kyberswap.com/sonic/api/v1/routes"
                            [("x-client-id", "ZerePyBot")]
                            (route_params Example.usdc Example.weth 1000000),
                    inr (RResponse (Example.route_reply 4))) (trace o))
    by (in_trace).
  split; [exact Hin |].
  split; [vm_compute; reflexivity |].
  pose proof (@get_route_raw_amount_and_failure RationalFloat ExamplePlatform
                Example.sonic Example.usdc Example.weth (1 # 1) None w) as [_ H].
  eapply (H _ (Example.route_reply 4) _ (VInt 4) Hin); reflexivity.
Defined.

(** ** The gas limit of the swap transaction *)

Section GasClaim.
Context {F : PyFloat} {P : Platform}.

Lemma approval_entry_estimate sp amount tx : approval_entry sp amount (EstimateGas tx) -> False.
Proof. intros H. exact H. Qed.


End GasClaim.

(** ** The transaction [swap] submits *)

Section SwapTransaction.
Context {F : PyFloat} {P : Platform}.

(** The transaction a call estimates, signs, sends or waits for. *)
Definition transaction_of (c : call) : option Tx :=
  match c with
  | EstimateGas tx | SignTransaction _ tx => Some tx
  | SendRawTransaction stx | WaitForTransactionReceipt stx => Some (stx_tx stx)
  | _ => None
  end.

(** The call data is the bytes the aggregator encoded. *)
Definition is_swap_transaction (tx : Tx) : bool :=
  match tx_data tx with Some (RawData _) => true | _ => false end.

(** The call data is an ERC20 [approve]. *)
Definition is_approve_transaction (tx : Tx) : bool :=
  match tx_data tx with Some (ApproveData _ _) => true | _ => false end.

(** The calls of [_handle_token_approval] that are about the allowance:
    its read, the [approve] built, and what is done with that transaction. *)
Definition is_approval_call (c : call) : bool :=
  match c with
  | ContractCall _ (Allowance _ _) => true
  | BuildTransaction _ (Approve _ _) _ => true
  | _ => match transaction_of c with
         | Some tx => is_approve_transaction tx
         | None => false
         end
  end.

Lemma prefix_entry_plain (x : entry) :
  prefix_entry x -> is_approval_call (fst x) = false /\ transaction_of (fst x) = None.
Proof.
  destruct x as [c r]. unfold prefix_entry. cbn [fst].
  destruct c; cbn; try contradiction; try (split; reflexivity).
  destruct v; try contradiction; split; reflexivity.
Qed.

Lemma submit_entry_transaction token_in amount (c : call) :
  submit_entry token_in amount c ->
  is_approval_call c = false /\
  forall tx, transaction_of c = Some tx ->
             is_swap_transaction tx = true /\
             exists v, tx_value tx = Some v /\ carried_value token_in amount v.
Proof.
  destruct c; cbn [submit_entry]; try contradiction;
    try (intros _; split; [reflexivity | intros tx0 H; discriminate]).
  all: intros ((d & Hd) & v & Hv & Hc);
    unfold is_approval_call, is_approve_transaction, is_swap_transaction;
    cbn [transaction_of]; rewrite ?Hd;
    (split; [reflexivity |]); intros tx0 H; inversion H; subst;
    rewrite Hd; split; [reflexivity | exists v; auto].
Qed.



End SwapTransaction.


(** ** The approval [swap] asks for *)

Section ApprovalClaim.
Context {F : PyFloat} {P : Platform}.

Lemma submit_entry_no_approval token_in amount (c : call) :
  submit_entry token_in amount c -> is_approval_call c = false.
Proof. intros H. apply submit_entry_transaction in H. tauto. Qed.

(** C5, amended.  A call of a run of [swap] that is about an allowance
    belongs to one approval, asked for a token that is not the native one,
    for the router address the aggregator's route reply gave and for the
    amount in raw units: by the decimals the token's contract reports,
    except for the address [S_TOKEN], whose amount is
    [to_wei(amount, 'ether')] whatever the contract reports.  The [approve]
    built is for that spender and exactly that amount; once the approval
    transaction is sent its receipt is waited for, and a receipt whose
    status is not 1 makes [swap] raise "Approval transaction failed". *)
Theorem swap_approval_exact (self : SonicConnection)
    (token_in token_out : string) (amount : float) (slippage : option float)
    (w : World) (x : entry) :
  let o := swap self token_in token_out amount slippage w in
  In x (trace o) ->
  is_approval_call (fst x) = true ->
  is_native token_in = false /\
  exists router required,
    route_gave (trace o) router /\
    approval_required w token_in amount required /\
    approval_entry router required (fst x) /\
    (forall stx r, x = (SendRawTransaction stx, inr r) ->
                   exists r', In (WaitForTransactionReceipt stx, r') (trace o)) /\
    (forall stx rc v,
        x = (WaitForTransactionReceipt stx, inr (RValue rc)) ->
        dict_get rc "status" VNone = Return v ->
        ne_int v 1 = true ->
        res o = Raise (SonicConnectionError "Approval transaction failed")).
Proof.
  intros o Hin Hcall. subst o.
  destruct (swap_entry_cases _ _ _ _ _ _ _ Hin)
    as [Hp | [(Hn & w1 & router & required & Hgave & Hreq & Hx & Hincl & Hres) |
              (w2 & k & a & router & enc & Hx & _)]].
  - apply prefix_entry_plain in Hp. destruct Hp as [Hp _]. congruence.
  - split; [exact Hn |]. exists router, required.
    split; [exact Hgave |]. split; [exact Hreq |].
    split; [eapply approval_entries; exact Hx |]. split.
    + intros stx r Hsent. subst x.
      destruct (approval_waits _ _ _ _ _ _ _ Hx) as (r' & Hr').
      exists r'. apply Hincl. exact Hr'.
    + intros stx rc v Hwait Hv Hne. subst x.
      apply Hres. eapply approval_receipt; eassumption.
  - apply submit_entries in Hx. apply submit_entry_no_approval in Hx. congruence.
Qed.

End ApprovalClaim.

(** One USDC is swapped with no allowance yet: the allowance read is for
    the router of the route reply and the amount 1000000, by the six
    decimals of the token. *)
Lemma swap_approval_exact_witness :
  let w := Example.world 5000000 0 in
  let o := swap Example.sonic Example.usdc Example.weth (1 # 1) None w in
  let x := (ContractCall Example.usdc (Allowance Example.me (VStr Example.router)),
            @inr liberr reply (RInt 0)) in
  In x (trace o) /\
  exists router required,
    route_gave (trace o) router /\
    approval_required w Example.usdc (1 # 1) required /\
    approval_entry router required (fst x).
Proof.
  intros w o x.
  assert (Hin : In x (trace o)) by in_at 11%nat.
  split; [exact Hin |].
  destruct (@swap_approval_exact RationalFloat ExamplePlatform
              Example.sonic Example.usdc Example.weth (1 # 1) None w x Hin eq_refl)
    as (_ & router & required & Hgave & Hreq & Hentry & _).
  exists router, required. exact (conj Hgave (conj Hreq Hentry)).
Defined.

(** The token is the one at [S_TOKEN], whose contract reports six
    decimals here: by those decimals one token is 1000000 raw units, yet
    the approval signed is for 10^18. *)
Lemma swap_approval_decimals_counterexample :
  let w := Example.world 5000000 0 in
  let o := swap Example.sonic S_TOKEN Example.weth (1 # 1) None w in
  is_native S_TOKEN = false /\
  raw_amount w S_TOKEN (1 # 1) 1000000 /\
  (let tx := mkTx (Some Example.me) (Some S_TOKEN)
                  (Some (ApproveData Example.router (10 ^ 18)))
                  (Some 7) (Some 1000000000) (Some 146) (Some 0) (Some 210000) in
   In (SignTransaction Example.me tx, inr (RSigned (mkSigned tx Example.me))) (trace o)) /\
  10 ^ 18 <> 1000000.
Proof.
  intros w o. split; [reflexivity |]. split; [| split].
  - unfold raw_amount.
    replace (is_native S_TOKEN) with false by reflexivity.
    exists S_TOKEN, (Example.token "wS" 6 5000000 0).
    repeat split; vm_compute; reflexivity.
  - in_at 15%nat.
  - discriminate.
Qed.
(** ** The build request *)

Section Encode.
Context {F : PyFloat} {P : Platform}.

Definition is_build_request (c : call) : bool :=
  match c with HttpPost _ _ _ => true | _ => false end.

(** The payload of the build request, as [_get_encoded_swap_data] writes it. *)
Definition build_payload (route_summary : value) (address : string)
    (slippageTolerance deadline : Z) : value :=
  VDict [("routeSummary", route_summary);
         ("sender", VStr address);
         ("recipient", VStr address);
         ("slippageTolerance", VInt slippageTolerance);
         ("deadline", VInt deadline);
         ("source", VStr "ZerePyBot")].

(** What follows the reply of the aggregator in [_get_encoded_swap_data]. *)
Definition after_build_reply (resp : HttpResponse) : M string :=
  raise_for_status resp ;;
  data <- response_json resp ;;
  code <- lift (dict_get data "code" VNone) ;;
  if ne_int code 0 then
    message <- lift (dict_get data "message" VNone) ;;
    raise (SonicConnectionError ("API error: " ++ str_value message)%string)
  else
    inner <- lift (dict_get data "data" (VDict [])) ;;
    encoded_data <- lift (dict_get inner "data" VNone) ;;
    match encoded_data with
    | VStr s => ret s
    | _ => raise (SonicConnectionError "Invalid encoded data returned from API")
    end.

Lemma after_build_reply_trace resp w : trace (after_build_reply resp w) = [].
Proof.
  unfold after_build_reply, raise_for_status, response_json, bind, lift.
  destruct ((400 <=? status_code resp) && (status_code resp <? 600))%bool; cbn;
    [reflexivity |].
  destruct (body resp) as [data |]; cbn; [| reflexivity].
  destruct (dict_get data "code" VNone) as [code | e]; cbn; [| reflexivity].
  destruct (ne_int code 0); cbn.
  - destruct (dict_get data "message" VNone); reflexivity.
  - destruct (dict_get data "data" (VDict [])) as [inner | e]; cbn; [| reflexivity].
    destruct (dict_get inner "data" VNone) as [enc | e]; cbn; [| reflexivity].
    destruct enc; reflexivity.
Qed.

Lemma after_build_reply_nonzero resp data code w :
  body resp = Some data ->
  dict_get data "code" VNone = Return code ->
  ne_int code 0 = true ->
  exists e, res (after_build_reply resp w) = Raise e /\
            (e = OtherException "HTTPError" (str_int (status_code resp)) \/
             exists m, e = SonicConnectionError ("API error: " ++ m)%string).
Proof.
  intros Hb Hc Hne. unfold after_build_reply, raise_for_status, response_json, bind.
  destruct ((400 <=? status_code resp) && (status_code resp <? 600))%bool; cbn.
  - eexists; split; [reflexivity | left; reflexivity].
  - rewrite Hb. cbn. rewrite Hc. cbn. rewrite Hne.
    destruct data; try discriminate. cbn.
    eexists; split; [reflexivity | right; eexists; reflexivity].
Qed.


(** The one request [_get_encoded_swap_data] makes to the aggregator. *)
Lemma get_encoded_swap_data_request self route_summary sl w x :
  In x (trace (_get_encoded_swap_data self route_summary sl w)) ->
  is_aggregator_call (fst x) = true ->
  exists address tol deadline,
    fst x = HttpPost (aggregator_api self ++ "/route/build")%string
                     [("x-client-id", "zerepy")]
                     (build_payload route_summary address tol deadline) /\
    int_of_float (fmul (or_else sl float_0_5) (float_of_int 100)) = inr tol /\
    int_of_float (fadd (clock (env w)) (float_of_int 1200)) = inr deadline /\
    forall resp, snd x = inr (RResponse resp) ->
      exists w', res (_get_encoded_swap_data self route_summary sl w)
                 = res (after_build_reply resp w').
Proof.
  intros Hin Hagg. unfold _get_encoded_swap_data in *.
  rewrite logged_trace in Hin. rewrite logged_res.
  pose proof (emits_web3_or_raise reads_only self reads_only_IsConnected) as Eweb.
  pose proof (stable_web3_or_raise self w) as (Henv & _).
  match type of Hin with
  | In _ (trace (bind ?m ?f ?w0)) => split_bind_as m f w0 done Hweb
  end.
  { exfalso. eapply reads_only_not_aggregator; [| exact Hagg].
    eapply emits_In; [exact Eweb | exact Hin]. }
  apply in_app_or in Hin. destruct Hin as [Hin | Hin].
  { exfalso. eapply reads_only_not_aggregator; [| exact Hagg].
    eapply emits_In; [exact Eweb | exact Hin]. }
  match type of Hin with
  | In _ (trace (bind ?m ?f ?w0)) =>
      destruct (load_account_run w0) as (Hp0 & Ht0);
      split_bind_as m f w0 acc Hacc
  end.
  { rewrite Ht0 in Hin. destruct Hin. }
  rewrite Ht0, ?Hp0 in *. cbn [app] in *. destruct acc as [private_key address].
  clear Ht0 Hp0.
  match type of Hin with
  | In _ (trace (bind (lift_lib ?r) ?f ?w0)) =>
      destruct (lift_lib_run r w0) as (Hp0 & Ht0 & Hr0);
      split_bind_as (@lift_lib World entry _ r) f w0 tol Htol
  end.
  { rewrite Ht0 in Hin. destruct Hin. }
  rewrite Ht0, ?Hp0 in *. cbn [app] in *. apply Hr0 in Htol. clear Ht0 Hp0 Hr0.
  match type of Hin with
  | In _ (trace (bind ?m ?f ?w0)) => split_bind_as m f w0 now Hnow
  end.
  { discriminate. }
  cbn [time_time res post trace app] in *. inversion Hnow; subst now. clear Hnow.
  match type of Hin with
  | In _ (trace (bind (lift_lib ?r) ?f ?w0)) =>
      destruct (lift_lib_run r w0) as (Hp0 & Ht0 & Hr0);
      split_bind_as (@lift_lib World entry _ r) f w0 deadline Hdeadline
  end.
  { rewrite Ht0 in Hin. destruct Hin. }
  rewrite Ht0, ?Hp0 in *. cbn [app] in *. apply Hr0 in Hdeadline. clear Ht0 Hp0 Hr0.
  rewrite Henv in Hdeadline.
  exists address, tol, deadline.
  unfold requests_post in *.
  match type of Hin with
  | In _ (trace (bind (ask ?c ?show ?sem) ?f ?w0)) =>
      destruct (ask_cases c show sem w0) as [(e1 & Hr1 & Ht1) | (a1 & Hr1 & Ht1 & _)];
      split_bind_as (ask c show sem) f w0 response Hpost
  end.
  - rewrite Ht1 in Hin. destruct Hin as [Hx | []]. subst x. cbn.
    repeat split; auto. intros; discriminate.
  - rewrite Hr1 in Hpost. discriminate.
  - rewrite Hr1 in Hpost. discriminate.
  - rewrite Hr1 in Hpost. inversion Hpost; subst a1. clear Hpost.
    apply in_app_or in Hin. destruct Hin as [Hin | Hin].
    + rewrite Ht1 in Hin. destruct Hin as [Hx | []]. subst x. cbn.
      repeat split; auto.
      intros resp Hresp. inversion Hresp; subst resp.
      eexists. unfold after_build_reply. reflexivity.
    + exfalso. fold (after_build_reply response) in Hin.
      rewrite after_build_reply_trace in Hin. destruct Hin.
Qed.

Definition no_build_request (e : entry) : Prop := is_build_request (fst e) = false.



End Encode.


(** ** [EvmTradeHelper.trade] *)

Section Trade.
Context {F : PyFloat} {P : Platform}.

(** [fails m]: no run of [m] returns. *)
Definition fails {A} (m : M A) : Prop := forall w, exists e, res (m w) = Raise e.

Lemma fails_raise {A} (e : exn) : fails (@raise World entry A e).
Proof. intros w. exists e. reflexivity. Qed.

Lemma fails_bind_l {A B} (m : M A) (f : A -> M B) : fails m -> fails (bind m f).
Proof.
  intros H w. destruct (H w) as (e & He). exists e.
  apply (bind_Raise m f w e He).
Qed.

Lemma fails_bind_r {A B} (m : M A) (f : A -> M B) :
  (forall a, fails (f a)) -> fails (bind m f).
Proof.
  intros H w.
  destruct (bind_cases m f w) as [(e & _ & Hr & _) | (a & _ & Hr & _)].
  - exists e. exact Hr.
  - destruct (H a (post (m w))) as (e & He). exists e. congruence.
Qed.

Definition is_send_call (c : call) : bool :=
  match c with SendTransaction _ => true | _ => false end.

Definition no_send (e : entry) : Prop := is_send_call (fst e) = false.

(** [raises_once_sent e m]: a run of [m] in which [send_transaction]
    returned a hash raises [e]. *)
Definition raises_once_sent {A} (e : exn) (m : M A) : Prop :=
  forall w tx r, In (SendTransaction tx, inr r) (trace (m w)) -> res (m w) = Raise e.

Lemma raises_once_sent_quiet {A} (e : exn) (m : M A) :
  emits no_send m -> raises_once_sent e m.
Proof.
  intros H w tx r Hin. apply (emits_In _ _ _ _ H) in Hin. discriminate Hin.
Qed.

Lemma raises_once_sent_bind {A B} (e : exn) (m : M A) (f : A -> M B) :
  emits no_send m -> (forall a, raises_once_sent e (f a)) ->
  raises_once_sent e (bind m f).
Proof.
  intros Hm Hf w tx r Hin.
  destruct (bind_cases m f w) as [(e' & _ & _ & Ht & _) | (a & _ & Hr & Ht & _)];
    rewrite Ht in Hin.
  - apply (emits_In _ _ _ _ Hm) in Hin. discriminate Hin.
  - apply in_app_or in Hin. destruct Hin as [Hin | Hin].
    + apply (emits_In _ _ _ _ Hm) in Hin. discriminate Hin.
    + rewrite Hr. eapply Hf. exact Hin.
Qed.

Lemma raises_once_sent_send {B} (e : exn) (tx : Tx) (f : SignedTx -> M B) :
  (forall h w, res (f h w) = Raise e) ->
  raises_once_sent e (bind (send_transaction tx) f).
Proof.
  intros Hf w tx' r Hin. unfold send_transaction in *.
  match type of Hin with
  | In _ (trace (bind (ext ?c ?show ?sem) _ _)) =>
      destruct (ext_cases c show sem w) as [(e1 & Hr1 & Ht1) | (a1 & Hr1 & Ht1 & _)];
      destruct (bind_cases (ext c show sem) f w)
        as [(e' & Hm & _ & Ht & _) | (a & Hm & Hr & _ & _)]
  end.
  - rewrite Ht, Ht1 in Hin. destruct Hin as [Hx | []]. discriminate Hx.
  - congruence.
  - congruence.
  - rewrite Hr. apply Hf.
Qed.

(** C2. No run of [trade] returns: every run raises.  A run in which
    [send_transaction] returned the hash of the swap transaction raises
    [NameError] for [tx_hash_1], the name the status message reads and no
    assignment of the function binds. *)
Theorem trade_never_returns (private_key output_token : string)
    (input_amount : float) (input_token : option string) (slippage_bps : option Z)
    (w : World) :
  let o := trade private_key output_token input_amount input_token slippage_bps w in
  (exists e, res o = Raise e) /\
  (forall tx r, In (SendTransaction tx, inr r) (trace o) ->
                res o = Raise (NameError "tx_hash_1")).
Proof.
  intros o. subst o. split.
  - revert w. change (fails (trade private_key output_token input_amount input_token
                               slippage_bps)).
    unfold trade, unbound_name.
    repeat first
      [ apply fails_raise
      | apply fails_bind_l; apply fails_raise
      | apply fails_bind_r; intros ?
      | match goal with
        | |- fails (if ?b then _ else _) => destruct b
        end ].
  - revert w. change (raises_once_sent (NameError "tx_hash_1")
                        (trade private_key output_token input_amount input_token
                               slippage_bps)).
    unfold trade, unbound_name.
    repeat first
      [ match goal with
        | |- raises_once_sent _ (bind (send_transaction _) _) =>
            apply raises_once_sent_send; intros h w; reflexivity
        end
      | apply raises_once_sent_bind;
        [ unfold no_send, eth_block_number, fetch_deployment, fetch_erc20_details,
            fetch_balance_of, EvmContractHelper_read_contract, input,
            swap_with_slippage_protection;
          solve [emits_auto]
        | intros ?; cbv beta ]
      | match goal with
        | |- raises_once_sent _ (if ?b then _ else _) => destruct b
        end
      | solve [apply raises_once_sent_quiet; unfold no_send; emits_auto] ].
Qed.

End Trade.

(** One USDC is traded for WETH, the user confirming: the swap
    transaction is sent, and the run raises [NameError]. *)
Lemma trade_never_returns_witness :
  let o := trade Example.me Example.weth (1 # 1) (Some Example.usdc) None
                 (Example.world 5000000 0) in
  let tx := mkTx (Some Example.me) (Some UNISWAP_V3_ROUTER)
                 (Some (ExactInputData Example.usdc Example.weth 1000000 Example.me
                                       100 [500]))
                 (Some 7) (Some 5000000000) (Some 146) (Some 0) (Some 350000) in
  In (SendTransaction tx, inr (RSigned (mkSigned tx Example.me))) (trace o) /\
  res o = Raise (NameError "tx_hash_1").
Proof.
  intros o tx.
  assert (Hin : In (SendTransaction tx, inr (RSigned (mkSigned tx Example.me))) (trace o))
    by in_at 17%nat.
  split; [exact Hin |].
  destruct (@trade_never_returns RationalFloat ExamplePlatform
              Example.me Example.weth (1 # 1) (Some Example.usdc) None
              (Example.world 5000000 0)) as (_ & Hsent).
  exact (Hsent tx _ Hin).
Defined.

(** C1.  [trade] submits its swap transaction below the allowance it
    needs.  The account holds five USDC and the router has no allowance;
    one USDC, 1000000 raw units, is traded.  [trade] reads the allowance,
    builds the [approve] and never sends it: the only transaction
    submitted is the swap, and the allowance of the router it met at the
    node was 0; after the run the allowance is still 0. *)
Theorem trade_submits_below_allowance :
  let w := Example.world 5000000 0 in
  let o := trade Example.me Example.weth (1 # 1) (Some Example.usdc) None w in
  let swap_tx := mkTx (Some Example.me) (Some UNISWAP_V3_ROUTER)
                      (Some (ExactInputData Example.usdc Example.weth 1000000
                                            Example.me 100 [500]))
                      (Some 7) (Some 5000000000) (Some 146) (Some 0) (Some 350000) in
  is_native Example.usdc = false /\
  convert_to_raw 6 (1 # 1) = inr 1000000 /\
  map (fun e => fst e)
      (filter (fun e => is_transaction_call (fst e)) (trace o))
  = [BuildTransaction Example.usdc (Approve (VStr UNISWAP_V3_ROUTER) 1000000)
       (mkTx (Some Example.me) None None None (Some 5000000000) None None (Some 350000));
     BuildTransaction UNISWAP_V3_ROUTER
       (ExactInput Example.usdc Example.weth 1000000 Example.me 100 [500])
       (mkTx (Some Example.me) None None (Some 7) (Some 5000000000) None None
             (Some 350000));
     SendTransaction swap_tx] /\
  map (fun p => (stx_tx (fst p), snd p Example.usdc Example.me UNISWAP_V3_ROUTER))
      (submitted (st (post o)))
  = [(swap_tx, 0)] /\
  allowance_of (st (post o)) Example.usdc Example.me UNISWAP_V3_ROUTER = 0 /\
  0 < 1000000.
Proof.
  intros w o swap_tx.
  split; [reflexivity |].
  split; [vm_compute; reflexivity |].
  split; [vm_compute; reflexivity |].
  split; [vm_compute; reflexivity |].
  split; [vm_compute; reflexivity | reflexivity].
Qed.
(** ** The actions of evm_actions.py *)

Section Actions.
Context {F : PyFloat} {P : Platform}.

(** A run of an action, by the outcome of the operation behind it. *)
Lemma action_run (announce action_name : string) (params : list value)
    (done : value -> string) (failed : string) (failure : value)
    (agent : Agent) (w : World) :
  let w1 := post (logger "INFO" announce w) in
  let u := perform_action agent "evm" action_name params w1 in
  let o := action announce action_name params done failed failure agent w in
  (forall v, res u = Return v ->
             res o = Return v /\ trace o = trace u /\
             log (st (post o)) = log (st (post u)) ++ [("INFO", done v)]) /\
  (forall e, res u = Raise e -> is_Exception e = true ->
             res o = Return failure /\ trace o = trace u /\
             log (st (post o)) = log (st (post u)) ++ [("ERROR", failed ++ str_exn e)%string]) /\
  (forall e, res u = Raise e -> is_Exception e = false ->
             res o = Raise e /\ trace o = trace u /\ post o = post u).
Proof.
  intros w1 u o. subst o. unfold action, agent_logger, bind, try_except.
  cbn [logger res post trace].
  change (with_state (add_log "INFO" announce) w) with w1.
  change (perform_action agent "evm" action_name params w1) with u.
  destruct (res u) as [v0 | e0] eqn:E; cbn [res post trace].
  - split; [| split]; intros; try discriminate.
    inversion H; subst. rewrite app_nil_r.
    repeat split.
  - destruct (is_Exception e0) eqn:Hex; cbn [res post trace];
      (split; [| split]); intros; try discriminate;
      inversion H; subst; try congruence.
    + rewrite !app_nil_r. repeat split.
    + rewrite ?E. repeat split.
Qed.

(** The value an action gives when the operation behind it failed:
    [None] for the actions that read, [False] for those that write. *)
Definition failure_value (name : string) : value :=
  if existsb (String.eqb name)
       ["evm-balance"; "evm-get-price"; "evm-get-tps"; "evm-get-token-by-ticker";
        "evm-get-token-by-address"; "evm-list-contract-functions";
        "evm-call-contract-function"]
  then VNone else VBool false.

(** C10, amended.  Every action of the registry calls one operation of the
    connection manager and stands between it and the caller: what the
    operation returns the action returns; an exception it raises that
    [except Exception] catches is logged as an error and turned into the
    action's failure value, [None] for a query and [False] otherwise.
    What [except Exception] does not catch, as the [SystemExit] of
    [sys.exit], leaves the action as it was raised. *)
Theorem actions_catch_exceptions (name : string)
    (act : Agent -> list (string * value) -> M value)
    (agent : Agent) (kwargs : list (string * value)) (w : World) :
  In (name, act) actions ->
  exists announce action_name params failed,
    let w1 := post (logger "INFO" announce w) in
    let u := perform_action agent "evm" action_name params w1 in
    let o := act agent kwargs w in
    (forall v, res u = Return v -> res o = Return v) /\
    (forall e, res u = Raise e -> is_Exception e = true ->
               res o = Return (failure_value name) /\
               log (st (post o))
               = log (st (post u)) ++ [("ERROR", failed ++ str_exn e)%string]) /\
    (forall e, res u = Raise e -> is_Exception e = false -> res o = Raise e).
Proof.
  intros Hin. unfold actions in Hin. cbn [In] in Hin.
  repeat (destruct Hin as [Hin | Hin];
          [ inversion Hin; subst name act; clear Hin;
            unfold evm_transfer, evm_swap, evm_balance, evm_stake, evm_lend,
              request_faucet_funds, evm_deploy_token, evm_get_price, evm_get_tps,
              get_token_data_by_ticker, get_token_data_by_address,
              launch_pump_fun_token, list_contract_functions,
              call_contract_function, wrap_eth;
            match goal with
            | |- context [action ?a ?n ?p ?d ?fl ?fv agent w] =>
                exists a, n, p, fl;
                destruct (action_run a n p d fl fv agent w) as (H1 & H2 & H3);
                cbv zeta in *;
                split;
                [ intros v Hv; apply (H1 v Hv)
                | split;
                  [ intros e He Hex; destruct (H2 e He Hex) as (Ha & _ & Hb);
                    split; [exact Ha | exact Hb]
                  | intros e He Hex; apply (H3 e He Hex) ] ]
            end
          | ]).
  destruct Hin.
Qed.

End Actions.

(** An agent whose connection manager runs [trade] for the action
    "trade", one USDC for WETH, and knows no other action. *)
Definition trading_agent : Agent :=
  mkAgent (fun _ action_name _ =>
             if String.eqb action_name "trade"
             then trade Example.me Example.weth (1 # 1) (Some Example.usdc) (Some 100)
             else raise (KeyError action_name)).

(** The balance is asked of an agent that does not know the action: the
    [KeyError] is caught and the action gives [None]. *)
Lemma actions_catch_exceptions_witness :
  let w := Example.world 5000000 0 in
  res (evm_balance trading_agent [] w) = Return VNone /\
  exists announce action_name params failed,
    let w1 := post (logger "INFO" announce w) in
    let u := perform_action trading_agent "evm" action_name params w1 in
    let o := evm_balance trading_agent [] w in
    (forall v, res u = Return v -> res o = Return v) /\
    (forall e, res u = Raise e -> is_Exception e = true ->
               res o = Return (failure_value "evm-balance") /\
               log (st (post o))
               = log (st (post u)) ++ [("ERROR", failed ++ str_exn e)%string]) /\
    (forall e, res u = Raise e -> is_Exception e = false -> res o = Raise e).
Proof.
  intros w. split; [vm_compute; reflexivity |].
  apply (@actions_catch_exceptions RationalFloat ExamplePlatform
           "evm-balance" evm_balance trading_agent [] w).
  unfold actions. cbn [In]. auto.
Defined.

(** The user answers "n" at the prompt of [trade]: [sys.exit(1)] raises
    [SystemExit], which [except Exception] does not catch, and the action
    "evm-swap" lets it through to its caller. *)
Lemma evm_swap_propagates_counterexample :
  let w := mkWorld (Example.environment true 1 0 Example.good_build "n")
                   (Example.state 5000000 0) in
  In ("evm-swap", evm_swap) actions /\
  res (perform_action trading_agent "evm" "trade" [] w) = Raise (SystemExit 1) /\
  res (evm_swap trading_agent [] w) = Raise (SystemExit 1).
Proof.
  intros w. split; [unfold actions; cbn [In]; auto |].
  split; vm_compute; reflexivity.
Qed.
(** * More of sonic_connection.py *)

(** ** [_get_web3] and [is_configured] *)

Section Connection.
Context {F : PyFloat} {P : Platform}.

(** [is_configured].  [load_dotenv()] has filled the environment the
    world gives. *)
Definition is_configured (self : SonicConnection) (verbose : bool) : M bool :=
  try_except
    (private_key <- getenv "SONIC_PRIVATE_KEY" ;;
     match nonempty private_key with
     | None =>
         when verbose (logger "ERROR" "Missing SONIC_PRIVATE_KEY in .env") ;;
         ret false
     | Some _ => _get_web3 self verbose
     end)
    (fun e =>
       when verbose (logger "ERROR" ("Configuration check failed: " ++ str_exn e)%string) ;;
       ret false).

(** The state but for its log. *)
Definition same_but_log (w w' : World) : Prop :=
  same_chain w w' /\ ncalls (st w') = ncalls (st w).

Lemma try_except_Return {A} (m : M A) (h : exn -> M A) (w : World) (a : A) :
  res (m w) = Return a -> try_except m h w = m w.
Proof. intros H. unfold try_except. rewrite H. reflexivity. Qed.

Lemma try_except_caught {A} (m : M A) (h : exn -> M A) (w : World) (e : exn) :
  res (m w) = Raise e -> is_Exception e = true ->
  res (try_except m h w) = res (h e (post (m w))) /\
  trace (try_except m h w) = trace (m w) ++ trace (h e (post (m w))) /\
  post (try_except m h w) = post (h e (post (m w))).
Proof. intros H He. unfold try_except. rewrite H, He. repeat split. Qed.

Lemma stable_get_web3 self verbose : stable (_get_web3 self verbose).
Proof. unfold _get_web3, when. repeat stable_step. Qed.

Lemma when_trace (b : bool) (m : M unit) (w : World) :
  trace (m w) = [] -> trace (when b m w) = [].
Proof. destruct b; [auto | reflexivity]. Qed.

Lemma when_res (b : bool) level msg (w : World) :
  res (when b (logger level msg) w) = Return tt.
Proof. destruct b; reflexivity. Qed.

(** The outcome of [_get_web3] and the calls it made. *)
Lemma get_web3_run (self : SonicConnection) (verbose : bool) (w : World) :
  (res (_get_web3 self verbose w) = Return true /\
   _web3 self = true /\
   trace (_get_web3 self verbose w) = [(IsConnected, inr (RBool true))]) \/
  (res (_get_web3 self verbose w) = Return false /\
   (trace (_get_web3 self verbose w) = [] \/
    trace (_get_web3 self verbose w) = [(IsConnected, inr (RBool false))] \/
    exists err, trace (_get_web3 self verbose w) = [(IsConnected, inl err)])).
Proof.
  unfold _get_web3. destruct (_web3 self); cbn [negb].
  - match goal with
    | |- context [try_except (bind (ask ?c ?show ?sem) ?f) ?h w] =>
        destruct (ask_cases c show sem w) as [(e & Hr & Ht) | (a & Hr & Ht & _)];
        [ destruct (bind_Raise (ask c show sem) f w _ Hr) as (Hbr & Hbt & _);
          destruct (try_except_caught (bind (ask c show sem) f) h w _ Hbr eq_refl)
            as (Htr & Htt & _)
        | destruct (bind_Return (ask c show sem) f w _ Hr) as (Hbr & Hbt & _) ]
    end.
    + right. rewrite Htr, Htt, Hbt, Ht. unfold bind. rewrite when_res.
      split; [reflexivity |]. right. right. exists e.
      cbn [res post trace ret]. rewrite when_trace by reflexivity. reflexivity.
    + destruct a; cbn [negb] in *.
      * left. rewrite (try_except_Return _ _ _ true) by (rewrite Hbr; reflexivity).
        rewrite Hbr, Hbt, Ht. repeat split.
      * right.
        assert (Hres : res ((when verbose (logger "ERROR" "Not connected to Sonic network") ;;
                             ret false) (post (ask IsConnected RBool
                                                 (fun e _ => inr (node_connected e)) w)))
                       = Return false)
          by (unfold bind; rewrite when_res; reflexivity).
        rewrite (try_except_Return _ _ _ false) by (rewrite Hbr; exact Hres).
        rewrite Hbr, Hbt, Ht. split; [exact Hres |]. right. left.
        unfold bind. rewrite when_res. cbn [res post trace ret].
        rewrite when_trace by reflexivity. reflexivity.
  - right. unfold bind. rewrite when_res. cbn [res post trace ret].
    rewrite when_trace by reflexivity. split; [reflexivity | left; reflexivity].
Qed.

Lemma get_web3_never_raises_aux (self : SonicConnection) (verbose : bool) (w : World) :
  exists b, res (_get_web3 self verbose w) = Return b /\
            (b = true <->
             _web3 self = true /\
             trace (_get_web3 self verbose w) = [(IsConnected, inr (RBool true))]).
Proof.
  destruct (get_web3_run self verbose w)
    as [(Hr & Hw & Ht) | (Hr & [Ht | [Ht | (err & Ht)]])];
    rewrite ?Hr, ?Ht;
    try (exists false; split; [reflexivity |];
         split; [discriminate | intros [_ H]; discriminate]).
  exists true. split; [reflexivity |]. split; auto.
Qed.

(** X1. [_get_web3] never raises.  It gives the instance exactly when
    there is one and the node answered the connection check with [True];
    a check that raises is taken for no connection.  It asks the node at
    most once and changes nothing of the chain. *)
Theorem get_web3_never_raises (self : SonicConnection) (verbose : bool) (w : World) :
  let o := _get_web3 self verbose w in
  (exists b, res o = Return b /\
             (b = true <->
              _web3 self = true /\ trace o = [(IsConnected, inr (RBool true))])) /\
  (trace o = [] \/ exists r, trace o = [(IsConnected, r)]) /\
  same_chain w (post o).
Proof.
  intros o. subst o.
  split; [| split; [| apply stable_get_web3]];
    destruct (get_web3_run self verbose w)
      as [(Hr & Hw & Ht) | (Hr & [Ht | [Ht | (err & Ht)]])];
    rewrite ?Hr, ?Ht; eauto;
    try (exists false; split; [reflexivity |];
         split; [discriminate | intros [_ H]; discriminate]).
  exists true. split; [reflexivity |]. split; auto.
Qed.

Lemma getenv_run (name : string) (w : World) :
  getenv name w = mkOut (Return (environ (env w) name)) w [].
Proof. reflexivity. Qed.

Lemma bind_getenv {B} (name : string) (f : option string -> M B) (w : World) :
  res (bind (getenv name) f w) = res (f (environ (env w) name) w) /\
  trace (bind (getenv name) f w) = trace (f (environ (env w) name) w) /\
  post (bind (getenv name) f w) = post (f (environ (env w) name) w).
Proof. unfold bind. rewrite getenv_run. cbn. repeat split. Qed.

(** The outcome of [is_configured] and the calls it made. *)
Lemma is_configured_run (self : SonicConnection) (verbose : bool) (w : World) :
  match nonempty (environ (env w) "SONIC_PRIVATE_KEY") with
  | None => res (is_configured self verbose w) = Return false /\
            trace (is_configured self verbose w) = []
  | Some _ => res (is_configured self verbose w) = res (_get_web3 self verbose w) /\
              trace (is_configured self verbose w) = trace (_get_web3 self verbose w)
  end /\
  same_chain w (post (is_configured self verbose w)).
Proof.
  split.
  - unfold is_configured.
    match goal with
    | |- context [try_except (bind (getenv ?n) ?f) ?h w] =>
        destruct (bind_getenv n f w) as (Hr & Ht & _);
        assert (Hret : exists b, res (bind (getenv n) f w) = Return b);
        [| destruct Hret as (b & Hb);
           rewrite (try_except_Return _ _ _ _ Hb); rewrite Hr, Ht ]
    end.
    + rewrite Hr. destruct (nonempty (environ (env w) "SONIC_PRIVATE_KEY")).
      * destruct (get_web3_run self verbose w) as [(H & _) | (H & _)]; eauto.
      * exists false. destruct verbose; reflexivity.
    + destruct (nonempty (environ (env w) "SONIC_PRIVATE_KEY")).
      * split; reflexivity.
      * destruct verbose; split; reflexivity.
  - revert w. change (stable (is_configured self verbose)).
    unfold is_configured, _get_web3, when. repeat stable_step.
Qed.

(** X2. [is_configured] never raises.  Without a private key in the
    environment it answers [False] and does not contact the node; it
    answers [True] exactly when the key is there, the connection has its
    instance and the node answered the connection check with [True].  It
    changes nothing of the chain. *)
Theorem is_configured_never_raises (self : SonicConnection) (verbose : bool) (w : World) :
  let o := is_configured self verbose w in
  exists b,
    res o = Return b /\
    (nonempty (environ (env w) "SONIC_PRIVATE_KEY") = None -> b = false /\ trace o = []) /\
    (b = true <->
     nonempty (environ (env w) "SONIC_PRIVATE_KEY") <> None /\
     _web3 self = true /\
     trace o = [(IsConnected, inr (RBool true))]) /\
    same_chain w (post o).
Proof.
  intros o. subst o.
  destruct (is_configured_run self verbose w) as (Hrun & Hchain).
  destruct (nonempty (environ (env w) "SONIC_PRIVATE_KEY")) as [k |].
  - destruct Hrun as (Hr & Ht). rewrite Hr, Ht.
    destruct (get_web3_never_raises_aux self verbose w) as (b & Hb & Hiff).
    exists b. split; [exact Hb |]. split; [discriminate |]. split; [| exact Hchain].
    rewrite Hiff. split; [intros H; split; [discriminate | exact H] | tauto].
  - destruct Hrun as (Hr & Ht). rewrite Hr, Ht. exists false.
    split; [reflexivity |]. split; [auto |]. split; [| exact Hchain].
    split; [discriminate | intros (H & _); congruence].
Qed.

End Connection.

(** ** [perform_action] *)

Section Dispatch.
Context {F : PyFloat} {P : Platform}.

Fixpoint lookup {A} (k : string) (l : list (string * A)) : option A :=
  match l with
  | [] => None
  | (k', v) :: r => if String.eqb k k' then Some v else lookup k r
  end.

(** [SonicConnection.perform_action].  [actions] is [self.actions], the
    dictionary [register_actions] fills with the bound methods; a method
    takes the keyword arguments. *)
Definition SonicConnection_perform_action (self : SonicConnection)
    (actions : list (string * (list (string * value) -> M value)))
    (action_name : string) (kwargs : list (string * value)) : M value :=
  match lookup action_name actions with
  | None => raise (KeyError ("Unknown action: " ++ action_name)%string)
  | Some method =>
      configured <- is_configured self true ;;
      if negb configured
      then raise (SonicConnectionError "Sonic is not properly configured")
      else method kwargs
  end.

(** X3. [perform_action] stands guard before the methods.  A name that is
    not registered raises [KeyError] with nothing done.  A registered
    method is run only when [is_configured] holds, that is after the one
    connection check the node answered with [True] and with a private key
    in the environment; its outcome is then the outcome of
    [perform_action].  Otherwise [perform_action] raises "Sonic is not
    properly configured", the method is not run and nothing of the chain
    has changed. *)
Theorem perform_action_guard (self : SonicConnection)
    (actions : list (string * (list (string * value) -> M value)))
    (action_name : string) (kwargs : list (string * value)) (w : World) :
  let o := SonicConnection_perform_action self actions action_name kwargs w in
  (lookup action_name actions = None ->
   res o = Raise (KeyError ("Unknown action: " ++ action_name)%string) /\
   trace o = [] /\ post o = w) /\
  (forall method, lookup action_name actions = Some method ->
     (res o = Raise (SonicConnectionError "Sonic is not properly configured") /\
      (trace o = [] \/ exists r, trace o = [(IsConnected, r)]) /\
      same_chain w (post o))
     \/
     (exists w', same_chain w w' /\
                 nonempty (environ (env w) "SONIC_PRIVATE_KEY") <> None /\
                 res o = res (method kwargs w') /\
                 trace o = (IsConnected, inr (RBool true)) :: trace (method kwargs w') /\
                 post o = post (method kwargs w'))).
Proof.
  intros o. subst o. unfold SonicConnection_perform_action. split.
  - intros ->. repeat split.
  - intros method ->.
    destruct (is_configured_run self true w) as (Hrun & Hchain).
    match goal with
    | |- context [bind (is_configured self true) ?f w] =>
        destruct (bind_cases (is_configured self true) f w)
          as [(e & Hm & _) | (b & Hm & Hr & Ht & Hp)]
    end.
    + exfalso. destruct (nonempty (environ (env w) "SONIC_PRIVATE_KEY"));
        destruct Hrun as (Hres & _); rewrite Hres in Hm; [| discriminate].
      destruct (get_web3_run self true w) as [(H & _) | (H & _)]; congruence.
    + rewrite Hr, Ht, Hp. destruct b; cbn [negb].
      * right. exists (post (is_configured self true w)).
        split; [exact Hchain |].
        destruct (nonempty (environ (env w) "SONIC_PRIVATE_KEY"));
          destruct Hrun as (Hres & Htr); rewrite Hres in Hm; [| discriminate].
        split; [discriminate |].
        destruct (get_web3_run self true w) as [(H & _ & Hone) | (H & _)];
          [| congruence].
        rewrite Htr, Hone. repeat split.
      * left. cbn [raise res post trace]. rewrite app_nil_r.
        split; [reflexivity |]. split; [| exact Hchain].
        destruct (nonempty (environ (env w) "SONIC_PRIVATE_KEY"));
          destruct Hrun as (_ & Htr); rewrite Htr; [| auto].
        destruct (get_web3_run self true w)
          as [(_ & _ & Hone) | (_ & [Hone | [Hone | (err & Hone)]])];
          rewrite Hone; eauto.
Qed.

End Dispatch.
(** ** More on [swap] *)

Section SwapMore.
Context {F : PyFloat} {P : Platform}.

Lemma web3_or_raise_run (self : SonicConnection) (w : World) :
  res (web3_or_raise self w) = Return tt \/
  res (web3_or_raise self w) = Raise (SonicConnectionError "Web3 not initialized").
Proof.
  unfold web3_or_raise.
  match goal with
  | |- context [bind ?m ?f w] =>
      destruct (bind_cases m f w) as [(e & Hm & _) | (b & Hm & Hr & _)]
  end.
  - exfalso. destruct (get_web3_run self true w) as [(H & _) | (H & _)]; congruence.
  - rewrite Hr. destruct b; [left | right]; reflexivity.
Qed.

Lemma load_account_no_key (w : World) :
  nonempty (environ (env w) "SONIC_PRIVATE_KEY") = None ->
  res (load_account w) = Raise (SonicConnectionError "No wallet configured").
Proof.
  intros H. unfold load_account.
  match goal with
  | |- context [bind (getenv ?n) ?f w] => destruct (bind_getenv n f w) as (Hr & _)
  end.
  rewrite Hr, H. reflexivity.
Qed.

(** X4. Without a private key in the environment [swap] raises before
    anything is read or asked: "No wallet configured", or "Web3 not
    initialized" when the connection check failed first.  The node was
    asked for the connection at most, and nothing else was called. *)
Theorem swap_needs_wallet (self : SonicConnection) (token_in token_out : string)
    (amount : float) (slippage : option float) (w : World) :
  nonempty (environ (env w) "SONIC_PRIVATE_KEY") = None ->
  let o := swap self token_in token_out amount slippage w in
  (res o = Raise (SonicConnectionError "No wallet configured") \/
   res o = Raise (SonicConnectionError "Web3 not initialized")) /\
  (trace o = [] \/ exists r, trace o = [(IsConnected, r)]).
Proof.
  intros Hkey o. subst o. rewrite swap_stages, logged_res, logged_trace.
  match goal with
  | |- context [bind (web3_or_raise self) ?f w] =>
      destruct (bind_cases (web3_or_raise self) f w)
        as [(e & Hm & Hr & Ht & _) | (u & Hm & Hr & Ht & _)];
      rewrite Hr, Ht; clear Hr Ht
  end.
  - split; [| apply web3_or_raise_trace].
    destruct (web3_or_raise_run self w) as [H | H]; rewrite H in Hm;
      [discriminate | inversion Hm; auto].
  - assert (Hkey' : nonempty (environ (env (post (web3_or_raise self w)))
                                      "SONIC_PRIVATE_KEY") = None).
    { destruct (stable_web3_or_raise self w) as (He & _). rewrite He. exact Hkey. }
    apply load_account_no_key in Hkey'.
    destruct (load_account_run (post (web3_or_raise self w))) as (_ & Htl).
    match goal with
    | |- context [bind load_account ?f ?w0] =>
        destruct (bind_Raise load_account f w0 _ Hkey') as (Hr & Ht & _);
        rewrite Hr, Ht, Htl, app_nil_r
    end.
    split; [left; reflexivity | apply web3_or_raise_trace].
Qed.

(** X5. When the aggregator answers the build request of a run of
    [swap] with a code other than 0, [swap] raises, and no transaction
    has been built, signed or sent: neither an approval nor the swap. *)
Theorem swap_build_failure (self : SonicConnection) (token_in token_out : string)
    (amount : float) (slippage : option float) (w : World)
    (x : entry) (resp : HttpResponse) (data code : value) :
  In x (trace (swap self token_in token_out amount slippage w)) ->
  is_build_request (fst x) = true ->
  snd x = inr (RResponse resp) ->
  body resp = Some data ->
  dict_get data "code" VNone = Return code ->
  ne_int code 0 = true ->
  (exists e, res (swap self token_in token_out amount slippage w) = Raise e /\
             (e = OtherException "HTTPError" (str_int (status_code resp)) \/
              exists m, e = SonicConnectionError ("API error: " ++ m)%string)) /\
  Forall no_transaction (trace (swap self token_in token_out amount slippage w)).
Proof.
  intros Hin Hsel Hresp Hbody Hcode Hne. rewrite swap_stages in *.
  rewrite ?logged_trace, ?logged_res in *.
  assert (Hagg : is_aggregator_call (fst x) = true)
    by (destruct x as [[] r]; cbn in *; congruence).
  assert (Hno : forall y, no_build_request y -> y = x -> False).
  { intros y Hy ->. unfold no_build_request in Hy. congruence. }
  match type of Hin with
  | In _ (trace (bind ?m ?f ?w0)) =>
      assert (E : emits no_build_request m) by (unfold no_build_request; emits_auto);
      assert (T1 : emits no_transaction m) by (unfold no_transaction; emits_auto);
      specialize (E w0); specialize (T1 w0);
      split_bind_as m f w0 done Hweb
  end.
  { exfalso. eapply Hno; [eapply Forall_forall; eassumption | reflexivity]. }
  apply in_app_or in Hin. destruct Hin as [Hin | Hin].
  { exfalso. eapply Hno; [eapply Forall_forall; eassumption | reflexivity]. }
  clear E.
  match type of Hin with
  | In _ (trace (bind ?m ?f ?w0)) =>
      destruct (load_account_run w0) as (Hp0 & Ht0);
      split_bind_as m f w0 acc Hacc
  end.
  { rewrite Ht0 in Hin. destruct Hin. }
  rewrite Ht0, ?Hp0 in *. cbn [app] in *. destruct acc as [private_key address].
  clear Ht0 Hp0.
  match type of Hin with
  | In _ (trace (bind (get_balance ?s ?ad ?tk) ?f ?w0)) =>
      assert (E : emits no_build_request (get_balance s ad tk))
        by (unfold no_build_request; emits_auto);
      assert (T2 : emits no_transaction (get_balance s ad tk))
        by (unfold no_transaction; emits_auto);
      specialize (E w0); specialize (T2 w0);
      split_bind_as (get_balance s ad tk) f w0 balance Hbal
  end.
  { exfalso. eapply Hno; [eapply Forall_forall; eassumption | reflexivity]. }
  apply in_app_or in Hin. destruct Hin as [Hin | Hin].
  { exfalso. eapply Hno; [eapply Forall_forall; eassumption | reflexivity]. }
  clear E.
  destruct (flt balance amount).
  { destruct Hin. }
  match type of Hin with
  | In _ (trace (bind (_get_swap_route ?s ?a1 ?a2 ?a3) ?f ?w0)) =>
      assert (E : emits no_build_request (_get_swap_route s a1 a2 a3))
        by (unfold no_build_request; emits_auto);
      assert (T3 : emits no_transaction (_get_swap_route s a1 a2 a3))
        by (unfold no_transaction; emits_auto);
      specialize (E w0); specialize (T3 w0);
      split_bind_as (_get_swap_route s a1 a2 a3) f w0 rd Hroute
  end.
  { exfalso. eapply Hno; [eapply Forall_forall; eassumption | reflexivity]. }
  apply in_app_or in Hin. destruct Hin as [Hin | Hin].
  { exfalso. eapply Hno; [eapply Forall_forall; eassumption | reflexivity]. }
  clear E.
  match type of Hin with
  | In _ (trace (bind ?m ?f ?w0)) =>
      destruct (lift_run (subscript rd "routeSummary") w0) as (Hp0 & Ht0 & _);
      split_bind_as m f w0 summary Hsum
  end.
  { rewrite Ht0 in Hin. destruct Hin. }
  rewrite Ht0, ?Hp0 in *. cbn [app] in *. clear Ht0 Hp0.
  match type of Hin with
  | In _ (trace (bind (_get_encoded_swap_data ?s ?a1 ?a2) ?f ?w0)) =>
      assert (T4 : emits no_transaction (_get_encoded_swap_data s a1 a2))
        by (unfold no_transaction; emits_auto);
      specialize (T4 w0);
      pose proof (get_encoded_swap_data_request s a1 a2 w0 x) as Hreq;
      split_bind_as (_get_encoded_swap_data s a1 a2) f w0 enc Henc
  end.
  - destruct (Hreq Hin Hagg) as (address' & tol & deadline & _ & _ & _ & Hreply).
    destruct (Hreply resp Hresp) as (w' & Hw').
    destruct (after_build_reply_nonzero resp data code w' Hbody Hcode Hne)
      as (e' & He' & Hkind).
    split.
    + exists e. split; [reflexivity |]. assert (e = e') by congruence. subst e'.
      exact Hkind.
    + repeat (apply Forall_app; split); assumption.
  - exfalso. apply in_app_or in Hin. destruct Hin as [Hin | Hin].
    + destruct (Hreq Hin Hagg) as (address' & tol & deadline & _ & _ & _ & Hreply).
      destruct (Hreply resp Hresp) as (w' & Hw').
      destruct (after_build_reply_nonzero resp data code w' Hbody Hcode Hne)
        as (e' & He' & _).
      congruence.
    + match type of Hin with
      | In _ (trace (?m ?w0)) =>
          assert (E : emits no_build_request m)
            by (unfold no_build_request, approval_amount, submit_swap, gas_or_default;
                emits_auto);
          specialize (E w0)
      end.
      eapply Hno; [eapply Forall_forall; eassumption | reflexivity].
Qed.

End SwapMore.

(** No key in the environment of the node that is connected. *)
Lemma swap_needs_wallet_witness :
  let w := mkWorld (mkEnv (fun _ => None) (1700000000 # 1) "y" true 146 1000000000 100
                          (fun _ => 0) (fun _ => None) (fun _ => None) (fun _ => "0x")
                          (fun _ _ _ => Example.route_reply 0)
                          (fun _ _ _ => Example.good_build)
                          (fun _ _ => inr 6) (fun _ => "") (fun _ => None))
                   (Example.state 0 0) in
  let o := swap Example.sonic Example.usdc Example.weth (1 # 1) None w in
  (res o = Raise (SonicConnectionError "No wallet configured") \/
   res o = Raise (SonicConnectionError "Web3 not initialized")) /\
  (trace o = [] \/ exists r, trace o = [(IsConnected, r)]).
Proof.
  intros w.
  exact (@swap_needs_wallet RationalFloat ExamplePlatform
           Example.sonic Example.usdc Example.weth (1 # 1) None w eq_refl).
Defined.

(** The aggregator answers the build request with code 4001. *)
Lemma swap_build_failure_witness :
  let w := mkWorld (Example.environment true 1 0 (Example.build_reply 4001 []) "y")
                   (Example.state 5000000 0) in
  let o := swap Example.sonic Example.usdc Example.weth (1 # 1) None w in
  res o = Raise (SonicConnectionError "API error: successfully") /\
  Forall no_transaction (trace o).
Proof.
  intros w o. split; [vm_compute; reflexivity |].
  assert (Hin : In (HttpPost "https://aggregator-api.kyberswap.com/sonic/api/v1/route/build"
                             [("x-client-id", "zerepy")]
                             (build_payload (VDict [("amountIn", VStr "1000000")])
                                            Example.me 50 1700001200),
                    @inr liberr reply (RResponse (Example.build_reply 4001 [])))
                   (trace o)) by in_at 8%nat.
  exact (proj2 (@swap_build_failure RationalFloat ExamplePlatform
                  Example.sonic Example.usdc Example.weth (1 # 1) None w
                  _ (Example.build_reply 4001 []) _ (VInt 4001)
                  Hin eq_refl eq_refl eq_refl eq_refl eq_refl)).
Defined.

Section ApprovalMore.
Context {F : PyFloat} {P : Platform}.

(** X6. When [_handle_token_approval] returns, the allowance the spender
    has from the account on the token is at least the amount asked for:
    it was so already, or the [approve] sent was mined with status 1. *)
Theorem approval_returns_with_allowance (self : SonicConnection) (token : string)
    (spender : value) (amount : Z) (w : World) :
  res (_handle_token_approval self token spender amount w) = Return tt ->
  exists c a s,
    approval_target (env w) token spender = Some (c, a, s) /\
    amount <= allowance_of
                (st (post (_handle_token_approval self token spender amount w))) c a s.
Proof. apply approval_establishes. Qed.

End ApprovalMore.

(** No allowance at first; the approval of 1000000 is mined. *)
Lemma approval_returns_with_allowance_witness :
  let w := Example.world 5000000 0 in
  let o := _handle_token_approval Example.sonic Example.usdc (VStr Example.router)
                                  1000000 w in
  allowance_of (st w) Example.usdc Example.me Example.router = 0 /\
  exists c a s,
    approval_target (env w) Example.usdc (VStr Example.router) = Some (c, a, s) /\
    1000000 <= allowance_of (st (post o)) c a s.
Proof.
  intros w o. split; [reflexivity |].
  apply (@approval_returns_with_allowance RationalFloat ExamplePlatform
           Example.sonic Example.usdc (VStr Example.router) 1000000 w).
  vm_compute. reflexivity.
Defined.
(** ** [get_balance] *)

Section Balance.
Context {F : PyFloat} {P : Platform}.

(** X7. [get_balance] only reads: it makes no request to the aggregator
    and no transaction, and leaves the chain as it is.  What it returns
    is, for a token, the balance the contract reports divided by ten to
    the decimals it reports, and without a token the balance of the
    account in wei converted by [from_wei(.., 'ether')]; the account is
    the address given, or the one of the private key when none is. *)
Theorem get_balance_reads (self : SonicConnection) (address token : option string)
    (w : World) :
  let o := get_balance self address token w in
  Forall reads_only (trace o) /\
  same_chain w (post o) /\
  forall b, res o = Return b ->
    exists owner,
      match nonempty address with
      | Some a => to_checksum_address a = inr owner
      | None => exists k a,
          nonempty (environ (env w) "SONIC_PRIVATE_KEY") = Some k /\
          account_from_key k = inr a /\
          to_checksum_address a = inr owner
      end /\
      match nonempty token with
      | Some t => exists c tk,
          to_checksum_address t = inr c /\
          erc20 (st w) c = Some tk /\
          truediv (balanceOf tk owner) (10 ^ Z.of_N (decimals tk)) = inr b
      | None => from_wei_ether (eth_balance (env w) owner) = inr b
      end.
Proof.
  intros o. subst o.
  split; [apply emits_get_balance |].
  split; [apply stable_get_balance |].
  intros b Hres. unfold get_balance in Hres. rewrite logged_res in Hres.
  unfold call_balanceOf, call_decimals, contract_call, eth_get_balance in Hres.
  destruct (nonempty address) as [a0 |] eqn:Ha, (nonempty token) as [t0 |] eqn:Ht;
    walk; returned; cbn [env st chain_of tick erc20] in *.
  all: try discriminate.
  all: repeat match goal with
       | H : match erc20 ?s ?c with _ => _ end = inr _ |- _ =>
           let E := fresh "Herc" in
           destruct (erc20 s c) eqn:E; [| discriminate]; inversion H; clear H; subst
       end.
  all: try (inversion Hres; subst).
  all: eexists; (split; [first [reflexivity | do 2 eexists; repeat split; eauto] |]);
    first [ do 2 eexists; repeat split; eauto | eauto ].
  all: match goal with H : inr _ = inr _ |- _ => inversion H; subst; assumption end.
Qed.

End Balance.

(** Five USDC: 5000000 raw units at six decimals. *)
Lemma get_balance_reads_witness :
  let o := get_balance Example.sonic None (Some Example.usdc) (Example.world 5000000 0) in
  res o = Return (5000000 # 1000000) /\
  Forall reads_only (trace o) /\
  same_chain (Example.world 5000000 0) (post o).
Proof.
  intros o. split; [vm_compute; reflexivity |].
  destruct (@get_balance_reads RationalFloat ExamplePlatform
              Example.sonic None (Some Example.usdc) (Example.world 5000000 0))
    as (Hreads & Hchain & _).
  split; [exact Hreads | exact Hchain].
Defined.
(** ** More on [trade] *)

Section TradeDeclined.
Context {F : PyFloat} {P : Platform}.

Definition is_input_call (c : call) : bool :=
  match c with Input _ => true | _ => false end.

(** An entry that is neither the prompt nor about a transaction. *)
Definition before_prompt (e : entry) : Prop :=
  is_input_call (fst e) = false /\ is_transaction_call (fst e) = false.

Definition no_input (e : entry) : Prop := is_input_call (fst e) = false.

(** [declines m]: a run of [m] in which the user answered the prompt with
    something that does not start with "y" exits, no transaction made. *)
Definition declines {A} (m : M A) : Prop :=
  forall w p s,
    In (Input p, inr (RStr s)) (trace (m w)) ->
    startswith "y" (lower s) = false ->
    res (m w) = Raise (SystemExit 1) /\ Forall no_transaction (trace (m w)).

Lemma declines_quiet {A} (m : M A) : emits no_input m -> declines m.
Proof.
  intros H w p s Hin _. apply (emits_In _ _ _ _ H) in Hin. discriminate Hin.
Qed.

Lemma declines_bind {A B} (m : M A) (f : A -> M B) :
  emits before_prompt m -> (forall a, declines (f a)) -> declines (bind m f).
Proof.
  intros Hm Hf w p s Hin Hs.
  destruct (bind_cases m f w) as [(e' & _ & _ & Ht & _) | (a & _ & Hr & Ht & _)];
    rewrite Ht in *.
  - apply (emits_In _ _ _ _ Hm) in Hin. destruct Hin as [Hin _]. discriminate Hin.
  - apply in_app_or in Hin. destruct Hin as [Hin | Hin].
    + apply (emits_In _ _ _ _ Hm) in Hin. destruct Hin as [Hin _]. discriminate Hin.
    + destruct (Hf a _ p s Hin Hs) as (Hres & Hno). rewrite Hr. split; [exact Hres |].
      apply Forall_app. split; [| exact Hno].
      eapply Forall_impl; [| apply Hm]. intros x [_ Hx]. exact Hx.
Qed.

Lemma declines_input {B} (prompt : string) (f : string -> M B) :
  (forall s w, startswith "y" (lower s) = false ->
               res (f s w) = Raise (SystemExit 1) /\ trace (f s w) = []) ->
  (forall s, emits no_input (f s)) ->
  declines (bind (input prompt) f).
Proof.
  intros Hf Hq w p s Hin Hs. unfold input in *.
  match type of Hin with
  | In _ (trace (bind (ask ?c ?show ?sem) _ _)) =>
      destruct (ask_cases c show sem w) as [(e1 & Hr1 & Ht1) | (a1 & Hr1 & Ht1 & _)];
      destruct (bind_cases (ask c show sem) f w)
        as [(e' & Hm & _ & Ht & _) | (a & Hm & Hr & Ht & _)]
  end; try congruence.
  - rewrite Ht, Ht1 in Hin. destruct Hin as [Hx | []]. discriminate Hx.
  - rewrite Ht in *. rewrite Hr. assert (a = a1) by congruence. subst a1.
    rewrite Ht1 in *. cbn [app In] in Hin. destruct Hin as [Hx | Hin].
    + inversion Hx. subst.
      destruct (Hf s (post (ask (Input p) RStr
                             (fun (e : Env) (_ : State) => inr (stdin e)) w)) Hs)
        as (Hres & Htr).
      rewrite Hres, Htr. split; [reflexivity |].
      constructor; [reflexivity | constructor].
    + apply (emits_In _ _ _ _ (Hq a)) in Hin. discriminate Hin.
Qed.

(** X8. A run of [trade] in which the user answers the prompt with
    something that does not start with "y" (in any case) ends by
    [sys.exit(1)]: it raises [SystemExit], and no transaction has been
    built, signed or sent. *)
Theorem trade_declined (private_key output_token : string)
    (input_amount : float) (input_token : option string) (slippage_bps : option Z)
    (w : World) (prompt answer : string) :
  let o := trade private_key output_token input_amount input_token slippage_bps w in
  In (Input prompt, inr (RStr answer)) (trace o) ->
  startswith "y" (lower answer) = false ->
  res o = Raise (SystemExit 1) /\ Forall no_transaction (trace o).
Proof.
  intros o. subst o. revert w prompt answer.
  change (declines (trade private_key output_token input_amount input_token
                          slippage_bps)).
  unfold trade, unbound_name.
  repeat first
    [ match goal with
      | |- declines (bind (input _) _) =>
          apply declines_input;
          [ intros s w Hs; cbv beta; rewrite Hs; split; reflexivity
          | intros s; cbv beta;
            unfold no_input, eth_block_number, fetch_deployment, fetch_erc20_details,
              fetch_balance_of, EvmContractHelper_read_contract,
              swap_with_slippage_protection, send_transaction,
              wait_transactions_to_complete;
            solve [emits_auto] ]
      end
    | apply declines_bind;
      [ unfold before_prompt, eth_block_number, fetch_deployment, fetch_erc20_details,
          fetch_balance_of, EvmContractHelper_read_contract;
        solve [emits_auto; split; reflexivity]
      | intros ?; cbv beta ]
    | match goal with
      | |- declines (if ?b then _ else _) => destruct b
      end
    | solve [apply declines_quiet; unfold no_input; emits_auto] ].
Qed.

End TradeDeclined.

(** The user answers "n". *)
Lemma trade_declined_witness :
  let w := mkWorld (Example.environment true 1 0 Example.good_build "n")
                   (Example.state 5000000 0) in
  let o := trade Example.me Example.weth (1 # 1) (Some Example.usdc) None w in
  In (Input "Ok [y/n]?", inr (RStr "n")) (trace o) /\
  res o = Raise (SystemExit 1) /\ Forall no_transaction (trace o).
Proof.
  intros w o.
  assert (Hin : In (Input "Ok [y/n]?", @inr liberr reply (RStr "n")) (trace o))
    by in_at 11%nat.
  split; [exact Hin |].
  exact (@trade_declined RationalFloat ExamplePlatform
           Example.me Example.weth (1 # 1) (Some Example.usdc) None w _ _ Hin eq_refl).
Defined.

Section TradeAllowance.
Context {F : PyFloat} {P : Platform}.




















End TradeAllowance.
(** ** More on the actions *)

Section ActionsMore.
Context {F : PyFloat} {P : Platform}.

Lemma action_chain (announce action_name : string) (params : list value)
    (done : value -> string) (failed : string) (failure : value)
    (agent : Agent) (w : World) :
  let w1 := post (logger "INFO" announce w) in
  let u := perform_action agent "evm" action_name params w1 in
  let o := action announce action_name params done failed failure agent w in
  same_chain w w1 /\ trace o = trace u /\ same_chain (post u) (post o).
Proof.
  intros w1 u o. subst o. unfold action, agent_logger, bind, try_except.
  cbn [logger res post trace].
  change (with_state (add_log "INFO" announce) w) with w1.
  change (perform_action agent "evm" action_name params w1) with u.
  split; [repeat split |].
  destruct (res u) as [v0 | e0]; cbn [res post trace].
  - rewrite app_nil_r. repeat split.
  - destruct (is_Exception e0); cbn [res post trace]; rewrite ?app_nil_r;
      repeat split.
Qed.

(** X10. An action calls nothing outside but through the operation of
    the connection manager, which it runs once: the calls of a run of the
    action are those of the operation, and the action itself changes
    nothing of the chain, before the operation or after it. *)
Theorem actions_add_no_call (name : string)
    (act : Agent -> list (string * value) -> M value)
    (agent : Agent) (kwargs : list (string * value)) (w : World) :
  In (name, act) actions ->
  exists announce action_name params,
    let w1 := post (logger "INFO" announce w) in
    let u := perform_action agent "evm" action_name params w1 in
    let o := act agent kwargs w in
    same_chain w w1 /\ trace o = trace u /\ same_chain (post u) (post o).
Proof.
  intros Hin. unfold actions in Hin. cbn [In] in Hin.
  repeat (destruct Hin as [Hin | Hin];
          [ inversion Hin; subst name act; clear Hin;
            unfold evm_transfer, evm_swap, evm_balance, evm_stake, evm_lend,
              request_faucet_funds, evm_deploy_token, evm_get_price, evm_get_tps,
              get_token_data_by_ticker, get_token_data_by_address,
              launch_pump_fun_token, list_contract_functions,
              call_contract_function, wrap_eth;
            match goal with
            | |- context [action ?a ?n ?p ?d ?fl ?fv agent w] =>
                exists a, n, p; apply (action_chain a n p d fl fv agent w)
            end
          | ]).
  destruct Hin.
Qed.

End ActionsMore.

(** The action "evm-swap" over [trade]: the calls are those of [trade]. *)
Lemma actions_add_no_call_witness :
  let w := Example.world 5000000 0 in
  exists announce action_name params,
    let w1 := post (logger "INFO" announce w) in
    let u := perform_action trading_agent "evm" action_name params w1 in
    let o := evm_swap trading_agent [] w in
    same_chain w w1 /\ trace o = trace u /\ same_chain (post u) (post o).
Proof.
  intros w.
  apply (@actions_add_no_call RationalFloat ExamplePlatform
           "evm-swap" evm_swap trading_agent [] w).
  unfold actions. cbn [In]. auto.
Defined.
